(** * Verification of the EDA toolkit: [src/eda/io_tar.py],
    [src/eda/prevalence.py], [src/eda/baseline.py] and the reports
    [leakage_report] and [volumetria_report] of
    [src/eda/check_schema_vol.py].

    The development is a shallow embedding of these Python modules.

    - Python [str] values are Rocq [string]s, one [ascii] per code point
      (code points below 256; on that range the regular-expression class
      [\d] is exactly ['0'..'9']).
    - Python dictionaries keep their insertion order, so they are
      association lists with in-place update ([PyDict]).
    - A [pandas.DataFrame] is a row count together with an ordered list of
      named columns; a cell is null, an integer or a string.  Dtype
      promotion is not modelled: cells are compared as Python compares
      them with [==].
    - The file system, the temporary directory and the standard output are
      an explicit [World] threaded through a state-and-exception monad, so
      that the state can still be inspected after an exception was raised.
    - [pandas.read_parquet] is external to the repository: it is a section
      variable, a function of the bytes of the file and of the requested
      columns.
    - The mean of a column is the exact quotient of two integers, in
      lowest terms, where Python holds the double nearest to it; the
      statements on means are for columns that float64 sums exactly
      ([float_exact]).
    - A column of integers with a null is float64 in pandas: its group
      keys print with a decimal point, and integers beyond 2^53 are
      rounded.  The statements on labels are for key columns without such
      keys ([key_column], [float_held]).
    - [hashlib] and the conversion [int] of a group key are external too:
      section variables, with what is assumed of them stated as
      hypotheses.  The read loop of [file_hash] runs on fuel, and is
      proved to end.
    - [schema_report], [write_manifest] and [normalize_mon_period_m] are
      not modelled: they rest on dtypes, memory sizes, the clock and the
      date parser of pandas. *)

From Stdlib Require Import ZArith QArith Ascii.
From stdpp Require Import base decidable option list strings gmap pretty sorting.

Local Open Scope Z_scope.

(** ** Python strings *)

Module PyStr.

(** [c.isdigit()] on code points below 256, the class [\d] of [re]. *)
Definition is_digit (c : ascii) : bool :=
  let n := nat_of_ascii c in (48 <=? n)%nat && (n <=? 57)%nat.

Fixpoint all_digits (s : string) : bool :=
  match s with
  | EmptyString => true
  | String c s' => is_digit c && all_digits s'
  end.

(** [re.fullmatch(r"\d+", s)] as a truth value: one digit or more, and
    nothing else. *)
Definition fullmatch_digits (s : string) : bool :=
  match s with
  | EmptyString => false
  | String _ _ => all_digits s
  end.

Definition digit_val (c : ascii) : Z := Z.of_nat (nat_of_ascii c - 48).

Fixpoint int_go (acc : Z) (s : string) : Z :=
  match s with
  | EmptyString => acc
  | String c s' => int_go (10 * acc + digit_val c) s'
  end.

(** [int(s)] for a string of decimal digits. *)
Definition int (s : string) : Z := int_go 0 s.

(** [c.lower()]: the letters A-Z, and the capital letters of Latin-1. *)
Definition lower_char (c : ascii) : ascii :=
  let n := nat_of_ascii c in
  if ((65 <=? n)%nat && (n <=? 90)%nat)
     || ((192 <=? n)%nat && (n <=? 222)%nat && negb (n =? 215)%nat)
  then ascii_of_nat (n + 32) else c.

Fixpoint lower (s : string) : string :=
  match s with
  | EmptyString => EmptyString
  | String c s' => String (lower_char c) (lower s')
  end.

(** [s.startswith(p)] *)
Fixpoint startswith (s p : string) : bool :=
  match p, s with
  | EmptyString, _ => true
  | String _ _, EmptyString => false
  | String b p', String a s' => bool_decide (a = b) && startswith s' p'
  end.

(** [s.endswith(p)] *)
Definition endswith (s p : string) : bool :=
  startswith (String.rev s) (String.rev p).

(** [c in s] for a one-character string [c]. *)
Fixpoint contains (c : ascii) (s : string) : bool :=
  match s with
  | EmptyString => false
  | String a s' => bool_decide (a = c) || contains c s'
  end.

(** [s.split(sep)] for a one-character separator: never empty, and
    empty segments are kept. *)
Fixpoint split (sep : ascii) (s : string) : list string :=
  match s with
  | EmptyString => [EmptyString]
  | String a s' =>
      if bool_decide (a = sep) then EmptyString :: split sep s'
      else match split sep s' with
           | seg :: rest => String a seg :: rest
           | [] => [String a EmptyString]
           end
  end.

(** [s.split(sep, 1)] unpacked into two names, for a string that
    contains [sep] (where it does not, the unpacking raises; every call
    of the source is guarded by [sep in s]). *)
Fixpoint split1 (sep : ascii) (s : string) : string * string :=
  match s with
  | EmptyString => (EmptyString, EmptyString)
  | String a s' =>
      if bool_decide (a = sep) then (EmptyString, s')
      else let '(k, v) := split1 sep s' in (String a k, v)
  end.

(** [sep.join(l)] *)
Fixpoint join (sep : string) (l : list string) : string :=
  match l with
  | [] => EmptyString
  | [s] => s
  | s :: l' => s +:+ sep +:+ join sep l'
  end.

End PyStr.

(** ** Python dictionaries: insertion-ordered, updated in place *)

Module PyDict.

Section dict.
Context {V : Type}.

Definition t := list (string * V).

(** [d[k] = v] *)
Fixpoint set (k : string) (v : V) (d : t) : t :=
  match d with
  | [] => [(k, v)]
  | (k', v') :: d' =>
      if decide (k = k') then (k, v) :: d' else (k', v') :: set k v d'
  end.

(** [d.get(k)] *)
Fixpoint get (k : string) (d : t) : option V :=
  match d with
  | [] => None
  | (k', v') :: d' => if decide (k = k') then Some v' else get k d'
  end.

(** [list(d.keys())] *)
Definition keys (d : t) : list string := d.*1.

(** [k in d] *)
Definition mem (k : string) (d : t) : bool := bool_decide (k ∈ keys d).

End dict.

Arguments t : clear implicits.

End PyDict.

(** ** Cells *)

(** What a cell of a table, a partition value or an element of an allowed
    set can be: a missing value, a Python [int] or a Python [str]. *)
Inductive value : Type :=
  | VNull
  | VInt (z : Z)
  | VStr (s : string).

#[global] Instance value_eq_dec : EqDecision value.
Proof. solve_decision. Defined.

(** ** [_parse_partitions_from_path] *)

(** The value kept for a segment [k=v]: lines 39-40. *)
Definition partition_value (v : string) : value :=
  if PyStr.fullmatch_digits v then VInt (PyStr.int v) else VStr v.

(** The body of the loop of lines 35-41, for one segment. *)
Definition parse_segment (expected_keys : list string)
    (kv : PyDict.t value) (seg : string) : PyDict.t value :=
  if PyStr.contains "=" seg then
    let '(k, v) := PyStr.split1 "=" seg in
    if bool_decide (k ∈ expected_keys)
    then PyDict.set k (partition_value v) kv
    else kv
  else kv.

Definition _parse_partitions_from_path (path : string)
    (expected_keys : list string) : PyDict.t value :=
  fold_left (parse_segment expected_keys) (PyStr.split "/" path) [].

(** ** Exceptions, results, and the world *)

Inductive exn : Type :=
  | AssertionError (msg : string)
  | FileNotFoundError (msg : string)
  | ReadError (msg : string)
  | ValueError (msg : string)
  | TypeError (msg : string)
  | ArrowInvalid (msg : string)
  | OverflowError (msg : string).

Inductive result (A : Type) : Type :=
  | Ok (a : A)
  | Raise (e : exn).
Arguments Ok {A} a.
Arguments Raise {A} e.

(** A [pathlib.Path]: the anchor (drive and root) and the components
    after it. *)
Module Path.
Record t : Type := mk { anchor : string; parts : list string }.

(** [str(p)] *)
Definition str (p : t) : string :=
  match anchor p, parts p with
  | EmptyString, [] => "."
  | a, l => a +:+ PyStr.join "/" l
  end.

(** [p.name]: the final component, the anchor excluded. *)
Definition name (p : t) : string := List.last (parts p) EmptyString.
End Path.

(** An entry of the archive, as [tarfile.TarInfo] and the bytes that
    [extractfile(m).read()] returns for it. *)
Record TarInfo : Type := mkTarInfo {
  name : string;
  isreg : bool;
  data : list Byte.byte
}.

(** What lies at a path of the file system. *)
Inductive file : Type :=
  | TarGz (members : list TarInfo)
  | NotTarGz.

(** One line of standard output: the report of line 125. *)
Record report : Type := mkReport {
  n_frames : nat;
  r_prefix : string;
  r_archive : string;
  parts_rec : list string
}.

Record World : Type := mkWorld {
  files : gmap string file;
  temps : gmap string (list Byte.byte);
  rng : N;
  stdout : list report
}.

Definition with_temps (f : gmap string (list Byte.byte) → gmap string (list Byte.byte))
    (w : World) : World :=
  {| files := files w; temps := f (temps w); rng := rng w; stdout := stdout w |}.

(** State and exceptions: the world is returned also when the
    computation raises. *)
Definition M (A : Type) : Type := World → result A * World.

#[global] Instance M_ret : MRet M := λ A a w, (Ok a, w).
#[global] Instance M_bind : MBind M := λ A B f m w,
  match m w with
  | (Ok a, w') => f a w'
  | (Raise e, w') => (Raise e, w')
  end.

Definition raise {A : Type} (e : exn) : M A := λ w, (Raise e, w).

(** [try: body finally: fin] *)
Definition try_finally {A : Type} (body : M A) (fin : M unit) : M A := λ w,
  let '(r, w1) := body w in
  match fin w1 with
  | (Ok _, w2) => (r, w2)
  | (Raise e, w2) => (Raise e, w2)
  end.

(** ** Tables *)

Record DataFrame : Type := mkDataFrame {
  nrows : nat;
  cols : PyDict.t (list value)
}.

(** [pd.DataFrame()] *)
Definition empty_frame : DataFrame := {| nrows := 0; cols := [] |}.

(** [list(df.columns)] *)
Definition df_columns (df : DataFrame) : list string := PyDict.keys (cols df).

(** [k in df.columns], and also [k in df] *)
Definition has_column (k : string) (df : DataFrame) : bool :=
  bool_decide (k ∈ df_columns df).

(** [df[k]] when the column exists *)
Definition getcol (k : string) (df : DataFrame) : option (list value) :=
  PyDict.get k (cols df).

(** The cell of column [k] at row [j]. *)
Definition cell (df : DataFrame) (k : string) (j : nat) : option value :=
  getcol k df ≫= λ c, c !! j.

(** [df[k] = v] for a scalar [v]: the value on every row. *)
Definition set_scalar (k : string) (v : value) (df : DataFrame) : DataFrame :=
  {| nrows := nrows df; cols := PyDict.set k (replicate (nrows df) v) (cols df) |}.

(** The columns of a table are distinct and as long as its index. *)
Definition wf_frame (df : DataFrame) : Prop :=
  NoDup (df_columns df) ∧ Forall (λ c, length c.2 = nrows df) (cols df).

(** The union of the columns, in the order of first appearance. *)
Definition union_columns (frames : list DataFrame) : list string :=
  fold_left (λ acc c, if bool_decide (c ∈ acc) then acc else acc ++ [c])
            (mjoin (df_columns <$> frames)) [].

(** The part of column [k] that a frame contributes: its values, or
    nulls on every row where it has no such column. *)
Definition column_or_null (k : string) (df : DataFrame) : list value :=
  match getcol k df with
  | Some c => c
  | None => replicate (nrows df) VNull
  end.

(** [pd.concat(frames, ignore_index=True, sort=False)] *)
Definition pd_concat (frames : list DataFrame) : result DataFrame :=
  match frames with
  | [] => Raise (ValueError "No objects to concatenate")
  | _ :: _ =>
      Ok {| nrows := sum_list (nrows <$> frames);
            cols := (λ k, (k, mjoin (column_or_null k <$> frames)))
                    <$> union_columns frames |}
  end.

(** ** [read_parquet_partitions_from_tar] *)

(** Lines 118-120: the partition columns the table does not have. *)
Definition inject_partitions (part_info : PyDict.t value) (df : DataFrame)
    : DataFrame :=
  fold_left (λ df '(k, v), if has_column k df then df else set_scalar k v df)
            part_info df.

(** Lines 97-100: no key of the filter is in the descriptor with a value
    outside its allowed set. *)
Fixpoint partition_ok (part_info : PyDict.t value)
    (items : PyDict.t (list value)) : bool :=
  match items with
  | [] => true
  | (k, allowed) :: rest =>
      match PyDict.get k part_info with
      | Some v => if bool_decide (v ∈ allowed) then partition_ok part_info rest
                  else false
      | None => partition_ok part_info rest
      end
  end.

(** Lines 85-90: regular files under the prefix that end in [.parquet]. *)
Definition is_candidate (prefix : string) (m : TarInfo) : bool :=
  isreg m
  && PyStr.startswith (PyStr.lower (name m)) (PyStr.lower prefix)
  && PyStr.endswith (PyStr.lower (name m)) ".parquet".

(** Lines 93-102. An absent filter and an empty one are both falsy. *)
Definition filter_allowed (expected_keys : list string)
    (allowed_partitions : option (PyDict.t (list value)))
    (members : list TarInfo) : list TarInfo :=
  match allowed_partitions with
  | None | Some [] => members
  | Some items =>
      List.filter
        (λ m, partition_ok (_parse_partitions_from_path (name m) expected_keys) items)
        members
  end.

(** [l[:n]] *)
Definition slice_to {A : Type} (n : Z) (l : list A) : list A :=
  if 0 <=? n then take (Z.to_nat n) l
  else take (Z.to_nat (Z.of_nat (length l) + n)) l.

(** Lines 104-105. *)
Definition truncate (max_parts : option Z) (members : list TarInfo)
    : list TarInfo :=
  match max_parts with
  | Some n => if n <? Z.of_nat (length members) then slice_to n members else members
  | None => members
  end.

(** The entries that are read: lines 85-105. *)
Definition selected (prefix : string) (expected_keys : list string)
    (allowed_partitions : option (PyDict.t (list value)))
    (max_parts : option Z) (all : list TarInfo) : list TarInfo :=
  truncate max_parts
    (filter_allowed expected_keys allowed_partitions
       (List.filter (is_candidate prefix) all)).

Definition msg_not_exists (tar_path : Path.t) : string :=
  "Arquivo n" +:+ String "227" "o existe: " +:+ Path.str tar_path.

Definition msg_no_parquet (prefix : string) (tar_path : Path.t) : string :=
  "Nenhum .parquet encontrado sob '" +:+ prefix +:+ "' em " +:+ Path.name tar_path.

Section reader.

(** [pandas.read_parquet] on the bytes of a file, with the [columns]
    argument. *)
Variable parquet_decode : list Byte.byte → option (list string) → result DataFrame.

(** The name [tempfile] draws for a new file, from its random state and
    the names in use. *)
Variable tmp_name : N → gmap string (list Byte.byte) → string.

(** [tempfile.NamedTemporaryFile(suffix=".parquet", delete=False)]: the
    file is created empty; its name is returned. *)
Definition NamedTemporaryFile : M string := λ w,
  let p := tmp_name (rng w) (temps w) in
  (Ok p, {| files := files w; temps := <[p := []]> (temps w);
            rng := N.succ (rng w); stdout := stdout w |}).

(** [tmp.write(b); tmp.flush()] *)
Definition tmp_write (p : string) (b : list Byte.byte) : M unit := λ w,
  (Ok (), with_temps (insert p b) w).

(** [Path(p).unlink(missing_ok=True)] *)
Definition unlink (p : string) : M unit := λ w,
  (Ok (), with_temps (delete p) w).

(** [pd.read_parquet(p, columns=columns)] *)
Definition read_parquet (p : string) (columns : option (list string))
    : M DataFrame := λ w,
  match temps w !! p with
  | Some b => (parquet_decode b columns, w)
  | None => (Raise (FileNotFoundError p), w)
  end.

(** The body of the loop of lines 110-121, for one entry. *)
Definition read_member (expected_keys : list string)
    (columns : option (list string)) (m : TarInfo) : M DataFrame :=
  let part_info := _parse_partitions_from_path (name m) expected_keys in
  tmp ← NamedTemporaryFile;
  _ ← tmp_write tmp (data m);
  df ← try_finally (read_parquet tmp columns) (unlink tmp);
  mret (inject_partitions part_info df).

(** The loop of lines 110-121: [frames] is what was appended so far. *)
Fixpoint read_members (expected_keys : list string)
    (columns : option (list string)) (members : list TarInfo)
    (frames : list DataFrame) : M (list DataFrame) :=
  match members with
  | [] => mret frames
  | m :: rest =>
      df ← read_member expected_keys columns m;
      read_members expected_keys columns rest (frames ++ [df])
  end.

Definition print (r : report) : M unit := λ w,
  (Ok (), {| files := files w; temps := temps w; rng := rng w;
             stdout := stdout w ++ [r] |}).

Definition lift_result {A : Type} (r : result A) : M A := λ w, (r, w).

Definition read_parquet_partitions_from_tar
    (tar_path : Path.t) (prefix : string) (expected_keys : list string)
    (allowed_partitions : option (PyDict.t (list value)))
    (columns : option (list string)) (max_parts : option Z)
    : M DataFrame := λ w,
  match files w !! Path.str tar_path with
  | None => raise (AssertionError (msg_not_exists tar_path)) w
  | Some NotTarGz => raise (ReadError "not a gzip file") w
  | Some (TarGz all) =>
      let members :=
        selected prefix expected_keys allowed_partitions max_parts all in
      match members with
      | [] => raise (FileNotFoundError (msg_no_parquet prefix tar_path)) w
      | _ :: _ =>
          (frames ← read_members expected_keys columns members [];
           out ← lift_result (pd_concat frames);
           let parts_rec :=
             List.filter (λ k, has_column k out) expected_keys in
           _ ← print {| n_frames := length frames; r_prefix := prefix;
                        r_archive := Path.name tar_path;
                        parts_rec := parts_rec |};
           mret out) w
      end
  end.

End reader.

(** ** [prevalence_table] *)

#[global] Instance result_ret : MRet result := λ A a, Ok a.
#[global] Instance result_bind : MBind result := λ A B f r,
  match r with
  | Ok a => f a
  | Raise e => Raise e
  end.

Definition TARGETS : list string :=
  ["target_1"; "target_2"; "target_3"; "target_4"].

(** The sum and the number of the cells that are not null; a string
    cell cannot be summed. *)
Fixpoint sum_count (c : list value) : result (Z * nat) :=
  match c with
  | [] => Ok (0, 0%nat)
  | VNull :: c' => sum_count c'
  | VInt z :: c' => '(s, n) ← sum_count c'; mret (z + s, S n)
  | VStr _ :: _ => Raise (TypeError "Could not convert string to numeric")
  end.

(** [float(s.mean())]: nulls are skipped; [None] is NaN, the mean of no
    value.  The quotient is the exact rational, in lowest terms.  pandas
    sums the cells in float64 and divides: what it returns is the double
    nearest to this quotient as long as the sum is exact in float64, that
    is for the columns that are [float_exact] below. *)
Definition mean (c : list value) : result (option Q) :=
  '(s, n) ← sum_count c;
  mret (match n with
        | O => None
        | S n' => Some (Qred (s # Pos.of_succ_nat n'))
        end).

(** The cells of a column on the rows that a mask selects. *)
Definition select {A : Type} (mask : list bool) (c : list A) : list A :=
  (List.filter fst (zip mask c)).*2.

Definition take_rows (mask : list bool) (df : DataFrame) : DataFrame :=
  {| nrows := length (List.filter id mask);
     cols := (λ kc, (kc.1, select mask kc.2)) <$> cols df |}.

(** The order in which group keys are sorted: numbers, then strings. *)
Definition value_leb (a b : value) : bool :=
  match a, b with
  | VInt x, VInt y => x <=? y
  | VInt _, _ => true
  | VStr _, VInt _ => false
  | VStr x, VStr y => String.leb x y
  | VStr _, VNull => true
  | VNull, VNull => true
  | VNull, _ => false
  end.

Definition value_le (a b : value) : Prop := value_leb a b.

#[global] Instance value_le_dec : RelDecision value_le.
Proof. intros a b. unfold value_le. apply _. Defined.

(** The keys of [df.groupby(key)]: the distinct values that are not
    null, sorted. *)
Definition group_keys (c : list value) : list value :=
  merge_sort value_le (remove_dups (List.filter (λ v, bool_decide (v ≠ VNull)) c)).

(** [list(df.groupby(key))], for a column that exists. *)
Definition groupby (key : string) (df : DataFrame) : list (value * DataFrame) :=
  match getcol key df with
  | None => []
  | Some c =>
      (λ k, (k, take_rows ((λ v, bool_decide (v = k)) <$> c) df)) <$> group_keys c
  end.

(** [str(v)], as the f-strings of lines 18 and 21 format a group key of
    a column of integers (int64) or of strings.  A column of integers
    with a null is float64 in pandas, and its keys print with a decimal
    point: the statements on labels are for a [key_column], which has no
    such key. *)
Definition str_value (v : value) : string :=
  match v with
  | VNull => "nan"
  | VInt z => pretty z
  | VStr s => s
  end.

(** [{c: float(g[c].mean()) for c in cols}] *)
Fixpoint group_means (cols : list string) (g : DataFrame)
    : result (PyDict.t (option Q)) :=
  match cols with
  | [] => Ok []
  | c :: cols' =>
      m ← mean (default [] (getcol c g));
      rest ← group_means cols' g;
      mret ((c, m) :: rest)
  end.

(** The loops of lines 17-18 and 20-21: one entry of [out] a group. *)
Fixpoint add_groups (tag : string) (cols : list string)
    (groups : list (value * DataFrame))
    (out : PyDict.t (PyDict.t (option Q)))
    : result (PyDict.t (PyDict.t (option Q))) :=
  match groups with
  | [] => Ok out
  | (k, g) :: rest =>
      ms ← group_means cols g;
      add_groups tag cols rest (PyDict.set (tag +:+ "=" +:+ str_value k) ms out)
  end.

Definition label_le {V : Type} (r1 r2 : string * V) : Prop := String.le r1.1 r2.1.

#[global] Instance label_le_dec {V : Type} : RelDecision (@label_le V).
Proof. intros r1 r2. unfold label_le. apply _. Defined.

(** [pd.DataFrame(out).T.sort_index()]: a row a label, in the order of
    the labels; every row has the columns [cols]. *)
Definition sort_index {V : Type} (out : PyDict.t V) : list (string * V) :=
  merge_sort label_le out.

Definition prevalence_table (df_targets : DataFrame)
    : result (list (string * PyDict.t (option Q))) :=
  let cols := List.filter (λ c, has_column c df_targets) TARGETS in
  match cols with
  | [] => Ok []
  | _ :: _ =>
      all ← group_means cols df_targets;
      let out := PyDict.set "ALL" all [] in
      out ← (if has_column "mon" df_targets
             then add_groups "mon" cols (groupby "mon" df_targets) out
             else Ok out);
      out ← (if has_column "fold" df_targets
             then add_groups "fold" cols (groupby "fold" df_targets) out
             else Ok out);
      mret (sort_index out)
  end.

(** ** What the descriptor of a path holds, said without the loop *)

(** The value of a segment for the key [k]: [Some v] when the segment is
    [k=v], the key being what precedes the first [=]. *)
Definition segment_value (k seg : string) : option string :=
  if PyStr.contains "=" seg then
    let '(k', v) := PyStr.split1 "=" seg in
    if decide (k' = k) then Some v else None
  else None.

(** The value of the last segment of a path that carries the key [k]. *)
Fixpoint last_value (k : string) (segs : list string) : option string :=
  match segs with
  | [] => None
  | seg :: rest =>
      match last_value k rest with
      | Some v => Some v
      | None => segment_value k seg
      end
  end.

(** ** What a read returns, said without the world *)

Section reader_spec.

Variable parquet_decode : list Byte.byte → option (list string) → result DataFrame.
Variable tmp_name : N → gmap string (list Byte.byte) → string.

(** The table an entry contributes: its decoded table with the
    partition columns it lacks. *)
Definition member_frame (expected_keys : list string)
    (columns : option (list string)) (m : TarInfo) : result DataFrame :=
  df ← parquet_decode (data m) columns;
  mret (inject_partitions (_parse_partitions_from_path (name m) expected_keys) df).

Fixpoint member_frames (expected_keys : list string)
    (columns : option (list string)) (members : list TarInfo)
    (frames : list DataFrame) : result (list DataFrame) :=
  match members with
  | [] => Ok frames
  | m :: rest =>
      df ← member_frame expected_keys columns m;
      member_frames expected_keys columns rest (frames ++ [df])
  end.

(** The world once an entry was processed, whether its decoding
    succeeded or raised. *)
Definition after_member (w : World) : World :=
  {| files := files w;
     temps := delete (tmp_name (rng w) (temps w)) (temps w);
     rng := N.succ (rng w);
     stdout := stdout w |}.

(** The result of a read, from what lies at the path of the archive. *)
Definition read_result (tar_path : Path.t) (prefix : string)
    (expected_keys : list string)
    (allowed_partitions : option (PyDict.t (list value)))
    (columns : option (list string)) (max_parts : option Z)
    (f : option file) : result DataFrame :=
  match f with
  | None => Raise (AssertionError (msg_not_exists tar_path))
  | Some NotTarGz => Raise (ReadError "not a gzip file")
  | Some (TarGz all) =>
      match selected prefix expected_keys allowed_partitions max_parts all with
      | [] => Raise (FileNotFoundError (msg_no_parquet prefix tar_path))
      | members =>
          frames ← member_frames expected_keys columns members [];
          pd_concat frames
      end
  end.

(** The table decoded from an entry; the empty table where the decoder
    raises (a read that returns has decoded every entry it selected). *)
Definition decoded_table (columns : option (list string)) (m : TarInfo)
    : DataFrame :=
  match parquet_decode (data m) columns with
  | Ok df => df
  | Raise _ => empty_frame
  end.

End reader_spec.

(** ** A small archive to run the reader on *)

Module Example.

(** A stand-in for the parquet format, small enough to read by eye:
    the first byte says which columns the file has, the other bytes are
    the rows.  Tag 0: one column [x].  Tag 1: the columns [x] and
    [fold], with the same values.  Anything else is not a table. *)
Definition decode (b : list Byte.byte) (columns : option (list string))
    : result DataFrame :=
  match b with
  | Byte.x00 :: rows =>
      let xs := (λ r, VInt (Z.of_N (Byte.to_N r))) <$> rows in
      Ok {| nrows := length rows; cols := [("x", xs)] |}
  | Byte.x01 :: rows =>
      let xs := (λ r, VInt (Z.of_N (Byte.to_N r))) <$> rows in
      Ok {| nrows := length rows; cols := [("x", xs); ("fold", xs)] |}
  | _ => Raise (ArrowInvalid "Parquet magic bytes not found")
  end.

(** A name that is not in use. *)
Definition tmp_name (n : N) (t : gmap string (list Byte.byte)) : string :=
  fresh (dom t).

Definition archive_path : Path.t := Path.mk "/" ["data"; "targets.tar.gz"].

Definition part0 : TarInfo :=
  {| name := "targets/fold=0/part-0.parquet"; isreg := true;
     data := [Byte.x00; Byte.x01] |}.
Definition part1 : TarInfo :=
  {| name := "targets/fold=1/part-0.parquet"; isreg := true;
     data := [Byte.x00; Byte.x02] |}.
Definition part2 : TarInfo :=
  {| name := "targets/fold=2/part-0.parquet"; isreg := true;
     data := [Byte.x00; Byte.x03] |}.
(** An entry outside the [fold=...] directories, whose file has a [fold]
    column of its own, with the value 5. *)
Definition part_own_fold : TarInfo :=
  {| name := "targets/part-1.parquet"; isreg := true;
     data := [Byte.x01; Byte.x05] |}.
Definition part_broken : TarInfo :=
  {| name := "targets/fold=1/part-1.parquet"; isreg := true; data := [] |}.
Definition folder : TarInfo :=
  {| name := "targets/fold=0"; isreg := false; data := [] |}.

Definition world_of (members : list TarInfo) : World :=
  {| files := {[ Path.str archive_path := TarGz members ]};
     temps := ∅; rng := 0%N; stdout := [] |}.

(** The same archive seen later: other temporary files lie around, the
    random state has moved and something was printed. *)
Definition later_world_of (members : list TarInfo) : World :=
  {| files := {[ Path.str archive_path := TarGz members ]};
     temps := {[ "/tmp/tmpq1w2e3.parquet" := [Byte.x00] ]};
     rng := 7%N;
     stdout := [ {| n_frames := 1; r_prefix := "targets/";
                    r_archive := "targets.tar.gz"; parts_rec := [] |} ] |}.

(** The example archive, the table a read of it returns when only the
    folds 0 and 1 are allowed, and the world after that read. *)
Definition members : list TarInfo := [folder; part0; part2; part_own_fold; part1].

Definition only_folds_0_1 : option (PyDict.t (list value)) :=
  Some [("fold", [VInt 0; VInt 1])].

Definition expected_table : DataFrame :=
  {| nrows := 3;
     cols := [("x", [VInt 1; VInt 5; VInt 2]);
              ("fold", [VInt 0; VInt 5; VInt 1])] |}.

Definition world_after : World :=
  {| files := {[ Path.str archive_path := TarGz members ]};
     temps := ∅; rng := 3%N;
     stdout := [ {| n_frames := 3; r_prefix := "targets/";
                    r_archive := "targets.tar.gz"; parts_rec := ["fold"] |} ] |}.

End Example.

(** ** The prevalence table, as the spec words it *)

Definition present_targets (df : DataFrame) : list string :=
  List.filter (λ c, has_column c df) TARGETS.

(** A target indicator: every cell is 0 or 1. *)
Definition is_binary (c : list value) : Prop :=
  Forall (λ v, v = VInt 0 ∨ v = VInt 1) c.

(** A column of one type: integers, or strings, with nulls maybe. *)
Definition typed_column (c : list value) : Prop :=
  Forall (λ v, match v with VStr _ => False | _ => True end) c ∨
  Forall (λ v, match v with VInt _ => False | _ => True end) c.

(** A key column whose keys print as [str_value] prints them: integers
    and no null, or strings, with nulls maybe. *)
Definition key_column (c : list value) : Prop :=
  Forall (λ v, match v with VInt _ => True | _ => False end) c ∨
  Forall (λ v, match v with VInt _ => False | _ => True end) c.

(** A column that float64 sums exactly: the number of its cells and the
    absolute values of its integers add up to 2^53 at most. *)
Definition float_exact (c : list value) : Prop :=
  Z.of_nat (length c)
  + foldr (λ v a, match v with VInt z => Z.abs z + a | _ => a end) 0 c
  ≤ 2 ^ 53.

(** A column whose integers float64 holds as they are: none is beyond
    2^53 in absolute value. *)
Definition float_held (c : list value) : Prop :=
  Forall (λ v, match v with VInt z => Z.abs z ≤ 2 ^ 53 | _ => True end) c.

Definition is_positive (v : value) : bool :=
  match v with
  | VInt z => 0 <? z
  | _ => false
  end.

(** The fraction of the rows of a group that are positive; none for a
    group of no row. *)
Definition fraction_positive (c : list value) : option Q :=
  match length c with
  | O => None
  | S n => Some (Qred (Z.of_nat (length (List.filter is_positive c))
                       # Pos.of_succ_nat n))
  end.

(** The cells of the column [c] on the rows whose key is [k]. *)
Definition cells_where (keycol : list value) (k : value) (c : list value)
    : list value :=
  select ((λ v, bool_decide (v = k)) <$> keycol) c.

(** The cells of the column [c] on the rows whose key is [k], read off
    the rows: a row is a key and a cell. *)
Definition group_cells (keycol : list value) (k : value) (c : list value)
    : list value :=
  omap (λ row, if decide (row.1 = k) then Some row.2 else None) (zip keycol c).

(** The distinct values of a key column, nulls apart. *)
Definition distinct_values (keycol : list value) : list value :=
  remove_dups (List.filter (λ v, bool_decide (v ≠ VNull)) keycol).

(** The text of a key in a label: the decimal digits of an integer, with
    its sign; a string as it is. *)
Definition key_text (k : value) : string :=
  match k with
  | VInt z => pretty z
  | VStr s => s
  | VNull => ""
  end.

(** The row of the group of the key [k]: its label, and a fraction a
    target. *)
Definition group_row (tag : string) (df : DataFrame) (keycol : list value)
    (k : value) : string * PyDict.t (option Q) :=
  (tag +:+ "=" +:+ key_text k,
   (λ c, (c, fraction_positive (group_cells keycol k (default [] (getcol c df)))))
   <$> present_targets df).

(** One row a distinct value of the column [tag], when the table has
    that column. *)
Definition group_rows (tag : string) (df : DataFrame)
    : list (string * PyDict.t (option Q)) :=
  match getcol tag df with
  | None => []
  | Some keycol => group_row tag df keycol <$> distinct_values keycol
  end.

(** The rows of the prevalence table: none without a target column;
    else the row "ALL", a row a month and a row a fold. *)
Definition prevalence_rows (df : DataFrame)
    : list (string * PyDict.t (option Q)) :=
  match present_targets df with
  | [] => []
  | _ :: _ =>
      ("ALL", (λ c, (c, fraction_positive (default [] (getcol c df))))
              <$> present_targets df)
      :: group_rows "mon" df ++ group_rows "fold" df
  end.

(** The scenario of the spec: a table with the one column
    [target_1 = [1, 0, 1, 0]]. *)
Definition scenario_targets : DataFrame :=
  {| nrows := 4; cols := [("target_1", [VInt 1; VInt 0; VInt 1; VInt 0])] |}.

(** A table with months and folds. *)
Definition example_targets : DataFrame :=
  {| nrows := 5;
     cols := [("client_id", [VInt 11; VInt 12; VInt 13; VInt 14; VInt 15]);
              ("target_1", [VInt 1; VInt 0; VInt 1; VInt 0; VInt 0]);
              ("target_3", [VInt 0; VInt 0; VInt 1; VInt 1; VInt 1]);
              ("mon", [VStr "2022-01"; VStr "2022-02"; VStr "2022-01"; VNull;
                       VStr "2022-02"]);
              ("fold", [VInt 0; VInt 10; VInt 2; VInt 2; VInt 10])] |}.

(** The prevalence table of [example_targets]. *)
Definition example_prevalence : list (string * PyDict.t (option Q)) :=
  [("ALL", [("target_1", Some (2 # 5)); ("target_3", Some (3 # 5))]);
   ("fold=0", [("target_1", Some (1 # 1)); ("target_3", Some (0 # 1))]);
   ("fold=10", [("target_1", Some (0 # 1)); ("target_3", Some (1 # 2))]);
   ("fold=2", [("target_1", Some (1 # 2)); ("target_3", Some (1 # 1))]);
   ("mon=2022-01", [("target_1", Some (1 # 1)); ("target_3", Some (1 # 2))]);
   ("mon=2022-02", [("target_1", Some (0 # 1)); ("target_3", Some (1 # 2))])].

(** ** [list_tar] *)

(** A line that [list_tar] prints: the header with the number of regular
    files, the name of one of them, or the count of those not shown. *)
Inductive listing_line : Type :=
  | ListHeader (archive : string) (n_items : nat)
  | ListItem (item : string)
  | ListMore (hidden : Z).

(** [list_tar(tar_path, limit)], on the file system [fs]: what it raises,
    if anything, and the lines it printed. *)
Definition list_tar (fs : gmap string file) (tar_path : Path.t) (limit : Z)
    : result unit * list listing_line :=
  match fs !! Path.str tar_path with
  | None => (Raise (AssertionError (msg_not_exists tar_path)), [])
  | Some NotTarGz => (Raise (ReadError "not a gzip file"), [])
  | Some (TarGz members) =>
      let names := name <$> List.filter isreg members in
      (Ok (),
       ListHeader (Path.name tar_path) (length names)
       :: (ListItem <$> slice_to limit names)
       ++ (if limit <? Z.of_nat (length names)
           then [ListMore (Z.of_nat (length names) - limit)]
           else []))
  end.

(** The names on the item lines, and the count on the last line (0 when
    there is no such line). *)
Definition listed_names (out : list listing_line) : list string :=
  omap (λ l, match l with ListItem n => Some n | _ => None end) out.

Definition reported_hidden (out : list listing_line) : Z :=
  foldr (λ l acc, match l with ListMore h => h + acc | _ => acc end) 0 out.

(** ** Paths laid out in the Hive style *)

(** The segment [key=value] of one partition value. *)
Definition hive_segment (kv : string * value) : string :=
  kv.1 +:+ String "=" (str_value kv.2).

(** [dirs/k1=v1/.../kn=vn/leaf] *)
Definition hive_path (dirs : list string) (d : PyDict.t value) (leaf : string)
    : string :=
  PyStr.join "/" (dirs ++ (hive_segment <$> d) ++ [leaf]).

(** The partition values that a path can carry and give back: a natural
    number, or a string that is not all digits and has no [/]. *)
Definition path_value (v : value) : Prop :=
  match v with
  | VNull => False
  | VInt z => 0 ≤ z
  | VStr s => PyStr.fullmatch_digits s = false ∧ PyStr.contains "/" s = false
  end.

(** ** [file_hash] *)

Section hashing.

(** [hashlib]: the state of a hash object, [hashlib.new] (which raises
    for a name it does not know), [update] and [hexdigest]. *)
Variable hash_state : Type.
Variable hashlib_new : string → result hash_state.
Variable hash_update : hash_state → list Byte.byte → hash_state.
Variable hexdigest : hash_state → string.

(** [f.read(chunk)] on what is left of a file opened in binary mode: at
    most [chunk] bytes, so nothing for size 0; all of it for size -1; a
    size below -1 is refused, and so is, before that, a size that is not
    the size of a byte string (a C [ssize_t] of 64 bits, less one).
    Between these a size can be too large for the memory of the machine,
    and the read raises a MemoryError: that is not modelled, and the
    statements on reads are for sizes up to 2^30. *)
Definition f_read (chunk : Z) (rest : list Byte.byte)
    : result (list Byte.byte) :=
  if (chunk <? - 2 ^ 63) || (2 ^ 63 - 1 <=? chunk)
  then Raise (OverflowError "cannot fit 'int' into an index-sized integer")
  else if chunk <? -1
  then Raise (ValueError "read length must be non-negative or -1")
  else if chunk =? -1 then Ok rest
  else Ok (take (Z.to_nat chunk) rest).

(** The loop of lines 149-152, for at most [fuel] reads: [None] when the
    loop has not ended by then. *)
Fixpoint read_chunks (fuel : nat) (chunk : Z) (h : hash_state)
    (rest : list Byte.byte) : option (result hash_state) :=
  match fuel with
  | O => None
  | S fuel' =>
      match f_read chunk rest with
      | Raise e => Some (Raise e)
      | Ok [] => Some (Ok h)
      | Ok b => read_chunks fuel' chunk (hash_update h b) (drop (length b) rest)
      end
  end.

(** [file_hash(path, algo, chunk)] on a disk that maps a path to the
    bytes of the file there. *)
Definition file_hash (fuel : nat) (disk : gmap string (list Byte.byte))
    (path : Path.t) (algo : string) (chunk : Z) : option (result string) :=
  match hashlib_new algo with
  | Raise e => Some (Raise e)
  | Ok h =>
      match disk !! Path.str path with
      | None => Some (Raise (FileNotFoundError (Path.str path)))
      | Some content =>
          (λ r : result hash_state, h' ← r; mret (hexdigest h'))
          <$> read_chunks fuel chunk h content
      end
  end.

End hashing.

(** A size that [read] takes and that makes it advance: -1, or a number
    of bytes from 1 to 2^30. *)
Definition reads_on (chunk : Z) : Prop := chunk = -1 ∨ 0 < chunk ≤ 2 ^ 30.

(** A hash to run [file_hash] with: the state is the bytes seen so far,
    the digest their number. *)
Module ToyHash.
Definition new (algo : string) : result (list Byte.byte) :=
  if bool_decide (algo ∈ ["md5"; "sha256"]) then Ok []
  else Raise (ValueError ("unsupported hash type " +:+ algo)).
Definition update (h b : list Byte.byte) : list Byte.byte := h ++ b.
Definition digest (h : list Byte.byte) : string := pretty (length h).
Definition disk : gmap string (list Byte.byte) :=
  {[ "/data/targets.tar.gz" := [Byte.x1f; Byte.x8b; Byte.x08; Byte.x00; Byte.x2a] ]}.
End ToyHash.

(** ** [baseline_from_prevalence] *)

(** [prev_df.empty]: no row, or no column. *)
Definition frame_is_empty {V : Type} (prev_df : list (string * PyDict.t V)) : bool :=
  match prev_df with
  | [] => true
  | _ :: _ => forallb (λ r, match r.2 with [] => true | _ :: _ => false end) prev_df
  end.

(** [baseline_from_prevalence(prev_df)]; [None] is Python's [None]. *)
Definition baseline_from_prevalence
    (prev_df : option (list (string * PyDict.t (option Q))))
    : list (string * PyDict.t (option Q)) :=
  match prev_df with
  | None => []
  | Some t => if frame_is_empty t then [] else t
  end.

(** ** [leakage_report] *)

(** [s.nunique()]: the number of distinct values, nulls apart. *)
Definition nunique (c : list value) : nat := length (distinct_values c).

(** [client_split.groupby("client_id")["fold"].nunique()]: a client, and
    the number of distinct folds on its rows. *)
Definition folds_per_client (cid fold : list value) : list (value * nat) :=
  (λ k, (k, nunique (cells_where cid k fold))) <$> group_keys cid.

Definition leakage_report (client_split : DataFrame) : DataFrame :=
  if has_column "client_id" client_split && has_column "fold" client_split then
    let cid := default [] (getcol "client_id" client_split) in
    let fold := default [] (getcol "fold" client_split) in
    let leak := List.filter (λ kn, (1 <? kn.2)%nat) (folds_per_client cid fold) in
    {| nrows := length leak;
       cols := [("client_id", leak.*1);
                ("n_folds_distintos", (λ kn, VInt (Z.of_nat kn.2)) <$> leak)] |}
  else empty_frame.

(** The split of the spec: client 1 in the folds 0 and 1, client 2 in
    the fold 0. *)
Definition example_split : DataFrame :=
  {| nrows := 3;
     cols := [("client_id", [VInt 1; VInt 1; VInt 2]);
              ("fold", [VInt 0; VInt 1; VInt 0])] |}.

(** ** Means with nulls *)

(** The integers of a column: its cells, nulls left out. *)
Definition int_cells (c : list value) : list Z :=
  omap (λ v, match v with VInt z => Some z | _ => None end) c.

(** The mean of the cells of a column that are not null; none for a
    column without such a cell. *)
Definition numeric_mean (c : list value) : option Q :=
  match int_cells c with
  | [] => None
  | zs => Some (Qred (foldr Z.add 0 zs # Pos.of_nat (length zs)))
  end.

(** A column without text: integers and nulls. *)
Definition numeric_column (c : list value) : Prop :=
  Forall (λ v, match v with VStr _ => False | _ => True end) c.

(** A table with a null target and a text target. *)
Definition example_targets_nulls : DataFrame :=
  {| nrows := 4;
     cols := [("target_1", [VInt 1; VNull; VInt 0; VInt 1]);
              ("fold", [VInt 0; VInt 0; VInt 1; VInt 1])] |}.

Definition example_targets_text : DataFrame :=
  {| nrows := 2;
     cols := [("target_1", [VInt 1; VInt 0]);
              ("target_2", [VInt 1; VStr "yes"])] |}.

(** A split in which every client has one fold. *)
Definition example_clean_split : DataFrame :=
  {| nrows := 3;
     cols := [("client_id", [VInt 1; VInt 1; VInt 2]);
              ("fold", [VInt 0; VInt 0; VInt 1])] |}.

(** ** [volumetria_report] *)

(** [d[k] = v] for a dictionary with keys of any type. *)
Fixpoint assoc_set {K V : Type} `{EqDecision K} (k : K) (v : V)
    (d : list (K * V)) : list (K * V) :=
  match d with
  | [] => [(k, v)]
  | (k', v') :: d' =>
      if decide (k = k') then (k, v) :: d' else (k', v') :: assoc_set k v d'
  end.

(** [df.groupby(key).size()] at the key [k]: the rows with that key. *)
Definition group_size (keycol : list value) (k : value) : nat :=
  length (List.filter (λ v, bool_decide (v = k)) keycol).

(** [{str(k): int(v) for k, v in targets.groupby("mon").size().items()}] *)
Definition rows_per_month (mon : list value) : PyDict.t nat :=
  fold_left (λ d k, PyDict.set (str_value k) (group_size mon k) d)
            (group_keys mon) [].

(** The order of the keys of a group by two columns. *)
Definition pair_leb (a b : value * value) : bool :=
  if decide (a.1 = b.1) then value_leb a.2 b.2 else value_leb a.1 b.1.

Definition pair_le (a b : value * value) : Prop := pair_leb a b.

#[global] Instance pair_le_dec : RelDecision pair_le.
Proof. intros a b. unfold pair_le. apply _. Defined.

(** The keys of [df.groupby([key1, key2])]: the distinct pairs without
    a null, sorted. *)
Definition pair_keys (col1 col2 : list value) : list (value * value) :=
  merge_sort pair_le
    (remove_dups
       (List.filter (λ p, bool_decide (p.1 ≠ VNull) && bool_decide (p.2 ≠ VNull))
                    (zip col1 col2))).

Definition pair_size (col1 col2 : list value) (p : value * value) : nat :=
  length (List.filter (λ q, bool_decide (q = p)) (zip col1 col2)).

Record volumetria : Type := mkVolumetria {
  n_clients_total : option nat;
  clientes_por_fold : option (list (Z * nat));
  rows_targets_total : nat;
  rows_por_mes : option (PyDict.t nat);
  rows_por_mes_fold : option (PyDict.t nat)
}.

Section volumetria_report.

(** [int(x)] on a group key. *)
Variable py_int : value → result Z.

(** [{int(k): int(v) for k, v in ... .items()}] *)
Fixpoint clients_per_fold (items : list (value * nat)) (acc : list (Z * nat))
    : result (list (Z * nat)) :=
  match items with
  | [] => Ok acc
  | (k, v) :: rest =>
      z ← py_int k;
      clients_per_fold rest (assoc_set z v acc)
  end.

(** [{f"{str(m)}|{int(f)}": int(v) for (m, f), v in ... .items()}] *)
Fixpoint rows_per_month_fold (items : list (value * value * nat))
    (acc : PyDict.t nat) : result (PyDict.t nat) :=
  match items with
  | [] => Ok acc
  | (m, f, v) :: rest =>
      z ← py_int f;
      rows_per_month_fold rest
        (PyDict.set (str_value m +:+ "|" +:+ pretty z) v acc)
  end.

Definition volumetria_report (targets client_split : DataFrame)
    : result volumetria :=
  clients ←
    (if has_column "client_id" client_split then
       let cid := default [] (getcol "client_id" client_split) in
       per_fold ←
         (if has_column "fold" client_split then
            let fold := default [] (getcol "fold" client_split) in
            d ← clients_per_fold
                  ((λ k, (k, nunique (cells_where fold k cid))) <$> group_keys fold)
                  [];
            mret (Some d)
          else mret None);
       mret (Some (nunique cid), per_fold)
     else mret (None, None));
  let by_month :=
    if has_column "mon" targets
    then Some (rows_per_month (default [] (getcol "mon" targets)))
    else None in
  by_month_fold ←
    (if has_column "mon" targets && has_column "fold" targets then
       let mon := default [] (getcol "mon" targets) in
       let fold := default [] (getcol "fold" targets) in
       d ← rows_per_month_fold
             ((λ p, (p, pair_size mon fold p)) <$> pair_keys mon fold) [];
       mret (Some d)
     else mret None);
  mret {| n_clients_total := clients.1;
          clientes_por_fold := clients.2;
          rows_targets_total := nrows targets;
          rows_por_mes := by_month;
          rows_por_mes_fold := by_month_fold |}.

End volumetria_report.

(** [int(x)] for the examples: the integer itself, or the integer that
    a string of digits denotes. *)
Definition example_int (v : value) : result Z :=
  match v with
  | VInt z => Ok z
  | VStr s => if PyStr.fullmatch_digits s then Ok (PyStr.int s)
              else Raise (ValueError "invalid literal for int() with base 10")
  | VNull => Raise (ValueError "cannot convert float NaN to integer")
  end.

(** The integer of an integer cell. *)
Definition int_of_value (v : value) : Z :=
  match v with VInt z => z | _ => 0 end.

(** The label [f"{str(m)}|{int(f)}"] of a month and an integer fold. *)
Definition pair_label (p : value * value) : string :=
  str_value p.1 +:+ "|" +:+ pretty (int_of_value p.2).

(** The report on [example_targets] and [example_split]. *)
Definition example_volumetria : volumetria :=
  {| n_clients_total := Some 2%nat;
     clientes_por_fold := Some [(0, 2%nat); (1, 1%nat)];
     rows_targets_total := 5;
     rows_por_mes := Some [("2022-01", 2%nat); ("2022-02", 2%nat)];
     rows_por_mes_fold :=
       Some [("2022-01|0", 1%nat); ("2022-01|2", 1%nat); ("2022-02|10", 2%nat)] |}.

(** * Proofs *)

(** ** The definitions at work *)

Example split_keeps_empty_segments :
  PyStr.split "/" "a//b/" = ["a"; ""; "b"; ""].
Proof. reflexivity. Qed.

Example split1_first_separator : PyStr.split1 "=" "k=v=w" = ("k", "v=w").
Proof. reflexivity. Qed.

Example parse_fold7 :
  _parse_partitions_from_path "targets/fold=7/part-0.parquet" ["fold"]
  = [("fold", VInt 7)].
Proof. reflexivity. Qed.

Example parse_fold_abc :
  _parse_partitions_from_path "targets/fold=abc/part-0.parquet" ["fold"]
  = [("fold", VStr "abc")].
Proof. reflexivity. Qed.

Example parse_keeps_expected_keys :
  _parse_partitions_from_path "t/mon=2020-01/fold=007/x=1/p.parquet" ["fold"; "mon"]
  = [("mon", VStr "2020-01"); ("fold", VInt 7)].
Proof. reflexivity. Qed.

Example candidate_any_case :
  is_candidate "Targets/" (mkTarInfo "targets/fold=0/P.PARQUET" true []) = true.
Proof. reflexivity. Qed.

Example slice_negative : slice_to (-1) [1; 2; 3] = [1; 2].
Proof. reflexivity. Qed.

Example max_parts_one :
  selected "targets/" ["fold"] None (Some 1) Example.members = [Example.part0].
Proof. reflexivity. Qed.

Example pd_concat_outer_union :
  pd_concat [ {| nrows := 1; cols := [("x", [VInt 1]); ("fold", [VInt 0])] |};
              {| nrows := 2; cols := [("y", [VInt 8; VInt 9])] |} ]
  = Ok {| nrows := 3;
          cols := [("x", [VInt 1; VNull; VNull]);
                   ("fold", [VInt 0; VNull; VNull]);
                   ("y", [VNull; VInt 8; VInt 9])] |}.
Proof. reflexivity. Qed.

Example prevalence_example :
  prevalence_table example_targets
  = Ok [("ALL", [("target_1", Some (2 # 5)); ("target_3", Some (3 # 5))]);
        ("fold=0", [("target_1", Some (1 # 1)); ("target_3", Some (0 # 1))]);
        ("fold=10", [("target_1", Some (0 # 1)); ("target_3", Some (1 # 2))]);
        ("fold=2", [("target_1", Some (1 # 2)); ("target_3", Some (1 # 1))]);
        ("mon=2022-01", [("target_1", Some (1 # 1)); ("target_3", Some (1 # 2))]);
        ("mon=2022-02", [("target_1", Some (0 # 1)); ("target_3", Some (1 # 2))])].
Proof. vm_compute. reflexivity. Qed.

(** ** Strings *)

Section PyStr_facts.
Import PyStr.

Lemma contains_app (c : ascii) (s1 s2 : string) :
  contains c (s1 +:+ s2) = contains c s1 || contains c s2.
Proof.
  induction s1 as [|a s1 IH]; simpl; [done|].
  rewrite IH. by rewrite orb_assoc.
Qed.

Lemma split1_app (sep : ascii) (k v : string) :
  contains sep k = false →
  split1 sep (k +:+ String sep v) = (k, v).
Proof.
  induction k as [|a k IH]; simpl; intros Hk.
  - by rewrite bool_decide_eq_true_2.
  - apply orb_false_iff in Hk as [Ha Hk].
    rewrite Ha. by rewrite IH.
Qed.

Lemma split1_inv (sep : ascii) (s k v : string) :
  contains sep s = true →
  split1 sep s = (k, v) →
  s = k +:+ String sep v ∧ contains sep k = false.
Proof.
  revert k. induction s as [|a s IH]; simpl; intros k Hs Hsplit; [done|].
  destruct (bool_decide (a = sep)) eqn:Ha.
  - apply bool_decide_eq_true in Ha as ->. by simplify_eq.
  - simpl in Hs. destruct (split1 sep s) as [k' v'] eqn:Hk'. simplify_eq.
    destruct (IH k' Hs eq_refl) as [-> Hc]. split; [done|].
    simpl. by rewrite Ha.
Qed.

Lemma split_nonempty (sep : ascii) (s : string) : split sep s ≠ [].
Proof.
  destruct s as [|a s]; simpl; [done|].
  destruct (bool_decide (a = sep)); [done|]. by destruct (split sep s).
Qed.

Lemma int_go_leading_zero (acc : Z) (s : string) :
  int_go acc (String "0" s) = int_go (10 * acc) s.
Proof. simpl. f_equal. unfold digit_val. simpl. lia. Qed.

(** Leading zeros do not change the integer that is read. *)
Lemma int_leading_zero (s : string) : int (String "0" s) = int s.
Proof. unfold int. by rewrite int_go_leading_zero. Qed.

Lemma fullmatch_digits_sign (c : ascii) (s : string) :
  is_digit c = false → fullmatch_digits (String c s) = false.
Proof. intros Hc. simpl. by rewrite Hc. Qed.

Lemma string_app_cons (x : ascii) (a b : string) :
  String x a +:+ b = String x (a +:+ b).
Proof. reflexivity. Qed.

Lemma int_go_app (acc : Z) (d s : string) :
  int_go acc (d +:+ s) = int_go (int_go acc d) s.
Proof.
  revert acc. induction d as [|c d IH]; intros acc; [done|].
  rewrite string_app_cons. simpl. apply IH.
Qed.

Lemma all_digits_app (d s : string) :
  all_digits (d +:+ s) = all_digits d && all_digits s.
Proof.
  induction d as [|c d IH]; [done|].
  rewrite string_app_cons. simpl. by rewrite IH, andb_assoc.
Qed.

Lemma string_app_assoc (a b c : string) : (a +:+ b) +:+ c = a +:+ (b +:+ c).
Proof.
  induction a as [|x a IH]; [done|]. rewrite !string_app_cons. by rewrite IH.
Qed.

Lemma string_app_nil_r (a : string) : a +:+ "" = a.
Proof. induction a as [|x a IH]; [done|]. rewrite string_app_cons. by rewrite IH. Qed.

Lemma string_length_snoc (d : string) (c : ascii) :
  String.length (d +:+ String c "") = S (String.length d).
Proof.
  induction d as [|x d IH]; [done|]. rewrite string_app_cons. simpl. by rewrite IH.
Qed.

Lemma pretty_N_char_digit (m : N) :
  (m < 10)%N →
  is_digit (pretty_N_char m) = true ∧ digit_val (pretty_N_char m) = Z.of_N m.
Proof.
  intros Hm.
  assert (m = 0 ∨ m = 1 ∨ m = 2 ∨ m = 3 ∨ m = 4 ∨ m = 5 ∨ m = 6 ∨ m = 7
          ∨ m = 8 ∨ m = 9)%N as Hcases by lia.
  repeat (destruct Hcases as [->|Hcases]; [by vm_compute|]). subst. by vm_compute.
Qed.

Lemma pretty_N_go_digits (x : N) :
  ∃ d, (∀ s, pretty_N_go x s = d +:+ s) ∧ all_digits d = true ∧
       (x ≠ 0%N → d ≠ "") ∧
       ∀ acc, int_go acc d = acc * 10 ^ Z.of_nat (String.length d) + Z.of_N x.
Proof.
  induction (N.lt_wf_0 x) as [x _ IH].
  destruct (decide (x = 0%N)) as [->|Hx].
  - exists "". split_and!; [done..|]. intros acc. simpl. lia.
  - assert (0 < x)%N as Hpos by lia.
    destruct (IH (x `div` 10)%N) as (d & Hd & Hall & _ & Hint).
    { by apply N.div_lt. }
    destruct (pretty_N_char_digit (x `mod` 10)%N) as [Hdig Hval].
    { by apply N.mod_lt. }
    exists (d +:+ String (pretty_N_char (x `mod` 10)) "").
    split_and!.
    + intros s. rewrite pretty_N_go_step, Hd by done.
      by rewrite string_app_assoc.
    + rewrite all_digits_app, Hall. simpl. by rewrite Hdig.
    + intros _. by destruct d.
    + intros acc. rewrite int_go_app, Hint. simpl. rewrite Hval.
      rewrite string_length_snoc.
      rewrite Nat2Z.inj_succ, Z.pow_succ_r by lia.
      rewrite (N.div_mod x 10) at 3 by done.
      rewrite N2Z.inj_add, N2Z.inj_mul. simpl Z.of_N. lia.
Qed.

(** [int] reads decimal notation: it gives back the number that was
    printed. *)
Lemma int_pretty (n : N) :
  fullmatch_digits (pretty n) = true ∧ int (pretty n) = Z.of_N n.
Proof.
  unfold pretty, pretty_N. destruct (decide (n = 0%N)) as [->|Hn]; [done|].
  destruct (pretty_N_go_digits n) as (d & Hd & Hall & Hne & Hint).
  rewrite Hd, string_app_nil_r. split.
  - destruct d; [by destruct Hne|done].
  - unfold int. rewrite Hint. lia.
Qed.

End PyStr_facts.

(** A segment has the value [v] for the key [k] exactly when it reads
    [k=v] and [k] has no [=]. *)
Lemma segment_value_Some (k seg v : string) :
  segment_value k seg = Some v ↔
  seg = k +:+ String "=" v ∧ PyStr.contains "=" k = false.
Proof.
  unfold segment_value. split.
  - destruct (PyStr.contains "=" seg) eqn:Hc; [|done].
    destruct (PyStr.split1 "=" seg) as [k' v'] eqn:Hs.
    case_decide; [|done]. intros; simplify_eq.
    by apply split1_inv.
  - intros [-> Hk]. rewrite contains_app. simpl.
    rewrite orb_true_r.
    rewrite split1_app by done. by rewrite decide_True.
Qed.

Lemma last_value_Some (k : string) (segs : list string) (v : string) :
  last_value k segs = Some v →
  ∃ seg, seg ∈ segs ∧ segment_value k seg = Some v.
Proof.
  induction segs as [|seg rest IH]; simpl; [done|].
  destruct (last_value k rest) as [v'|].
  - intros ?; simplify_eq.
    destruct IH as (seg' & ? & ?); [done|]. exists seg'. split; [by right|done].
  - intros ?. exists seg. split; [by left|done].
Qed.

Lemma last_value_is_Some (k : string) (segs : list string) (seg v : string) :
  seg ∈ segs → segment_value k seg = Some v → is_Some (last_value k segs).
Proof.
  induction segs as [|seg' rest IH]; simpl; [by intros ?%elem_of_nil|].
  intros [->|Hin]%elem_of_cons Hv.
  - destruct (last_value k rest); [done|]. by rewrite Hv.
  - destruct (IH Hin Hv) as [v' ->]. done.
Qed.

Lemma last_value_app (k : string) (before after : list string) (seg v : string) :
  segment_value k seg = Some v →
  (∀ s, s ∈ after → segment_value k s = None) →
  last_value k (before ++ seg :: after) = Some v.
Proof.
  intros Hv Hafter.
  assert (last_value k after = None) as Hnone.
  { induction after as [|s after IH]; simpl; [done|].
    rewrite IH by (intros; apply Hafter; by right).
    apply Hafter. by left. }
  induction before as [|s before IH]; simpl.
  - by rewrite Hnone.
  - by rewrite IH.
Qed.

(** ** Dictionaries *)

Section PyDict_facts.
Context {V : Type}.
Implicit Types (d : PyDict.t V) (k : string) (v : V).

Lemma dict_get_set_eq k v d : PyDict.get k (PyDict.set k v d) = Some v.
Proof.
  induction d as [|[k' v'] d IH]; simpl.
  - by rewrite decide_True.
  - destruct (decide (k = k')) as [->|Hne]; simpl.
    + by rewrite decide_True.
    + by rewrite decide_False.
Qed.

Lemma dict_get_set_ne k k' v d :
  k ≠ k' → PyDict.get k' (PyDict.set k v d) = PyDict.get k' d.
Proof.
  intros Hne. induction d as [|[k0 v0] d IH]; simpl.
  - by rewrite decide_False.
  - destruct (decide (k = k0)) as [->|Hne0]; simpl.
    + by rewrite !decide_False by done.
    + by rewrite IH.
Qed.

Lemma dict_keys_set k k' v d :
  k' ∈ PyDict.keys (PyDict.set k v d) ↔ k' = k ∨ k' ∈ PyDict.keys d.
Proof.
  unfold PyDict.keys.
  induction d as [|[k0 v0] d IH]; simpl.
  - rewrite list_elem_of_singleton, elem_of_nil. tauto.
  - destruct (decide (k = k0)) as [->|Hne]; simpl.
    + rewrite !elem_of_cons. tauto.
    + rewrite !elem_of_cons, IH. tauto.
Qed.

Lemma dict_get_is_Some k d : is_Some (PyDict.get k d) ↔ k ∈ PyDict.keys d.
Proof.
  unfold PyDict.keys.
  induction d as [|[k0 v0] d IH]; simpl.
  - split; [by intros [? ?]|by intros ?%elem_of_nil].
  - destruct (decide (k = k0)) as [->|Hne].
    + split; [intros _; by left|by eauto].
    + rewrite IH, elem_of_cons. tauto.
Qed.

Lemma dict_get_None k d : PyDict.get k d = None ↔ k ∉ PyDict.keys d.
Proof. rewrite <-dict_get_is_Some, eq_None_not_Some. done. Qed.

Lemma dict_get_elem_of k v d : PyDict.get k d = Some v → (k, v) ∈ d.
Proof.
  induction d as [|[k0 v0] d IH]; simpl; [done|].
  destruct (decide (k = k0)) as [->|Hne].
  - intros; simplify_eq. by left.
  - intros. right. by apply IH.
Qed.

Lemma dict_elem_of_get k v d :
  NoDup (PyDict.keys d) → (k, v) ∈ d → PyDict.get k d = Some v.
Proof.
  unfold PyDict.keys.
  induction d as [|[k0 v0] d IH]; simpl; [by intros _ ?%elem_of_nil|].
  intros [Hk0 Hnd]%NoDup_cons [?|Hin]%elem_of_cons.
  - simplify_eq. by rewrite decide_True.
  - destruct (decide (k = k0)) as [->|Hne]; [|by apply IH].
    exfalso. apply Hk0. apply list_elem_of_fmap. by exists (k0, v).
Qed.

Lemma dict_set_fresh k v d :
  k ∉ PyDict.keys d → PyDict.set k v d = d ++ [(k, v)].
Proof.
  unfold PyDict.keys.
  induction d as [|[k0 v0] d IH]; simpl; [done|].
  intros Hk. apply not_elem_of_cons in Hk as [Hne Hk].
  rewrite decide_False by done. by rewrite IH.
Qed.

Lemma dict_keys_set_NoDup k v d :
  NoDup (PyDict.keys d) → NoDup (PyDict.keys (PyDict.set k v d)).
Proof.
  unfold PyDict.keys.
  induction d as [|[k0 v0] d IH]; simpl.
  - intros _. apply NoDup_singleton.
  - intros [Hk0 Hnd]%NoDup_cons.
    destruct (decide (k = k0)) as [->|Hne]; simpl.
    + by apply NoDup_cons.
    + apply NoDup_cons. split; [|by apply IH].
      intros Hin. apply (dict_keys_set k k0 v d) in Hin as [?|?]; [by subst|done].
Qed.

End PyDict_facts.

(** ** The partition descriptor *)

Lemma parse_segment_get (expected_keys : list string) (kv : PyDict.t value)
    (seg k : string) :
  PyDict.get k (parse_segment expected_keys kv seg) =
  match (if bool_decide (k ∈ expected_keys) then segment_value k seg else None) with
  | Some v => Some (partition_value v)
  | None => PyDict.get k kv
  end.
Proof.
  unfold parse_segment, segment_value.
  destruct (PyStr.contains "=" seg); [|by case_bool_decide].
  destruct (PyStr.split1 "=" seg) as [k' v].
  destruct (decide (k' = k)) as [->|Hne].
  - case_bool_decide; [|done]. apply dict_get_set_eq.
  - destruct (bool_decide (k' ∈ expected_keys)).
    + rewrite dict_get_set_ne by done. by case_bool_decide.
    + by case_bool_decide.
Qed.

Lemma parse_segments_get (expected_keys : list string) (segs : list string)
    (kv : PyDict.t value) (k : string) :
  PyDict.get k (fold_left (parse_segment expected_keys) segs kv) =
  match (if bool_decide (k ∈ expected_keys) then last_value k segs else None) with
  | Some v => Some (partition_value v)
  | None => PyDict.get k kv
  end.
Proof.
  revert kv. induction segs as [|seg rest IH]; intros kv; simpl.
  - by case_bool_decide.
  - rewrite IH, parse_segment_get.
    case_bool_decide; [|done].
    by destruct (last_value k rest).
Qed.

Lemma parse_segment_NoDup (expected_keys : list string) (kv : PyDict.t value)
    (seg : string) :
  NoDup (PyDict.keys kv) → NoDup (PyDict.keys (parse_segment expected_keys kv seg)).
Proof.
  intros Hnd. unfold parse_segment.
  destruct (PyStr.contains "=" seg); [|done].
  destruct (PyStr.split1 "=" seg) as [k v].
  case_bool_decide; [|done]. by apply dict_keys_set_NoDup.
Qed.

Lemma parse_NoDup (path : string) (expected_keys : list string) :
  NoDup (PyDict.keys (_parse_partitions_from_path path expected_keys)).
Proof.
  unfold _parse_partitions_from_path.
  assert (NoDup (PyDict.keys ([] : PyDict.t value))) as Hnil by constructor.
  revert Hnil. generalize ([] : PyDict.t value).
  induction (PyStr.split "/" path) as [|seg rest IH]; intros kv Hkv; simpl; [done|].
  apply IH. by apply parse_segment_NoDup.
Qed.

Lemma parse_get (path : string) (expected_keys : list string) (k : string) :
  PyDict.get k (_parse_partitions_from_path path expected_keys) =
  if bool_decide (k ∈ expected_keys)
  then partition_value <$> last_value k (PyStr.split "/" path)
  else None.
Proof.
  unfold _parse_partitions_from_path. rewrite parse_segments_get.
  case_bool_decide; [|done]. by destruct (last_value _ _).
Qed.

(** C2, as the code has it: the descriptor of a path holds exactly the
    expected keys that some segment [k=v] of the path carries, without
    repetition; the value kept for a key is that of the LAST segment
    carrying it, an integer when that value is all digits and the string
    itself otherwise.  So a path whose last [fold] segment is [fold=7]
    gives the integer 7, and one whose last [fold] segment is [fold=abc]
    gives the string "abc". *)
Theorem descriptor_last_segment_wins (path : string) (expected_keys : list string) :
  let kv := _parse_partitions_from_path path expected_keys in
  (∀ k, k ∈ PyDict.keys kv ↔
        k ∈ expected_keys ∧
        ∃ v, k +:+ String "=" v ∈ PyStr.split "/" path ∧ PyStr.contains "=" k = false)
  ∧ NoDup (PyDict.keys kv)
  ∧ (∀ k, PyDict.get k kv =
          if bool_decide (k ∈ expected_keys)
          then partition_value <$> last_value k (PyStr.split "/" path)
          else None)
  ∧ (∀ v, partition_value v =
          if PyStr.fullmatch_digits v then VInt (PyStr.int v) else VStr v)
  ∧ partition_value "7" = VInt 7
  ∧ partition_value "abc" = VStr "abc".
Proof.
  intros kv. split_and!; [|apply parse_NoDup|apply parse_get|done..].
  intros k. rewrite <-dict_get_is_Some. unfold kv. rewrite parse_get.
  case_bool_decide as Hk; [|split; [by intros [? ?]|by intros [? _]]].
  rewrite fmap_is_Some. split.
  - intros [v (seg & Hin & [-> Hc]%segment_value_Some)%last_value_Some].
    split; [done|]. by exists v.
  - intros [_ (v & Hin & Hc)].
    eapply last_value_is_Some; [done|]. by apply segment_value_Some.
Qed.

(** C2, as the spec states it, fails: the path below contains the segment
    [fold=7], and its descriptor does not map [fold] to the integer 7,
    because the later segment [fold=abc] replaces it. *)
Lemma descriptor_fold7_overwritten :
  "fold=7" ∈ PyStr.split "/" "targets/fold=7/fold=abc/part-0.parquet" ∧
  PyDict.get "fold"
    (_parse_partitions_from_path "targets/fold=7/fold=abc/part-0.parquet" ["fold"])
  ≠ Some (VInt 7).
Proof. split; [apply (bool_decide_unpack _); reflexivity|by vm_compute]. Qed.

(** C10: a segment [k=v] of an expected key, not followed by another
    segment of that key, whose value is all digits is stored as the
    integer its decimal digits denote, leading zeros included ("007" is
    stored as 7, a leading zero never changes the integer, and the
    decimal notation of a number is stored as that number); a value that
    is not all digits, such as "-3", is stored as the string itself.
    The loop body does so whatever the dictionary holds. *)
Theorem digits_stored_as_integer (path : string) (expected_keys : list string)
    (before after : list string) (k v : string) :
  PyStr.split "/" path = before ++ (k +:+ String "=" v) :: after →
  PyStr.contains "=" k = false →
  k ∈ expected_keys →
  (∀ s, s ∈ after → segment_value k s = None) →
  (∀ kv, parse_segment expected_keys kv (k +:+ String "=" v)
         = PyDict.set k (partition_value v) kv)
  ∧ (PyStr.fullmatch_digits v = true →
     PyDict.get k (_parse_partitions_from_path path expected_keys)
     = Some (VInt (PyStr.int v)))
  ∧ (PyStr.fullmatch_digits v = false →
     PyDict.get k (_parse_partitions_from_path path expected_keys)
     = Some (VStr v))
  ∧ (∀ s, PyStr.int (String "0" s) = PyStr.int s)
  ∧ (∀ n : N, partition_value (pretty n) = VInt (Z.of_N n))
  ∧ partition_value "007" = VInt 7
  ∧ partition_value "-3" = VStr "-3".
Proof.
  intros Hsplit Hk Hexp Hafter.
  assert (segment_value k (k +:+ String "=" v) = Some v) as Hseg
    by by apply segment_value_Some.
  assert (PyDict.get k (_parse_partitions_from_path path expected_keys)
          = Some (partition_value v)) as Hget.
  { rewrite parse_get, bool_decide_eq_true_2 by done.
    rewrite Hsplit. by erewrite last_value_app. }
  split_and!; [|intros Hd|intros Hd|apply int_leading_zero| |done..].
  - intros kv. unfold parse_segment.
    unfold segment_value in Hseg.
    destruct (PyStr.contains "=" (k +:+ String "=" v)); [|done].
    destruct (PyStr.split1 "=" (k +:+ String "=" v)) as [k' v'].
    case_decide; [|done]. simplify_eq.
    by rewrite bool_decide_eq_true_2.
  - rewrite Hget. unfold partition_value. by rewrite Hd.
  - rewrite Hget. unfold partition_value. by rewrite Hd.
  - intros n. unfold partition_value.
    destruct (int_pretty n) as [-> ->]. done.
Qed.

Lemma digits_stored_as_integer_witness :
  PyDict.get "fold"
    (_parse_partitions_from_path "targets/fold=007/part-0.parquet" ["fold"; "mon"])
  = Some (VInt 7).
Proof.
  refine (proj1 (proj2
    (digits_stored_as_integer "targets/fold=007/part-0.parquet" ["fold"; "mon"]
       ["targets"] ["part-0.parquet"] "fold" "007" _ _ _ _)) _).
  - reflexivity.
  - reflexivity.
  - apply (bool_decide_unpack _). reflexivity.
  - intros s Hs. apply list_elem_of_singleton in Hs as ->. reflexivity.
  - reflexivity.
Defined.

(** ** One entry, and the loop over the entries *)

Section reader_facts.

Variable parquet_decode : list Byte.byte → option (list string) → result DataFrame.
Variable tmp_name : N → gmap string (list Byte.byte) → string.

Abbreviation read_member := (read_member parquet_decode tmp_name).
Abbreviation read_members := (read_members parquet_decode tmp_name).
Abbreviation read_tar := (read_parquet_partitions_from_tar parquet_decode tmp_name).
Abbreviation member_frames := (member_frames parquet_decode).
Abbreviation after_member := (after_member tmp_name).

Lemma read_member_run (expected_keys : list string)
    (columns : option (list string)) (m : TarInfo) (w : World) :
  read_member expected_keys columns m w
  = (member_frame parquet_decode expected_keys columns m, after_member w).
Proof.
  unfold read_member, member_frame, after_member, mbind, M_bind, mret, M_ret,
    NamedTemporaryFile, tmp_write, try_finally, read_parquet, unlink,
    with_temps, result_bind, result_ret.
  simpl. rewrite lookup_insert_eq. simpl.
  rewrite !delete_insert_eq.
  by destruct (parquet_decode (data m) columns).
Qed.

Lemma read_members_result (expected_keys : list string)
    (columns : option (list string)) (members : list TarInfo)
    (frames : list DataFrame) (w : World) :
  (read_members expected_keys columns members frames w).1
  = member_frames expected_keys columns members frames.
Proof.
  revert frames w. induction members as [|m rest IH]; intros frames w; [done|].
  simpl. unfold mbind at 1, M_bind. rewrite read_member_run.
  destruct (member_frame parquet_decode expected_keys columns m) as [df|e]; simpl; [|done].
  apply IH.
Qed.

(** The loop touches neither the file system nor the standard output,
    and the temporary directory ends as it started once every name
    drawn is new. *)
Lemma read_members_world (expected_keys : list string)
    (columns : option (list string)) (members : list TarInfo)
    (frames : list DataFrame) (w : World) :
  ∀ r w', read_members expected_keys columns members frames w = (r, w') →
  files w' = files w ∧ stdout w' = stdout w ∧
  ((∀ n t, t !! tmp_name n t = None) → temps w' = temps w).
Proof.
  revert frames w. induction members as [|m rest IH]; intros frames w r w'.
  { intros [= <- <-]. done. }
  simpl. unfold mbind at 1, M_bind. rewrite read_member_run.
  destruct (member_frame parquet_decode expected_keys columns m) as [df|e]; simpl.
  - intros (Hf & Hs & Ht)%IH.
    split_and!; [by rewrite Hf|by rewrite Hs|].
    intros Hfresh. rewrite Ht by done. simpl. by apply delete_id.
  - intros [= <- <-]. split_and!; [done..|]. intros Hfresh. by apply delete_id.
Qed.

Lemma read_tar_result (tar_path : Path.t) (prefix : string)
    (expected_keys : list string)
    (allowed_partitions : option (PyDict.t (list value)))
    (columns : option (list string)) (max_parts : option Z) (w : World) :
  (read_tar tar_path prefix expected_keys allowed_partitions columns max_parts w).1
  = read_result parquet_decode tar_path prefix expected_keys allowed_partitions columns
      max_parts (files w !! Path.str tar_path).
Proof.
  unfold read_parquet_partitions_from_tar, read_result.
  destruct (files w !! Path.str tar_path) as [[all|]|]; [|done..].
  destruct (selected _ _ _ _ all) as [|m sel] eqn:Hsel; [done|].
  unfold mbind at 1, M_bind.
  rewrite <-(read_members_result expected_keys columns (m :: sel) [] w).
  destruct (read_members _ _ (m :: sel) [] w) as [[frames|e] w1]; [|done].
  unfold mbind, M_bind, lift_result, print, mret, M_ret, result_bind. simpl.
  by destruct (pd_concat frames).
Qed.

Lemma member_frames_app (expected_keys : list string)
    (columns : option (list string)) (members : list TarInfo)
    (frames : list DataFrame) :
  member_frames expected_keys columns members frames
  = fs ← member_frames expected_keys columns members []; mret (frames ++ fs).
Proof.
  revert frames. induction members as [|m rest IH]; intros frames; simpl.
  - unfold mret, result_ret. by rewrite app_nil_r.
  - destruct (member_frame parquet_decode expected_keys columns m) as [df|e]; simpl; [|done].
    rewrite (IH (frames ++ [df])), (IH [df]).
    destruct (member_frames expected_keys columns rest []); simpl; [|done].
    unfold mret, result_ret. by rewrite <-app_assoc.
Qed.

(** The frames of a loop that ends: one an entry, in the order of the
    entries. *)
Lemma member_frames_Ok (expected_keys : list string)
    (columns : option (list string)) (members : list TarInfo)
    (fs : list DataFrame) :
  member_frames expected_keys columns members [] = Ok fs ↔
  Forall2 (λ m df, member_frame parquet_decode expected_keys columns m = Ok df) members fs.
Proof.
  revert fs. induction members as [|m rest IH]; intros fs; simpl.
  - split; [intros ?; simplify_eq; constructor|by intros ->%Forall2_nil_inv_l].
  - destruct (member_frame parquet_decode expected_keys columns m) as [df|e] eqn:Hm; simpl.
    + rewrite member_frames_app.
      destruct (member_frames expected_keys columns rest []) as [fs'|e] eqn:Hr;
        simpl; unfold mret, result_ret.
      * split.
        -- intros ?; simplify_eq. constructor; [done|]. by apply IH.
        -- intros (df' & fs'' & ? & Hall & ->)%Forall2_cons_inv_l.
           apply IH in Hall. congruence.
      * split; [done|].
        intros (df' & fs'' & ? & Hall & ->)%Forall2_cons_inv_l.
        apply IH in Hall. done.
    + split; [done|].
      intros (df' & fs'' & ? & Hall & ->)%Forall2_cons_inv_l. congruence.
Qed.

(** The loop raises what the first entry that cannot be decoded
    raises. *)
Lemma member_frames_Raise (expected_keys : list string)
    (columns : option (list string)) (members : list TarInfo)
    (frames : list DataFrame) (e : exn) :
  member_frames expected_keys columns members frames = Raise e ↔
  ∃ pre m post,
    members = pre ++ m :: post ∧
    Forall (λ m', ∃ df, parquet_decode (data m') columns = Ok df) pre ∧
    parquet_decode (data m) columns = Raise e.
Proof.
  revert frames. induction members as [|m rest IH]; intros frames; simpl.
  - split; [done|]. intros (pre & m & post & Hnil & _). by destruct pre.
  - unfold member_frame.
    destruct (parquet_decode (data m) columns) as [df|e'] eqn:Hm; simpl.
    + rewrite IH. split.
      * intros (pre & m' & post & -> & Hpre & Hm').
        exists (m :: pre), m', post. split_and!; [done| |done].
        constructor; [by exists df|done].
      * intros (pre & m' & post & Heq & Hpre & Hm').
        destruct pre as [|m0 pre]; simplify_eq/=; [congruence|].
        exists pre, m', post. split_and!; [done| |done].
        by apply Forall_cons in Hpre as [_ ?].
    + split.
      * intros ?; simplify_eq. exists [], m, rest. by split_and!.
      * intros (pre & m' & post & Heq & Hpre & Hm').
        destruct pre as [|m0 pre]; simplify_eq/=; [congruence|].
        apply Forall_cons in Hpre as [[df Hdf] _]. congruence.
Qed.

End reader_facts.

(** ** The claims on the reader that do not look into the tables *)

Section reader_errors.

Variable parquet_decode : list Byte.byte → option (list string) → result DataFrame.
Variable tmp_name : N → gmap string (list Byte.byte) → string.

Abbreviation read_tar := (read_parquet_partitions_from_tar parquet_decode tmp_name).

Variables (tar_path : Path.t) (prefix : string) (expected_keys : list string).
Variables (allowed_partitions : option (PyDict.t (list value))).
Variables (columns : option (list string)) (max_parts : option Z).

Abbreviation the_read :=
  (read_tar tar_path prefix expected_keys allowed_partitions columns max_parts).
Abbreviation the_selected :=
  (selected prefix expected_keys allowed_partitions max_parts).

(** C7: when nothing lies at the path of the archive the read fails at
    once, on the assertion of line 82 (the failure the spec calls
    NotFound), with the message "Arquivo não existe: <path>", and
    nothing else happened: the world is as it was. *)
Theorem missing_archive_fails (w : World) :
  files w !! Path.str tar_path = None →
  the_read w = (Raise (AssertionError (msg_not_exists tar_path)), w).
Proof.
  intros Hnone. unfold read_parquet_partitions_from_tar. by rewrite Hnone.
Qed.

(** C1: when the archive exists and no entry remains after the match on
    prefix and extension, the partition filter and the truncation, the
    read fails with the FileNotFoundError of line 108 (the failure the
    spec calls NoMatch), whose message names the prefix and the archive;
    so a read that returns a table has read one entry at least. *)
Theorem no_match_fails (w : World) (all : list TarInfo) :
  files w !! Path.str tar_path = Some (TarGz all) →
  the_selected all = [] →
  the_read w = (Raise (FileNotFoundError (msg_no_parquet prefix tar_path)), w)
  ∧ msg_no_parquet prefix tar_path
    = "Nenhum .parquet encontrado sob '" +:+ prefix +:+ "' em "
      +:+ Path.name tar_path
  ∧ ∀ out w', the_read w ≠ (Ok out, w').
Proof.
  intros Hfile Hsel.
  assert (the_read w
          = (Raise (FileNotFoundError (msg_no_parquet prefix tar_path)), w)) as Hr.
  { unfold read_parquet_partitions_from_tar. by rewrite Hfile, Hsel. }
  split_and!; [done|done|]. intros out w'. by rewrite Hr.
Qed.

(** C5: when one of the entries to read cannot be decoded, the read
    raises what the decoder raised on the first such entry; the entries
    before it were decoded, no table is returned and nothing is
    reported. *)
Theorem decode_failure_aborts (w : World) (all : list TarInfo)
    (m : TarInfo) (e0 : exn) :
  files w !! Path.str tar_path = Some (TarGz all) →
  m ∈ the_selected all →
  parquet_decode (data m) columns = Raise e0 →
  ∃ e pre m' post w',
    the_selected all = pre ++ m' :: post ∧
    Forall (λ m0, ∃ df, parquet_decode (data m0) columns = Ok df) pre ∧
    parquet_decode (data m') columns = Raise e ∧
    the_read w = (Raise e, w') ∧
    files w' = files w ∧ stdout w' = stdout w.
Proof.
  intros Hfile Hin Hm.
  assert (∃ e pre m' post,
            the_selected all = pre ++ m' :: post ∧
            Forall (λ m0, ∃ df, parquet_decode (data m0) columns = Ok df) pre ∧
            parquet_decode (data m') columns = Raise e)
    as (e & pre & m' & post & Hsplit & Hpre & Hm').
  { revert Hin. generalize (the_selected all). intros l.
    induction l as [|m0 l IH]; [by intros ?%elem_of_nil|].
    destruct (parquet_decode (data m0) columns) as [df|e] eqn:Hm0.
    - intros [->|Hin]%elem_of_cons; [congruence|].
      destruct (IH Hin) as (e & pre & m' & post & -> & Hpre & Hm').
      exists e, (m0 :: pre), m', post. split_and!; [done| |done].
      constructor; [by exists df|done].
    - intros _. exists e, [], m0, l. by split_and!. }
  assert (member_frames parquet_decode expected_keys columns (the_selected all) []
          = Raise e) as Hframes.
  { apply member_frames_Raise. by exists pre, m', post. }
  pose proof (read_members_result parquet_decode tmp_name expected_keys columns
                (the_selected all) [] w) as Hres.
  destruct (read_members parquet_decode tmp_name expected_keys columns
              (the_selected all) [] w) as [r w'] eqn:Hloop.
  simpl in Hres. rewrite Hframes in Hres. subst r.
  destruct (read_members_world parquet_decode tmp_name _ _ _ _ _ _ _ Hloop)
    as (Hf & Hs & _).
  exists e, pre, m', post, w'. split_and!; [done..| |done|done].
  unfold read_parquet_partitions_from_tar. rewrite Hfile.
  destruct (the_selected all) as [|m1 sel] eqn:Hsel; [by destruct pre|].
  unfold mbind at 1, M_bind. by rewrite Hloop.
Qed.

(** C6: once the bytes of an entry are written to a new temporary
    file, the decoder is run on that file and the file is removed,
    whether the decoder returned or raised: when the processing of the
    entry ends the file is gone and the temporary directory is what it
    was before the entry; so it is at the start of the next entry, and
    at the end of the read, however the read ends. *)
Theorem temp_file_removed :
  (∀ n t, t !! tmp_name n t = None) →
  (∀ (m : TarInfo) (w : World),
     let p := tmp_name (rng w) (temps w) in
     ∃ w1 w2,
       (tmp ← NamedTemporaryFile tmp_name; _ ← tmp_write tmp (data m); mret tmp) w
       = (Ok p, w1) ∧
       temps w1 !! p = Some (data m) ∧
       try_finally (read_parquet parquet_decode p columns) (unlink p) w1
       = (parquet_decode (data m) columns, w2) ∧
       temps w2 !! p = None ∧ temps w2 = temps w ∧
       (read_member parquet_decode tmp_name expected_keys columns m w).2 = w2)
  ∧ (∀ w, temps (the_read w).2 = temps w).
Proof.
  intros Hfresh. split.
  - intros m w. cbv zeta. set (p := tmp_name (rng w) (temps w)).
    exists {| files := files w; temps := <[p := data m]> (<[p := []]> (temps w));
              rng := N.succ (rng w); stdout := stdout w |},
           (after_member tmp_name w).
    split_and!.
    + done.
    + simpl. apply lookup_insert_eq.
    + unfold try_finally, read_parquet, unlink, with_temps. simpl.
      rewrite lookup_insert_eq. unfold after_member. fold p. simpl.
      by rewrite !delete_insert_eq.
    + simpl. apply lookup_delete_eq.
    + simpl. by apply delete_id.
    + by rewrite read_member_run.
  - intros w. unfold read_parquet_partitions_from_tar.
    destruct (files w !! Path.str tar_path) as [[all|]|]; [|done..].
    destruct (the_selected all) as [|m sel]; [done|].
    unfold mbind at 1, M_bind.
    destruct (read_members parquet_decode tmp_name expected_keys columns
                (m :: sel) [] w) as [r w'] eqn:Hloop.
    destruct (read_members_world parquet_decode tmp_name _ _ _ _ _ _ _ Hloop)
      as (_ & _ & Ht).
    destruct r as [frames|e]; simpl; [|by apply Ht].
    unfold mbind, M_bind, lift_result, print, mret, M_ret.
    destruct (pd_concat frames); simpl; by apply Ht.
Qed.

(** A read leaves the file system as it is. *)
Lemma read_tar_files (w : World) : files (the_read w).2 = files w.
Proof.
  unfold read_parquet_partitions_from_tar.
  destruct (files w !! Path.str tar_path) as [[all|]|]; [|done..].
  destruct (the_selected all) as [|m sel]; [done|].
  unfold mbind at 1, M_bind.
  destruct (read_members parquet_decode tmp_name expected_keys columns
              (m :: sel) [] w) as [r w'] eqn:Hloop.
  destruct (read_members_world parquet_decode tmp_name _ _ _ _ _ _ _ Hloop)
    as (Hf & _ & _).
  destruct r as [frames|e]; simpl; [|done].
  unfold mbind, M_bind, lift_result, print, mret, M_ret.
  by destruct (pd_concat frames).
Qed.

(** C8: what a read returns is a function of its arguments and of what
    lies at the path of the archive: two reads of the same archive
    return the same result, whatever the temporary directory holds,
    whatever names are drawn and whatever was printed before; so does a
    second read that follows the first.  Two tables so returned have the
    same number of rows, the same columns and, column by column, the
    same values. *)
Theorem read_deterministic (w1 w2 : World) :
  files w1 !! Path.str tar_path = files w2 !! Path.str tar_path →
  (the_read w1).1 = (the_read w2).1
  ∧ (the_read (the_read w1).2).1 = (the_read w1).1
  ∧ ∀ out1 out2,
      (the_read w1).1 = Ok out1 → (the_read w2).1 = Ok out2 →
      nrows out1 = nrows out2 ∧ df_columns out1 = df_columns out2 ∧
      ∀ k, getcol k out1 = getcol k out2.
Proof.
  intros Hfiles.
  assert ((the_read w1).1 = (the_read w2).1) as Heq
    by by rewrite !read_tar_result, Hfiles.
  split_and!; [done| |].
  - by rewrite !read_tar_result, read_tar_files.
  - intros out1 out2 H1 H2.
    assert (out1 = out2) as -> by congruence. done.
Qed.

End reader_errors.

Lemma missing_archive_fails_witness :
  read_parquet_partitions_from_tar Example.decode Example.tmp_name
    (Path.mk "/" ["data"; "nowhere.tar.gz"]) "targets/" ["fold"] None None None
    (Example.world_of [Example.part0])
  = (Raise (AssertionError
       (msg_not_exists (Path.mk "/" ["data"; "nowhere.tar.gz"]))),
     Example.world_of [Example.part0]).
Proof. apply missing_archive_fails. vm_compute. reflexivity. Defined.

Lemma no_match_fails_witness :
  read_parquet_partitions_from_tar Example.decode Example.tmp_name
    Example.archive_path "client_split/" ["fold"] None None None
    (Example.world_of [Example.folder; Example.part0])
  = (Raise (FileNotFoundError
       "Nenhum .parquet encontrado sob 'client_split/' em targets.tar.gz"),
     Example.world_of [Example.folder; Example.part0]).
Proof.
  refine (proj1 (no_match_fails Example.decode Example.tmp_name
    Example.archive_path "client_split/" ["fold"] None None None
    (Example.world_of [Example.folder; Example.part0])
    [Example.folder; Example.part0] _ _)).
  - vm_compute. reflexivity.
  - vm_compute. reflexivity.
Defined.

Lemma decode_failure_aborts_witness :
  ∃ e pre m' post w',
    selected "targets/" ["fold"] None None
      [Example.part0; Example.part_broken; Example.part1]
    = pre ++ m' :: post ∧
    Forall (λ m0, ∃ df, Example.decode (data m0) None = Ok df) pre ∧
    Example.decode (data m') None = Raise e ∧
    read_parquet_partitions_from_tar Example.decode Example.tmp_name
      Example.archive_path "targets/" ["fold"] None None None
      (Example.world_of [Example.part0; Example.part_broken; Example.part1])
    = (Raise e, w') ∧
    files w' = files (Example.world_of
                        [Example.part0; Example.part_broken; Example.part1]) ∧
    stdout w' = stdout (Example.world_of
                          [Example.part0; Example.part_broken; Example.part1]).
Proof.
  refine (decode_failure_aborts Example.decode Example.tmp_name
    Example.archive_path "targets/" ["fold"] None None None
    (Example.world_of [Example.part0; Example.part_broken; Example.part1])
    [Example.part0; Example.part_broken; Example.part1]
    Example.part_broken (ArrowInvalid "Parquet magic bytes not found") _ _ _).
  - vm_compute. reflexivity.
  - vm_compute. right. left.
  - reflexivity.
Defined.

Lemma temp_file_removed_witness :
  temps (read_parquet_partitions_from_tar Example.decode Example.tmp_name
           Example.archive_path "targets/" ["fold"] None None None
           (Example.later_world_of [Example.part0; Example.part_broken])).2
  = temps (Example.later_world_of [Example.part0; Example.part_broken]).
Proof.
  refine (proj2 (temp_file_removed Example.decode Example.tmp_name
    Example.archive_path "targets/" ["fold"] None None None _) _).
  intros n t. apply not_elem_of_dom. unfold Example.tmp_name. apply is_fresh.
Defined.

Lemma read_deterministic_witness :
  (read_parquet_partitions_from_tar Example.decode Example.tmp_name
     Example.archive_path "targets/" ["fold"] None None None
     (Example.world_of [Example.part0; Example.part1])).1
  = (read_parquet_partitions_from_tar Example.decode Example.tmp_name
       Example.archive_path "targets/" ["fold"] None None None
       (Example.later_world_of [Example.part0; Example.part1])).1.
Proof.
  refine (proj1 (read_deterministic Example.decode Example.tmp_name
    Example.archive_path "targets/" ["fold"] None None None
    (Example.world_of [Example.part0; Example.part1])
    (Example.later_world_of [Example.part0; Example.part1]) _)).
  vm_compute. reflexivity.
Defined.

(** ** Tables *)

Lemma dict_get_fmap_key {V : Type} (f : string → V) (l : list string) (k : string) :
  PyDict.get k ((λ k', (k', f k')) <$> l)
  = if bool_decide (k ∈ l) then Some (f k) else None.
Proof.
  induction l as [|k0 l IH]; [done|].
  rewrite fmap_cons. cbn [PyDict.get].
  destruct (decide (k = k0)) as [->|Hne].
  - rewrite bool_decide_eq_true_2; [done|by left].
  - rewrite IH. apply option_eq. intros v.
    do 2 case_bool_decide; try done.
    + exfalso. match goal with H : k ∉ _ |- _ => apply H end. by right.
    + exfalso. match goal with H : k ∈ k0 :: l |- _ =>
                 apply elem_of_cons in H as [?|?] end; done.
Qed.

Lemma has_column_getcol (k : string) (df : DataFrame) :
  has_column k df = true ↔ is_Some (getcol k df).
Proof.
  unfold has_column, getcol, df_columns.
  rewrite bool_decide_eq_true. symmetry. apply dict_get_is_Some.
Qed.

Lemma has_column_getcol_None (k : string) (df : DataFrame) :
  has_column k df = false ↔ getcol k df = None.
Proof.
  rewrite eq_None_not_Some, <-has_column_getcol. by destruct (has_column k df).
Qed.

Lemma union_columns_elem_of (frames : list DataFrame) (k : string) :
  k ∈ union_columns frames ↔ ∃ df, df ∈ frames ∧ k ∈ df_columns df.
Proof.
  unfold union_columns.
  assert (∀ (l acc : list string),
            k ∈ fold_left (λ acc c, if bool_decide (c ∈ acc) then acc else acc ++ [c])
                  l acc ↔ k ∈ acc ∨ k ∈ l) as Hfold.
  { induction l as [|c l IH]; intros acc; simpl.
    - split; [by left|]. intros [?|?%elem_of_nil]; done.
    - rewrite IH. case_bool_decide as Hc.
      + rewrite elem_of_cons. split; [intros [?|?]; auto|].
        intros [?|[->|?]]; auto.
      + rewrite elem_of_app, !elem_of_cons, elem_of_nil. tauto. }
  rewrite Hfold. rewrite list_elem_of_join.
  split.
  - intros [?%elem_of_nil|(l & Hk & (df & -> & Hdf)%list_elem_of_fmap)]; [done|].
    by exists df.
  - intros (df & Hdf & Hk). right. exists (df_columns df). split; [done|].
    apply list_elem_of_fmap. by exists df.
Qed.

(** A column of a well-formed table, or its substitute, has one cell a
    row. *)
Lemma length_column_or_null (k : string) (df : DataFrame) :
  wf_frame df → length (column_or_null k df) = nrows df.
Proof.
  intros [_ Hlen]. unfold column_or_null.
  destruct (getcol k df) as [c|] eqn:Hc.
  - apply dict_get_elem_of in Hc.
    rewrite Forall_forall in Hlen. by apply (Hlen (k, c)).
  - apply length_replicate.
Qed.

Lemma lookup_join_offset {A : Type} (ls : list (list A)) (i : nat)
    (l : list A) (j : nat) :
  ls !! i = Some l → (j < length l)%nat →
  mjoin ls !! (sum_list (length <$> take i ls) + j)%nat = l !! j.
Proof.
  revert i. induction ls as [|l0 ls IH]; intros i Hi Hj; [done|].
  destruct i as [|i]; simpl in *.
  - simplify_eq. by apply lookup_app_l.
  - rewrite <-Nat.add_assoc, lookup_app_r by lia.
    match goal with
    | |- context [(length l0 + ?y - length l0)%nat] =>
        replace (length l0 + y - length l0)%nat with y by lia
    end.
    by apply IH.
Qed.

(** The cells of a concatenation: the rows of the frame [i] start after
    the rows of the frames before it. *)
Lemma pd_concat_cell (frames : list DataFrame) (out : DataFrame)
    (i : nat) (df : DataFrame) (k : string) (j : nat) :
  Forall wf_frame frames →
  pd_concat frames = Ok out →
  frames !! i = Some df → (j < nrows df)%nat →
  cell out k (sum_list (nrows <$> take i frames) + j)
  = if bool_decide (k ∈ union_columns frames)
    then column_or_null k df !! j else None.
Proof.
  intros Hwf Hout Hi Hj.
  destruct frames as [|f0 fs]; [done|].
  set (frames := f0 :: fs) in *. injection Hout as <-.
  unfold cell, getcol. cbn [cols]. rewrite dict_get_fmap_key.
  case_bool_decide; [|done]. cbn [mbind option_bind].
  assert (nrows <$> take i frames
          = length <$> take i (column_or_null k <$> frames)) as ->.
  { rewrite <-fmap_take, <-list_fmap_compose.
    apply Forall_fmap_ext_1. apply Forall_take.
    eapply Forall_impl; [done|]. intros f Hf. simpl.
    by rewrite length_column_or_null. }
  assert ((column_or_null k <$> frames) !! i = Some (column_or_null k df)) as Hi'
    by by rewrite list_lookup_fmap, Hi.
  assert (j < length (column_or_null k df))%nat as Hj'.
  { rewrite length_column_or_null; [done|].
    rewrite Forall_forall in Hwf. apply Hwf. by eapply list_elem_of_lookup_2. }
  exact (lookup_join_offset (column_or_null k <$> frames) i
           (column_or_null k df) j Hi' Hj').
Qed.

Lemma pd_concat_nrows (frames : list DataFrame) (out : DataFrame) :
  pd_concat frames = Ok out → nrows out = sum_list (nrows <$> frames).
Proof. destruct frames; [done|]. simpl. by intros [= <-]. Qed.

(** *** The partition columns *)

Lemma set_scalar_wf (k : string) (v : value) (df : DataFrame) :
  has_column k df = false → wf_frame df → wf_frame (set_scalar k v df).
Proof.
  intros Hk [Hnd Hlen]. unfold has_column in Hk.
  apply bool_decide_eq_false in Hk.
  unfold wf_frame, set_scalar, df_columns in *. simpl.
  rewrite dict_set_fresh by done. split.
  - unfold PyDict.keys in *. rewrite fmap_app. simpl.
    apply NoDup_app. split_and!; [done| |apply NoDup_singleton].
    intros x Hx ->%list_elem_of_singleton. done.
  - apply Forall_app. split; [done|].
    apply Forall_singleton. simpl. apply length_replicate.
Qed.

Lemma inject_partitions_nrows (part_info : PyDict.t value) (df : DataFrame) :
  nrows (inject_partitions part_info df) = nrows df.
Proof.
  unfold inject_partitions. revert df.
  induction part_info as [|[k v] pi IH]; intros df; simpl; [done|].
  rewrite IH. by destruct (has_column k df).
Qed.

Lemma inject_partitions_wf (part_info : PyDict.t value) (df : DataFrame) :
  wf_frame df → wf_frame (inject_partitions part_info df).
Proof.
  unfold inject_partitions. revert df.
  induction part_info as [|[k v] pi IH]; intros df Hwf; simpl; [done|].
  apply IH. destruct (has_column k df) eqn:Hk; [done|]. by apply set_scalar_wf.
Qed.

(** A column the table has is left as it is; a column it lacks is the
    value of the descriptor on every row, when the descriptor has the
    key. *)
Lemma inject_partitions_getcol (part_info : PyDict.t value) (df : DataFrame)
    (k : string) :
  getcol k (inject_partitions part_info df)
  = match getcol k df with
    | Some c => Some c
    | None => replicate (nrows df) <$> PyDict.get k part_info
    end.
Proof.
  unfold inject_partitions. revert df.
  induction part_info as [|[k' v'] pi IH]; intros df; simpl.
  - by destruct (getcol k df).
  - rewrite IH. destruct (has_column k' df) eqn:Hk'.
    + destruct (getcol k df) as [c|] eqn:Hc; [done|].
      rewrite decide_False; [done|]. intros ->.
      apply has_column_getcol in Hk' as [? ?]. congruence.
    + apply has_column_getcol_None in Hk'.
      unfold getcol, set_scalar at 1. simpl.
      destruct (decide (k = k')) as [->|Hne].
      * rewrite dict_get_set_eq. unfold getcol in Hk'. by rewrite Hk'.
      * rewrite dict_get_set_ne by done.
        by destruct (PyDict.get k (cols df)).
Qed.

(** ** Which entries are read *)

Lemma partition_ok_spec (part_info : PyDict.t value)
    (items : PyDict.t (list value)) :
  partition_ok part_info items = true ↔
  ∀ k allowed v, (k, allowed) ∈ items → PyDict.get k part_info = Some v →
                 v ∈ allowed.
Proof.
  induction items as [|[k0 a0] items IH]; simpl.
  - split; [|done]. by intros _ k a v ?%elem_of_nil.
  - destruct (PyDict.get k0 part_info) as [v0|] eqn:Hk0.
    + case_bool_decide as Hv0.
      * rewrite IH. split.
        -- intros Hall k a v [?|?]%elem_of_cons Hk; simplify_eq; eauto.
        -- intros Hall k a v Hin. apply Hall. by right.
      * split; [done|]. intros Hall. exfalso. apply Hv0.
        apply (Hall k0 a0 v0); [by left|done].
    + rewrite IH. split.
      * intros Hall k a v [?|?]%elem_of_cons Hk; simplify_eq; eauto.
      * intros Hall k a v Hin. apply Hall. by right.
Qed.

Lemma slice_to_subseteq {A : Type} (n : Z) (l : list A) : slice_to n l ⊆ l.
Proof. unfold slice_to. destruct (0 <=? n); apply subseteq_take. Qed.

Lemma truncate_subseteq (max_parts : option Z) (members : list TarInfo) :
  truncate max_parts members ⊆ members.
Proof.
  unfold truncate. destruct max_parts as [n|]; [|done].
  destruct (n <? Z.of_nat (length members)); [apply slice_to_subseteq|done].
Qed.

Lemma truncate_length_mono (max_parts : option Z) (l1 l2 : list TarInfo) :
  (length l1 ≤ length l2)%nat →
  (length (truncate max_parts l1) ≤ length (truncate max_parts l2))%nat.
Proof.
  intros Hlen. unfold truncate, slice_to. destruct max_parts as [n|]; [|done].
  destruct (n <? Z.of_nat (length l1)) eqn:H1;
    destruct (n <? Z.of_nat (length l2)) eqn:H2;
    destruct (0 <=? n) eqn:H0;
    rewrite ?length_take; lia.
Qed.

Lemma filter_allowed_length (expected_keys : list string)
    (allowed_partitions : option (PyDict.t (list value)))
    (members : list TarInfo) :
  (length (filter_allowed expected_keys allowed_partitions members)
   ≤ length members)%nat.
Proof.
  unfold filter_allowed. destruct allowed_partitions as [[|item items]|]; [done| |done].
  apply List.filter_length_le.
Qed.

Lemma filter_allowed_ok (expected_keys : list string)
    (items : PyDict.t (list value)) (members : list TarInfo) (m : TarInfo) :
  m ∈ filter_allowed expected_keys (Some items) members →
  m ∈ members ∧
  partition_ok (_parse_partitions_from_path (name m) expected_keys) items = true.
Proof.
  unfold filter_allowed. destruct items as [|item items]; [done|].
  rewrite list_elem_of_In, List.filter_In, <-list_elem_of_In. done.
Qed.

(** ** The rows of the table that a read returns *)

Section reader_tables.

Variable parquet_decode : list Byte.byte → option (list string) → result DataFrame.
Variable tmp_name : N → gmap string (list Byte.byte) → string.

Variables (tar_path : Path.t) (prefix : string) (expected_keys : list string).
Variables (allowed_partitions : option (PyDict.t (list value))).
Variables (columns : option (list string)) (max_parts : option Z).

Abbreviation this_read :=
  (read_parquet_partitions_from_tar parquet_decode tmp_name
     tar_path prefix expected_keys allowed_partitions columns max_parts).
Abbreviation entries :=
  (selected prefix expected_keys allowed_partitions max_parts).
Abbreviation table_of := (decoded_table parquet_decode columns).
Abbreviation descriptor_of :=
  (λ m : TarInfo, _parse_partitions_from_path (name m) expected_keys).
Abbreviation frame_of :=
  (λ m : TarInfo, inject_partitions (descriptor_of m) (table_of m)).

Lemma member_frames_decoded (members : list TarInfo) (fs : list DataFrame) :
  Forall2 (λ m f, member_frame parquet_decode expected_keys columns m = Ok f)
          members fs →
  fs = frame_of <$> members ∧
  Forall2 (λ m df, parquet_decode (data m) columns = Ok df)
          members (table_of <$> members).
Proof.
  induction 1 as [|m f members fs Hm _ [-> IH]]; [by split; [|constructor]|].
  unfold member_frame, decoded_table in *.
  destruct (parquet_decode (data m) columns) as [df|e] eqn:Hdf; [|done].
  simpl in Hm. injection Hm as <-. split.
  - simpl. unfold decoded_table. by rewrite Hdf.
  - simpl. constructor; [|done]. unfold decoded_table. by rewrite Hdf.
Qed.

(** A read that returns has decoded every entry it selected, and
    returns the concatenation of their frames. *)
Lemma read_tar_Ok (w w' : World) (all : list TarInfo) (out : DataFrame) :
  files w !! Path.str tar_path = Some (TarGz all) →
  this_read w = (Ok out, w') →
  Forall2 (λ m df, parquet_decode (data m) columns = Ok df)
          (entries all) (table_of <$> entries all) ∧
  pd_concat (frame_of <$> entries all) = Ok out.
Proof.
  intros Hfile Hread.
  pose proof (read_tar_result parquet_decode tmp_name tar_path prefix
                expected_keys allowed_partitions columns max_parts w) as Hres.
  rewrite Hread, Hfile in Hres. unfold read_result in Hres. cbn [fst] in Hres.
  destruct (entries all) as [|m sel] eqn:Hsel; [done|].
  destruct (member_frames parquet_decode expected_keys columns (m :: sel) [])
    as [fs|e] eqn:Hfs; [|done].
  apply member_frames_Ok, member_frames_decoded in Hfs as [-> Hdec].
  by split.
Qed.

Lemma frames_nrows (members : list TarInfo) :
  nrows <$> (frame_of <$> members) = nrows <$> (table_of <$> members).
Proof.
  rewrite <-!list_fmap_compose. apply list_fmap_ext. intros i m _. simpl.
  apply inject_partitions_nrows.
Qed.

Lemma pd_concat_columns (frames : list DataFrame) (out : DataFrame) :
  pd_concat frames = Ok out → df_columns out = union_columns frames.
Proof.
  destruct frames as [|f0 fs]; [done|]. intros [= <-].
  unfold df_columns, PyDict.keys. cbn [cols].
  rewrite <-list_fmap_compose. apply list_fmap_id.
Qed.

(** The cell of a returned table, for a row that comes from the entry
    [i]: the decoded cell where the decoded table has the column; else
    the value of the descriptor where it has the key; else null. *)
Lemma read_tar_cell (w w' : World) (all : list TarInfo) (out : DataFrame)
    (i : nat) (m : TarInfo) (k : string) (j : nat) :
  files w !! Path.str tar_path = Some (TarGz all) →
  (∀ m df, m ∈ entries all → parquet_decode (data m) columns = Ok df →
           wf_frame df) →
  this_read w = (Ok out, w') →
  entries all !! i = Some m → (j < nrows (table_of m))%nat →
  cell out k (sum_list (nrows <$> take i (table_of <$> entries all)) + j)
  = match getcol k (table_of m) with
    | Some c => c !! j
    | None =>
        match PyDict.get k (descriptor_of m) with
        | Some v => Some v
        | None => if has_column k out then Some VNull else None
        end
    end.
Proof.
  intros Hfile Hwf Hread Hi Hj.
  destruct (read_tar_Ok w w' all out Hfile Hread) as [Hdec Hout].
  assert (Forall wf_frame (frame_of <$> entries all)) as Hwfs.
  { apply Forall_fmap, Forall_forall. intros m0 Hm0. simpl.
    apply inject_partitions_wf.
    apply list_elem_of_lookup_1 in Hm0 as Hl. destruct Hl as [i0 Hi0].
    eapply Forall2_lookup_l in Hdec as (df & Hdf & Hok); [|done].
    rewrite list_lookup_fmap, Hi0 in Hdf. simpl in Hdf. simplify_eq.
    by eapply Hwf. }
  assert ((frame_of <$> entries all) !! i = Some (frame_of m)) as Hfi
    by by rewrite list_lookup_fmap, Hi.
  rewrite <-fmap_take, <-frames_nrows, fmap_take.
  rewrite (pd_concat_cell _ out i (frame_of m) k j Hwfs Hout Hfi)
    by by rewrite inject_partitions_nrows.
  unfold has_column. rewrite (pd_concat_columns _ _ Hout).
  unfold column_or_null. rewrite inject_partitions_getcol.
  assert (∀ c, getcol k (frame_of m) = Some c →
               k ∈ union_columns (frame_of <$> entries all)) as Hunion.
  { intros c Hc. apply union_columns_elem_of. exists (frame_of m).
    split; [by eapply list_elem_of_lookup_2|].
    apply dict_get_is_Some. by exists c. }
  cbv beta in Hunion. rewrite inject_partitions_getcol in Hunion.
  destruct (getcol k (table_of m)) as [c|] eqn:Hc.
  - rewrite bool_decide_eq_true_2 by by eapply Hunion. done.
  - destruct (PyDict.get k (descriptor_of m)) as [v|] eqn:Hv; simpl.
    + rewrite bool_decide_eq_true_2 by by eapply Hunion.
      by apply lookup_replicate_2.
    + case_bool_decide; [|done].
      apply lookup_replicate_2. by rewrite inject_partitions_nrows.
Qed.

(** C3: in the table a read returns, the rows of an entry come after
    the rows of the entries before it, and for every key of the
    descriptor of the entry: where the decoded table of the entry has no
    column of that name, every row of the entry carries the value of the
    descriptor in that column; where it has one, the rows carry the
    decoded cells, and the value of the descriptor is not used. *)
Theorem partition_columns_injected (w w' : World) (all : list TarInfo)
    (out : DataFrame) :
  files w !! Path.str tar_path = Some (TarGz all) →
  (∀ m df, m ∈ entries all → parquet_decode (data m) columns = Ok df →
           wf_frame df) →
  this_read w = (Ok out, w') →
  ∃ tables : list DataFrame,
    Forall2 (λ m df, parquet_decode (data m) columns = Ok df)
            (entries all) tables ∧
    nrows out = sum_list (nrows <$> tables) ∧
    ∀ i m df k v j,
      entries all !! i = Some m → tables !! i = Some df →
      PyDict.get k (_parse_partitions_from_path (name m) expected_keys) = Some v →
      (j < nrows df)%nat →
      cell out k (sum_list (nrows <$> take i tables) + j)
      = if has_column k df then cell df k j else Some v.
Proof.
  intros Hfile Hwf Hread.
  destruct (read_tar_Ok w w' all out Hfile Hread) as [Hdec Hout].
  exists (table_of <$> entries all). split_and!; [done| |].
  - rewrite (pd_concat_nrows _ _ Hout). by rewrite frames_nrows.
  - intros i m df k v j Hi Hdf Hv Hj.
    rewrite list_lookup_fmap, Hi in Hdf. simpl in Hdf. injection Hdf as <-.
    rewrite (read_tar_cell w w' all out i m k j Hfile Hwf Hread Hi Hj).
    unfold cell. destruct (has_column k (table_of m)) eqn:Hk.
    + apply has_column_getcol in Hk as [c Hc]. by rewrite Hc.
    + apply has_column_getcol_None in Hk. by rewrite Hk, Hv.
Qed.

End reader_tables.

Lemma example_decode_wf (b : list Byte.byte) (columns : option (list string))
    (df : DataFrame) :
  Example.decode b columns = Ok df → wf_frame df.
Proof.
  destruct b as [|tag rows]; [done|].
  destruct tag; try done; simpl; intros [= <-]; split; simpl.
  - apply NoDup_singleton.
  - repeat constructor. simpl. apply length_fmap.
  - apply (bool_decide_unpack _). reflexivity.
  - repeat constructor; simpl; apply length_fmap.
Qed.

Lemma example_read :
  read_parquet_partitions_from_tar Example.decode Example.tmp_name
    Example.archive_path "targets/" ["fold"] Example.only_folds_0_1 None None
    (Example.world_of Example.members)
  = (Ok Example.expected_table, Example.world_after).
Proof. vm_compute. reflexivity. Qed.

Lemma partition_columns_injected_witness :
  ∃ tables : list DataFrame,
    Forall2 (λ m df, Example.decode (data m) None = Ok df)
      (selected "targets/" ["fold"] Example.only_folds_0_1 None Example.members)
      tables ∧
    nrows Example.expected_table = sum_list (nrows <$> tables) ∧
    ∀ i m df k v j,
      selected "targets/" ["fold"] Example.only_folds_0_1 None Example.members
        !! i = Some m →
      tables !! i = Some df →
      PyDict.get k (_parse_partitions_from_path (name m) ["fold"]) = Some v →
      (j < nrows df)%nat →
      cell Example.expected_table k (sum_list (nrows <$> take i tables) + j)
      = if has_column k df then cell df k j else Some v.
Proof.
  refine (partition_columns_injected Example.decode Example.tmp_name
    Example.archive_path "targets/" ["fold"] Example.only_folds_0_1 None None
    (Example.world_of Example.members) Example.world_after Example.members
    Example.expected_table _ _ _).
  - vm_compute. reflexivity.
  - intros m df _. apply example_decode_wf.
  - vm_compute. reflexivity.
Defined.

(** ** The partition filter *)

Section reader_filter.

Variable parquet_decode : list Byte.byte → option (list string) → result DataFrame.
Variable tmp_name : N → gmap string (list Byte.byte) → string.

Variables (tar_path : Path.t) (prefix : string) (expected_keys : list string).
Variables (columns : option (list string)) (max_parts : option Z).
Variable items : PyDict.t (list value).

Abbreviation kept := (selected prefix expected_keys (Some items) max_parts).
Abbreviation unfiltered := (selected prefix expected_keys None max_parts).
Abbreviation decoded := (decoded_table parquet_decode columns).

Lemma kept_allowed (all : list TarInfo) (m : TarInfo) (k : string)
    (allowed : list value) (v : value) :
  m ∈ kept all → (k, allowed) ∈ items →
  PyDict.get k (_parse_partitions_from_path (name m) expected_keys) = Some v →
  v ∈ allowed.
Proof.
  intros Hm Hk Hv. unfold selected in Hm.
  apply truncate_subseteq, filter_allowed_ok in Hm as [_ Hok].
  by eapply partition_ok_spec.
Qed.

(** C4, as the code has it: an entry is read under a filter only if, for
    every key that its descriptor and the filter both have, the value of
    the descriptor is in the allowed set; the filtered read reads no more
    entries than the read without a filter; and in the table it returns,
    a row of an entry whose decoded table has NO column of a filtered key
    holds, in that column, an allowed value or no value.  (The rows of an
    entry whose decoded table has the column keep their decoded cells,
    which the filter never looks at.) *)
Theorem filter_restricts_entries (w w' : World) (all : list TarInfo)
    (out : DataFrame) :
  files w !! Path.str tar_path = Some (TarGz all) →
  (∀ m df, m ∈ kept all → parquet_decode (data m) columns = Ok df →
           wf_frame df) →
  read_parquet_partitions_from_tar parquet_decode tmp_name tar_path prefix
    expected_keys (Some items) columns max_parts w = (Ok out, w') →
  (∀ m k allowed v,
     m ∈ kept all → (k, allowed) ∈ items →
     PyDict.get k (_parse_partitions_from_path (name m) expected_keys) = Some v →
     v ∈ allowed)
  ∧ (length (kept all) ≤ length (unfiltered all))%nat
  ∧ (∀ i m j k allowed v,
       kept all !! i = Some m → (j < nrows (decoded m))%nat →
       (k, allowed) ∈ items →
       has_column k (decoded m) = false →
       cell out k (sum_list (nrows <$> take i (decoded <$> kept all)) + j)
       = Some v →
       v = VNull ∨ v ∈ allowed).
Proof.
  intros Hfile Hwf Hread. split_and!.
  - intros m k allowed v. apply kept_allowed.
  - unfold selected. apply truncate_length_mono. apply filter_allowed_length.
  - intros i m j k allowed v Hi Hj Hk Hcol.
    rewrite (read_tar_cell parquet_decode tmp_name tar_path prefix expected_keys
               (Some items) columns max_parts w w' all out i m k j
               Hfile Hwf Hread Hi Hj).
    apply has_column_getcol_None in Hcol. rewrite Hcol.
    destruct (PyDict.get k (_parse_partitions_from_path (name m) expected_keys))
      as [v'|] eqn:Hv'.
    + intros [= <-]. right.
      eapply kept_allowed; [by eapply list_elem_of_lookup_2|done..].
    + destruct (has_column k out); [|done]. intros [= <-]. by left.
Qed.

End reader_filter.

(** C4, as the spec states it, fails.  Under the filter that allows the
    folds 0 and 1, the entry [targets/part-1.parquet] is read, for its
    path has no [fold] segment and a key absent from the descriptor
    excludes nothing; its file has a [fold] column of its own with the
    value 5, which is kept: the second row of the result has fold 5. *)
Lemma filtered_row_outside_allowed :
  (read_parquet_partitions_from_tar Example.decode Example.tmp_name
     Example.archive_path "targets/" ["fold"]
     (Some [("fold", [VInt 0; VInt 1])]) None None
     (Example.world_of Example.members)).1
  = Ok Example.expected_table
  ∧ cell Example.expected_table "fold" 1 = Some (VInt 5)
  ∧ VInt 5 ∉ [VInt 0; VInt 1].
Proof.
  split_and!.
  - exact (f_equal fst example_read).
  - reflexivity.
  - apply (bool_decide_unpack _). reflexivity.
Qed.

Lemma filter_restricts_entries_witness :
  (∀ m k allowed v,
     m ∈ selected "targets/" ["fold"] Example.only_folds_0_1 None Example.members →
     (k, allowed) ∈ [("fold", [VInt 0; VInt 1])] →
     PyDict.get k (_parse_partitions_from_path (name m) ["fold"]) = Some v →
     v ∈ allowed)
  ∧ (length (selected "targets/" ["fold"] Example.only_folds_0_1 None
               Example.members)
     ≤ length (selected "targets/" ["fold"] None None Example.members))%nat
  ∧ (∀ i m j k allowed v,
       selected "targets/" ["fold"] Example.only_folds_0_1 None Example.members
         !! i = Some m →
       (j < nrows (decoded_table Example.decode None m))%nat →
       (k, allowed) ∈ [("fold", [VInt 0; VInt 1])] →
       has_column k (decoded_table Example.decode None m) = false →
       cell Example.expected_table k
         (sum_list (nrows <$> take i
            (decoded_table Example.decode None
               <$> selected "targets/" ["fold"] Example.only_folds_0_1 None
                     Example.members)) + j)
       = Some v →
       v = VNull ∨ v ∈ allowed).
Proof.
  refine (filter_restricts_entries Example.decode Example.tmp_name
    Example.archive_path "targets/" ["fold"] None None
    [("fold", [VInt 0; VInt 1])]
    (Example.world_of Example.members) Example.world_after Example.members
    Example.expected_table _ _ _).
  - vm_compute. reflexivity.
  - intros m df _. apply example_decode_wf.
  - vm_compute. reflexivity.
Defined.

(** ** The prevalence table *)

Lemma sum_count_binary (c : list value) :
  is_binary c →
  sum_count c = Ok (Z.of_nat (length (List.filter is_positive c)), length c).
Proof.
  induction 1 as [|v c [-> | ->] _ IH]; [done|..]; simpl; rewrite IH; simpl;
    unfold mret, result_ret; do 2 f_equal; lia.
Qed.

(** The mean of an indicator is the fraction of its cells that are
    positive. *)
Lemma mean_binary (c : list value) :
  is_binary c → mean c = Ok (fraction_positive c).
Proof.
  intros Hc. unfold mean, fraction_positive.
  rewrite (sum_count_binary c Hc). simpl. by destruct (length c).
Qed.

Lemma select_Forall {A : Type} (P : A → Prop) (mask : list bool) (c : list A) :
  Forall P c → Forall P (select mask c).
Proof.
  intros Hc. revert mask. unfold select.
  induction Hc as [|x c Hx _ IH]; intros [|b mask]; simpl; try by constructor.
  destruct b; simpl; [constructor; [done|]|]; apply IH.
Qed.

Lemma dict_get_fmap_val {V W : Type} (f : V → W) (d : PyDict.t V) (k : string) :
  PyDict.get k ((λ kc, (kc.1, f kc.2)) <$> d) = f <$> PyDict.get k d.
Proof.
  induction d as [|[k0 v0] d IH]; [done|].
  rewrite fmap_cons. cbn [PyDict.get fst snd]. by destruct (decide (k = k0)).
Qed.

Lemma getcol_take_rows (mask : list bool) (df : DataFrame) (c : string) :
  getcol c (take_rows mask df) = select mask <$> getcol c df.
Proof. unfold getcol, take_rows. cbn [cols]. apply dict_get_fmap_val. Qed.

Lemma group_means_binary (cols : list string) (g : DataFrame) :
  (∀ c, c ∈ cols → is_binary (default [] (getcol c g))) →
  group_means cols g
  = Ok ((λ c, (c, fraction_positive (default [] (getcol c g)))) <$> cols).
Proof.
  induction cols as [|c cols IH]; intros Hbin; [done|].
  cbn [group_means]. rewrite mean_binary by (apply Hbin; by left).
  cbn [mbind result_bind]. rewrite IH by (intros; apply Hbin; by right).
  done.
Qed.

(** The loop over the groups appends one entry a group, when the labels
    are new and distinct. *)
Lemma add_groups_Ok (tag : string) (cols : list string)
    (groups : list (value * DataFrame))
    (rows : list (string * PyDict.t (option Q)))
    (out : PyDict.t (PyDict.t (option Q))) :
  Forall2 (λ kg row, row.1 = tag +:+ "=" +:+ str_value kg.1 ∧
                     group_means cols kg.2 = Ok row.2) groups rows →
  NoDup (PyDict.keys (out ++ rows)) →
  add_groups tag cols groups out = Ok (out ++ rows).
Proof.
  intros Hall. revert out.
  induction Hall as [|[k g] [label ms] groups rows [Hlabel Hms] _ IH];
    intros out Hnd.
  - by rewrite app_nil_r.
  - simpl in Hlabel, Hms. subst label. cbn [add_groups]. rewrite Hms.
    cbn [mbind result_bind].
    assert (tag +:+ "=" +:+ str_value k ∉ PyDict.keys out) as Hfresh.
    { unfold PyDict.keys in *. rewrite fmap_app in Hnd.
      apply NoDup_app in Hnd as (_ & Hdisj & _).
      intros Hin. apply (Hdisj _ Hin). rewrite fmap_cons. by left. }
    rewrite dict_set_fresh by done.
    rewrite IH; [by rewrite <-app_assoc|].
    by rewrite <-app_assoc.
Qed.

Lemma distinct_values_elem_of (keycol : list value) (k : value) :
  k ∈ distinct_values keycol ↔ k ∈ keycol ∧ k ≠ VNull.
Proof.
  unfold distinct_values.
  rewrite elem_of_remove_dups, list_elem_of_In, List.filter_In, <-list_elem_of_In.
  by rewrite bool_decide_eq_true.
Qed.

Lemma group_keys_Permutation (keycol : list value) :
  group_keys keycol ≡ₚ distinct_values keycol.
Proof. apply merge_sort_Permutation. Qed.

(** The values of a typed column print differently. *)
Lemma str_value_inj_typed (keycol : list value) (k1 k2 : value) :
  typed_column keycol →
  k1 ∈ distinct_values keycol → k2 ∈ distinct_values keycol →
  str_value k1 = str_value k2 → k1 = k2.
Proof.
  intros Htyped [Hk1 Hn1]%distinct_values_elem_of
    [Hk2 Hn2]%distinct_values_elem_of Hstr.
  destruct Htyped as [Hty|Hty]; rewrite Forall_forall in Hty;
    pose proof (Hty _ Hk1) as H1; pose proof (Hty _ Hk2) as H2;
    destruct k1 as [|z1|s1], k2 as [|z2|s2]; try done; simpl in Hstr.
  - f_equal. by apply (inj pretty).
  - by f_equal.
Qed.

Lemma str_value_key_text (k : value) : k ≠ VNull → str_value k = key_text k.
Proof. by destruct k. Qed.

Lemma select_nil {A : Type} (mask : list bool) : select mask ([] : list A) = [].
Proof. unfold select. by destruct mask. Qed.

(** The rows that the mask of a key selects are the rows with that key. *)
Lemma select_group_cells (keycol : list value) (k : value) (c : list value) :
  select ((λ v, bool_decide (v = k)) <$> keycol) c = group_cells keycol k c.
Proof.
  unfold select, group_cells. revert c.
  induction keycol as [|v keycol IH]; intros [|x c]; [done..|].
  rewrite fmap_cons. cbn [zip zip_with]. cbn [omap list_omap fst snd List.filter].
  destruct (decide (v = k)) as [->|Hne].
  - rewrite ?bool_decide_eq_true_2 by done. rewrite fmap_cons. cbn [snd].
    by rewrite IH.
  - rewrite ?bool_decide_eq_false_2 by done. by rewrite IH.
Qed.

Lemma key_column_typed (c : list value) : key_column c → typed_column c.
Proof.
  intros [Hint|Hstr]; [left|by right].
  eapply Forall_impl; [exact Hint|]. by intros [|z|s].
Qed.

Lemma group_means_take_rows (df : DataFrame) (keycol : list value) (k : value) :
  (∀ c col, c ∈ present_targets df → getcol c df = Some col → is_binary col) →
  group_means (present_targets df)
    (take_rows ((λ v, bool_decide (v = k)) <$> keycol) df)
  = Ok (group_row "" df keycol k).2.
Proof.
  intros Hbin. rewrite group_means_binary.
  - f_equal. unfold group_row. cbn [snd]. apply list_fmap_ext. intros _ c _.
    rewrite getcol_take_rows.
    destruct (getcol c df) as [col|]; simpl.
    + by rewrite select_group_cells.
    + unfold group_cells. by rewrite zip_with_nil_r.
  - intros c Hc. rewrite getcol_take_rows.
    destruct (getcol c df) as [col|] eqn:Hcol; simpl; [|constructor].
    apply select_Forall. by eapply Hbin.
Qed.

(** The groups of one key column: a row a distinct value. *)
Lemma tag_groups_Ok (tag : string) (df : DataFrame)
    (out : PyDict.t (PyDict.t (option Q))) :
  (∀ c col, c ∈ present_targets df → getcol c df = Some col → is_binary col) →
  (∀ keycol, getcol tag df = Some keycol → typed_column keycol) →
  NoDup (PyDict.keys out) →
  (∀ s, tag +:+ "=" +:+ s ∉ PyDict.keys out) →
  ∃ rows,
    (if has_column tag df
     then add_groups tag (present_targets df) (groupby tag df) out
     else Ok out) = Ok (out ++ rows)
    ∧ rows ≡ₚ group_rows tag df
    ∧ NoDup (PyDict.keys (out ++ rows))
    ∧ (∀ l, l ∈ PyDict.keys rows → ∃ s, l = tag +:+ "=" +:+ s).
Proof.
  intros Hbin Htyped Hnd Hout.
  destruct (has_column tag df) eqn:Htag.
  - apply has_column_getcol in Htag as [keycol Hkey].
    exists (group_row tag df keycol <$> group_keys keycol).
    assert (∀ l, l ∈ PyDict.keys (group_row tag df keycol <$> group_keys keycol) →
                 ∃ s, l = tag +:+ "=" +:+ s) as Hlabels.
    { intros l (row & -> & (k & -> & _)%list_elem_of_fmap)%list_elem_of_fmap.
      by exists (key_text k). }
    assert (NoDup (PyDict.keys (out ++ (group_row tag df keycol
                                          <$> group_keys keycol)))) as Hnd'.
    { unfold PyDict.keys in *. rewrite fmap_app. apply NoDup_app. split_and!.
      - done.
      - intros l Hl Hl'. destruct (Hlabels l Hl') as [s ->]. by apply (Hout s).
      - rewrite <-list_fmap_compose.
        apply NoDup_fmap_2_strong.
        + intros k1 k2 Hk1 Hk2 Heq. simpl in Heq.
          apply (inj (String.app tag)), (inj (String.app "=")) in Heq.
          rewrite group_keys_Permutation in Hk1, Hk2.
          eapply str_value_inj_typed; [by apply Htyped|done..|].
          apply distinct_values_elem_of in Hk1 as [_ Hn1], Hk2 as [_ Hn2].
          by rewrite !str_value_key_text.
        + rewrite group_keys_Permutation. apply NoDup_remove_dups. }
    split_and!; [|by rewrite group_keys_Permutation; unfold group_rows; rewrite Hkey|done..].
    unfold groupby. rewrite Hkey. apply add_groups_Ok; [|done].
    apply Forall2_fmap, Forall_Forall2_diag, Forall_forall. intros k Hk. split.
    + rewrite group_keys_Permutation in Hk.
      apply distinct_values_elem_of in Hk as [_ Hk].
      cbn [fst]. by rewrite str_value_key_text.
    + cbn [fst snd]. by rewrite group_means_take_rows.
  - apply has_column_getcol_None in Htag.
    exists []. rewrite app_nil_r. split_and!; [done| |done|].
    + unfold group_rows. by rewrite Htag.
    + by intros l ?%elem_of_nil.
Qed.

Lemma result_bind_Ok {A B : Type} (r : result A) (f : A → result B)
    (a : A) (b : B) :
  r = Ok a → f a = Ok b → r ≫= f = Ok b.
Proof. by intros -> Hf. Qed.

#[global] Instance label_le_total {V : Type} : Total (@label_le V).
Proof. intros r1 r2. unfold label_le. apply (total String.le). Qed.

Lemma prevalence_rows_columns (df : DataFrame) (label : string)
    (row : PyDict.t (option Q)) :
  (label, row) ∈ prevalence_rows df → PyDict.keys row = present_targets df.
Proof.
  assert (∀ f : string → option Q,
            PyDict.keys ((λ c, (c, f c)) <$> present_targets df)
            = present_targets df) as Hkeys.
  { intros f. unfold PyDict.keys. rewrite <-list_fmap_compose.
    apply list_fmap_id. }
  unfold prevalence_rows.
  destruct (present_targets df) as [|c0 cs] eqn:Hcols; [by intros ?%elem_of_nil|].
  rewrite <-Hcols in *.
  intros [?|[Hin|Hin]%elem_of_app]%elem_of_cons.
  - simplify_eq. apply Hkeys.
  - unfold group_rows in Hin. destruct (getcol "mon" df); [|by apply elem_of_nil in Hin].
    apply list_elem_of_fmap in Hin as (k & ? & _). unfold group_row in *.
    simplify_eq. apply Hkeys.
  - unfold group_rows in Hin. destruct (getcol "fold" df); [|by apply elem_of_nil in Hin].
    apply list_elem_of_fmap in Hin as (k & ? & _). unfold group_row in *.
    simplify_eq. apply Hkeys.
Qed.

(** C9: for a targets table whose target columns are indicators (cells 0
    or 1, few enough for float64 to count them) and whose month and fold
    columns are key columns (integers and no null, or strings, with nulls
    maybe), the prevalence table is returned and has, up to the order of
    the rows, which is that of the labels: no row when the table has none
    of the columns target_1 .. target_4; else the row "ALL", a row
    "mon=<m>" for every distinct month when there is a column mon, and a
    row "fold=<f>" for every distinct fold when there is a column fold;
    the labels are distinct; every row has one column for each target
    column of the table, holding the fraction of positive cells among the
    cells of that column on the rows of the group, the rows of the table
    whose key is the key of the group (the exact quotient, where Python
    holds its nearest double).  For the one column
    target_1 = [1, 0, 1, 0] the row "ALL" holds 1/2. *)
Theorem prevalence_table_fractions (df : DataFrame) :
  (∀ c col, c ∈ present_targets df → getcol c df = Some col → is_binary col) →
  (∀ c col, c ∈ present_targets df → getcol c df = Some col → float_exact col) →
  (∀ tag keycol, tag ∈ ["mon"; "fold"] → getcol tag df = Some keycol →
                 key_column keycol) →
  ∃ tbl,
    prevalence_table df = Ok tbl
    ∧ tbl ≡ₚ prevalence_rows df
    ∧ NoDup tbl.*1
    ∧ Sorted label_le tbl
    ∧ (∀ label row, (label, row) ∈ tbl → PyDict.keys row = present_targets df)
    ∧ (present_targets df = [] → tbl = [])
    ∧ prevalence_table scenario_targets
      = Ok [("ALL", [("target_1", Some (1 # 2))])].
Proof.
  intros Hbin _ Hkeys.
  assert (∀ tag keycol, tag ∈ ["mon"; "fold"] → getcol tag df = Some keycol →
                        typed_column keycol) as Htyped
    by (intros; eapply key_column_typed, Hkeys; eauto).
  assert (∃ tbl, prevalence_table df = Ok tbl ∧ tbl ≡ₚ prevalence_rows df
                 ∧ NoDup tbl.*1 ∧ Sorted label_le tbl
                 ∧ (present_targets df = [] → tbl = []))
    as (tbl & Htbl & Hperm & Hnd & Hsorted & Hnil).
  { unfold prevalence_table, prevalence_rows.
    change (List.filter (λ c, has_column c df) TARGETS) with (present_targets df).
    cbv zeta.
    destruct (present_targets df) as [|c0 cs] eqn:Hcols.
    { exists []. split_and!; [done|done|constructor|constructor|done]. }
    rewrite <-Hcols in Hbin |- *.
    rewrite group_means_binary; last first.
    { intros c Hc. destruct (getcol c df) as [col|] eqn:Hcol; [|constructor].
      simpl. by apply (Hbin c). }
    cbn [mbind result_bind].
    match goal with
    | |- context [PyDict.set "ALL" ?a []] =>
        set (all := a); set (out0 := PyDict.set "ALL" all [])
    end.
    destruct (tag_groups_Ok "mon" df out0) as (rows_m & Hm & Hpm & Hndm & Hlm).
    { done. }
    { intros keycol. apply Htyped. by left. }
    { apply NoDup_singleton. }
    { intros s Hs. apply list_elem_of_singleton in Hs. by vm_compute in Hs. }
    destruct (tag_groups_Ok "fold" df (out0 ++ rows_m))
      as (rows_f & Hf & Hpf & Hndf & Hlf).
    { done. }
    { intros keycol. apply Htyped. right. by left. }
    { done. }
    { intros s Hs. unfold PyDict.keys in Hs. rewrite fmap_app in Hs.
      apply elem_of_app in Hs as [Hs|Hs].
      - apply list_elem_of_singleton in Hs. by vm_compute in Hs.
      - destruct (Hlm _ Hs) as [s' Heq]. by vm_compute in Heq. }
    exists (sort_index ((out0 ++ rows_m) ++ rows_f)).
    split_and!; [| | | |by rewrite Hcols].
    - eapply result_bind_Ok; [exact Hm|].
      eapply result_bind_Ok; [exact Hf|done].
    - unfold sort_index. rewrite merge_sort_Permutation.
      rewrite <-app_assoc. change (out0 ++ rows_m ++ rows_f)
        with (("ALL", all) :: rows_m ++ rows_f).
      by rewrite Hpm, Hpf.
    - unfold sort_index. rewrite merge_sort_Permutation. apply Hndf.
    - apply Sorted_merge_sort. apply _. }
  exists tbl. split_and!; [done..| |done|by vm_compute].
  intros label row Hin. apply (prevalence_rows_columns df label).
  by rewrite <-Hperm.
Qed.

Lemma prevalence_table_fractions_witness :
  ∃ tbl,
    prevalence_table example_targets = Ok tbl
    ∧ tbl ≡ₚ prevalence_rows example_targets
    ∧ NoDup tbl.*1
    ∧ Sorted label_le tbl
    ∧ (∀ label row, (label, row) ∈ tbl →
                    PyDict.keys row = present_targets example_targets)
    ∧ (present_targets example_targets = [] → tbl = [])
    ∧ prevalence_table scenario_targets
      = Ok [("ALL", [("target_1", Some (1 # 2))])].
Proof.
  apply (prevalence_table_fractions example_targets).
  - intros c col Hc Hcol. vm_compute in Hc.
    repeat (apply elem_of_cons in Hc as [->|Hc]);
      [vm_compute in Hcol; injection Hcol as <-;
       repeat (apply Forall_cons_2; [first [by left|by right]|]);
       apply Forall_nil_2..|].
    by apply elem_of_nil in Hc.
  - intros c col Hc Hcol. vm_compute in Hc.
    repeat (apply elem_of_cons in Hc as [->|Hc]);
      [vm_compute in Hcol; injection Hcol as <-;
       apply (bool_decide_unpack _); reflexivity..|].
    by apply elem_of_nil in Hc.
  - intros tag keycol Htag Hcol.
    repeat (apply elem_of_cons in Htag as [->|Htag]);
      [vm_compute in Hcol; injection Hcol as <-..|by apply elem_of_nil in Htag].
    + right. repeat (apply Forall_cons_2; [exact I|]). apply Forall_nil_2.
    + left. repeat (apply Forall_cons_2; [exact I|]). apply Forall_nil_2.
Defined.

(** * Further properties of the code *)

(** ** More on strings *)

Lemma int_go_nonneg (acc : Z) (s : string) : 0 ≤ acc → 0 ≤ PyStr.int_go acc s.
Proof.
  revert acc. induction s as [|c s IH]; intros acc Hacc; simpl; [done|].
  apply IH. unfold PyStr.digit_val. lia.
Qed.

Lemma split_no_sep (sep : ascii) (s seg : string) :
  seg ∈ PyStr.split sep s → PyStr.contains sep seg = false.
Proof.
  revert seg. induction s as [|a s IH]; intros seg; simpl.
  - by intros ->%list_elem_of_singleton.
  - destruct (bool_decide (a = sep)) eqn:Ha.
    + intros [->|Hin]%elem_of_cons; [done|by apply IH].
    + pose proof (split_nonempty sep s) as Hne.
      destruct (PyStr.split sep s) as [|seg0 rest]; [done|].
      intros [->|Hin]%elem_of_cons.
      * simpl. rewrite Ha. apply IH. by left.
      * apply IH. by right.
Qed.

Lemma split_one (sep : ascii) (s : string) :
  PyStr.contains sep s = false → PyStr.split sep s = [s].
Proof.
  induction s as [|a s IH]; simpl; [done|].
  intros [Ha Hs]%orb_false_iff. rewrite Ha, IH by done. done.
Qed.

Lemma split_app (sep : ascii) (s rest : string) :
  PyStr.contains sep s = false →
  PyStr.split sep (s +:+ String sep rest) = s :: PyStr.split sep rest.
Proof.
  induction s as [|a s IH]; intros Hs.
  - simpl. by rewrite bool_decide_eq_true_2.
  - simpl in Hs. apply orb_false_iff in Hs as [Ha Hs].
    rewrite string_app_cons. simpl. rewrite Ha, IH by done. done.
Qed.

(** Splitting what was joined gives the pieces back, when no piece has
    the separator. *)
Lemma split_join (sep : ascii) (l : list string) :
  l ≠ [] → Forall (λ s, PyStr.contains sep s = false) l →
  PyStr.split sep (PyStr.join (String sep "") l) = l.
Proof.
  induction l as [|s l IH]; [done|]. intros _ [Hs Hl]%Forall_cons.
  destruct l as [|s' l].
  - simpl. by apply split_one.
  - change (PyStr.join (String sep "") (s :: s' :: l))
      with (s +:+ String sep "" +:+ PyStr.join (String sep "") (s' :: l)).
    change (String sep "" +:+ PyStr.join (String sep "") (s' :: l))
      with (String sep (PyStr.join (String sep "") (s' :: l))).
    rewrite split_app by done. by rewrite IH.
Qed.

Lemma all_digits_contains (c : ascii) (s : string) :
  PyStr.all_digits s = true → PyStr.is_digit c = false →
  PyStr.contains c s = false.
Proof.
  intros Hs Hc. induction s as [|a s IH]; simpl in *; [done|].
  apply andb_true_iff in Hs as [Ha Hs]. rewrite IH by done.
  rewrite orb_false_r. apply bool_decide_eq_false. intros ->. congruence.
Qed.

Lemma pretty_Z_nonneg (z : Z) : 0 ≤ z → pretty z = pretty (Z.to_N z).
Proof. intros Hz. destruct z as [|p|p]; [done|done|lia]. Qed.

(** ** What a descriptor holds *)

Lemma partition_value_path_value (v : string) :
  PyStr.contains "/" v = false → path_value (partition_value v).
Proof.
  intros Hv. unfold partition_value.
  destruct (PyStr.fullmatch_digits v) eqn:Hd; simpl; [|done].
  by apply int_go_nonneg.
Qed.

(** X1: the values of a descriptor are natural numbers and strings that
    are not all digits and have no [/]: never null, never a negative
    integer, never a string that reads as a number. *)
Theorem descriptor_values (path : string) (expected_keys : list string)
    (k : string) (v : value) :
  PyDict.get k (_parse_partitions_from_path path expected_keys) = Some v →
  path_value v.
Proof.
  rewrite parse_get. case_bool_decide; [|done].
  destruct (last_value k (PyStr.split "/" path)) as [s|] eqn:Hlast; [|done].
  intros [= <-]. apply partition_value_path_value.
  apply last_value_Some in Hlast as (seg & Hin & [-> Hk]%segment_value_Some).
  apply split_no_sep in Hin. rewrite contains_app in Hin.
  by apply orb_false_iff in Hin as [_ Hin].
Qed.

Lemma descriptor_values_witness :
  path_value (VInt 7).
Proof.
  apply (descriptor_values "targets/fold=007/part-0.parquet" ["fold"] "fold").
  reflexivity.
Defined.

(** ** Paths in the Hive style, read back *)

Lemma parse_segment_plain (expected_keys : list string) (kv : PyDict.t value)
    (seg : string) :
  PyStr.contains "=" seg = false → parse_segment expected_keys kv seg = kv.
Proof. intros Hseg. unfold parse_segment. by rewrite Hseg. Qed.

Lemma parse_segment_hive (expected_keys : list string) (kv : PyDict.t value)
    (k : string) (v : value) :
  PyStr.contains "=" k = false → k ∈ expected_keys →
  parse_segment expected_keys kv (hive_segment (k, v))
  = PyDict.set k (partition_value (str_value v)) kv.
Proof.
  intros Hk Hin. unfold parse_segment, hive_segment. cbn [fst snd].
  rewrite contains_app. simpl. rewrite orb_true_r.
  rewrite split1_app by done. by rewrite bool_decide_eq_true_2.
Qed.

Lemma partition_value_str_value (v : value) :
  path_value v → partition_value (str_value v) = v.
Proof.
  destruct v as [|z|s]; simpl; [done| |].
  - intros Hz. rewrite pretty_Z_nonneg by done. unfold partition_value.
    destruct (int_pretty (Z.to_N z)) as [-> ->]. f_equal. lia.
  - intros [Hs _]. unfold partition_value. by rewrite Hs.
Qed.

Lemma str_value_no_slash (v : value) :
  path_value v → PyStr.contains "/" (str_value v) = false.
Proof.
  destruct v as [|z|s]; simpl; [done| |by intros [_ ?]].
  intros Hz. rewrite pretty_Z_nonneg by done.
  destruct (int_pretty (Z.to_N z)) as [Hd _].
  apply all_digits_contains; [|done].
  unfold PyStr.fullmatch_digits in Hd. by destruct (pretty (Z.to_N z)).
Qed.

Lemma parse_segments_plain (expected_keys : list string) (segs : list string)
    (kv : PyDict.t value) :
  Forall (λ s, PyStr.contains "=" s = false) segs →
  fold_left (parse_segment expected_keys) segs kv = kv.
Proof.
  induction 1 as [|seg segs Hseg _ IH]; simpl; [done|].
  by rewrite parse_segment_plain.
Qed.

Lemma parse_segments_hive (expected_keys : list string) (d kv : PyDict.t value) :
  NoDup (PyDict.keys (kv ++ d)) →
  Forall (λ e, e.1 ∈ expected_keys ∧ PyStr.contains "=" e.1 = false ∧
               path_value e.2) d →
  fold_left (parse_segment expected_keys) (hive_segment <$> d) kv = kv ++ d.
Proof.
  intros Hnd Hd. revert kv Hnd.
  induction Hd as [|[k v] d (Hin & Hk & Hv) _ IH]; intros kv Hnd; simpl.
  - by rewrite app_nil_r.
  - rewrite parse_segment_hive, partition_value_str_value by done.
    rewrite dict_set_fresh.
    + rewrite IH; [by rewrite <-app_assoc|]. by rewrite <-app_assoc.
    + unfold PyDict.keys in *. rewrite fmap_app in Hnd.
      apply NoDup_app in Hnd as (_ & Hdisj & _). intros Hkv.
      apply (Hdisj _ Hkv). rewrite fmap_cons. by left.
Qed.

(** X2: a path that lays out a descriptor in the Hive style,
    [dirs/k1=v1/.../kn=vn/leaf], is parsed back to that descriptor, in
    the same order, when the keys are distinct expected keys without [=]
    or [/], the values are natural numbers or strings that are not all
    digits and have no [/], and neither the directories nor the leaf
    have [=] or [/]. *)
Theorem hive_path_round_trip (dirs : list string) (d : PyDict.t value)
    (leaf : string) (expected_keys : list string) :
  Forall (λ s, PyStr.contains "/" s = false ∧ PyStr.contains "=" s = false)
         (dirs ++ [leaf]) →
  NoDup (PyDict.keys d) →
  Forall (λ e, e.1 ∈ expected_keys ∧ PyStr.contains "=" e.1 = false ∧
               PyStr.contains "/" e.1 = false ∧ path_value e.2) d →
  _parse_partitions_from_path (hive_path dirs d leaf) expected_keys = d.
Proof.
  intros Hplain Hnd Hd.
  apply Forall_app in Hplain as [Hdirs Hleaf].
  unfold _parse_partitions_from_path, hive_path.
  rewrite split_join.
  - rewrite !fold_left_app.
    rewrite (parse_segments_plain expected_keys dirs)
      by (eapply Forall_impl; [exact Hdirs|by intros ? [_ ?]]).
    rewrite (parse_segments_hive expected_keys d []); [|done|].
    + apply parse_segments_plain.
      eapply Forall_impl; [exact Hleaf|by intros ? [_ ?]].
    + eapply Forall_impl; [exact Hd|]. by intros ? (? & ? & _ & ?).
  - by destruct dirs, d.
  - apply Forall_app. split; [|apply Forall_app; split].
    + eapply Forall_impl; [exact Hdirs|by intros ? [? _]].
    + apply Forall_fmap. eapply Forall_impl; [exact Hd|].
      intros [k v] (_ & _ & Hk & Hv). unfold hive_segment. simpl in *.
      rewrite contains_app, Hk. simpl. by apply str_value_no_slash.
    + eapply Forall_impl; [exact Hleaf|by intros ? [? _]].
Qed.

Lemma hive_path_round_trip_witness :
  _parse_partitions_from_path
    (hive_path ["data"; "targets"] [("mon", VStr "2022-01"); ("fold", VInt 3)]
       "part-0.parquet")
    ["fold"; "mon"]
  = [("mon", VStr "2022-01"); ("fold", VInt 3)].
Proof.
  apply hive_path_round_trip.
  - repeat (apply Forall_cons_2; [by split|]). apply Forall_nil_2.
  - apply (bool_decide_unpack _). reflexivity.
  - repeat (apply Forall_cons_2;
            [split_and!; [apply (bool_decide_unpack _); reflexivity
                         |reflexivity|reflexivity|by simpl]|]).
    apply Forall_nil_2.
Defined.

(** ** The entries that are read, and their order *)

Lemma List_filter_sublist {A : Type} (f : A → bool) (l : list A) :
  List.filter f l `sublist_of` l.
Proof.
  induction l as [|x l IH]; simpl; [done|].
  destruct (f x); [by apply sublist_skip|by apply sublist_cons].
Qed.

Lemma slice_to_sublist {A : Type} (n : Z) (l : list A) : slice_to n l `sublist_of` l.
Proof. unfold slice_to. destruct (0 <=? n); apply sublist_take. Qed.

(** The guard of line 104 changes nothing: truncation is the slice. *)
Lemma truncate_slice (n : Z) (members : list TarInfo) :
  truncate (Some n) members = slice_to n members.
Proof.
  unfold truncate, slice_to.
  destruct (n <? Z.of_nat (length members)) eqn:Hn; [done|].
  apply Z.ltb_ge in Hn. rewrite (proj2 (Z.leb_le 0 n)) by lia.
  symmetry. apply take_ge. lia.
Qed.

(** X3: the entries that are read are entries of the archive, in the
    order of the archive, none more often than it occurs there; each is a
    regular file whose name, letter case apart, starts with the prefix and
    ends in [.parquet]. *)
Theorem selected_in_archive_order (prefix : string) (expected_keys : list string)
    (allowed_partitions : option (PyDict.t (list value)))
    (max_parts : option Z) (all : list TarInfo) :
  selected prefix expected_keys allowed_partitions max_parts all
    `sublist_of` all
  ∧ ∀ m, m ∈ selected prefix expected_keys allowed_partitions max_parts all →
         isreg m = true
         ∧ PyStr.startswith (PyStr.lower (name m)) (PyStr.lower prefix) = true
         ∧ PyStr.endswith (PyStr.lower (name m)) ".parquet" = true.
Proof.
  assert (selected prefix expected_keys allowed_partitions max_parts all
            `sublist_of` List.filter (is_candidate prefix) all) as Hsub.
  { unfold selected. etrans.
    - unfold truncate. destruct max_parts as [n|]; [|done].
      destruct (n <? _); [apply slice_to_sublist|done].
    - unfold filter_allowed.
      destruct allowed_partitions as [[|item items]|]; [done| |done].
      apply List_filter_sublist. }
  split.
  - etrans; [exact Hsub|]. apply List_filter_sublist.
  - intros m Hm. eapply sublist_subseteq in Hm; [|exact Hsub].
    apply list_elem_of_In, List.filter_In in Hm as [_ Hm].
    unfold is_candidate in Hm.
    by apply andb_true_iff in Hm as [[? ?]%andb_true_iff ?].
Qed.

(** ** Tables that are well formed *)

Lemma union_columns_NoDup (frames : list DataFrame) : NoDup (union_columns frames).
Proof.
  unfold union_columns.
  assert (∀ (l acc : list string), NoDup acc →
            NoDup (fold_left (λ acc c, if bool_decide (c ∈ acc) then acc
                                       else acc ++ [c]) l acc)) as Hfold.
  { induction l as [|c l IH]; intros acc Hacc; simpl; [done|].
    apply IH. case_bool_decide; [done|].
    apply NoDup_app. split_and!; [done| |apply NoDup_singleton].
    by intros x Hx ->%list_elem_of_singleton. }
  apply Hfold. constructor.
Qed.

Lemma length_join_columns (k : string) (frames : list DataFrame) :
  Forall wf_frame frames →
  length (mjoin (column_or_null k <$> frames)) = sum_list (nrows <$> frames).
Proof.
  induction 1 as [|f frames Hf _ IH]; [done|].
  simpl. rewrite length_app, length_column_or_null by done.
  f_equal. exact IH.
Qed.

(** The concatenation of well-formed tables is well formed. *)
Lemma pd_concat_wf (frames : list DataFrame) (out : DataFrame) :
  Forall wf_frame frames → pd_concat frames = Ok out → wf_frame out.
Proof.
  intros Hwf Hout. split.
  { rewrite (pd_concat_columns _ _ Hout). apply union_columns_NoDup. }
  destruct frames as [|f0 fs]; [done|]. injection Hout as <-.
  cbn [cols nrows]. apply Forall_fmap, Forall_forall. intros k _.
  exact (length_join_columns k (f0 :: fs) Hwf).
Qed.

Lemma has_column_inject (part_info : PyDict.t value) (df : DataFrame) (k : string) :
  has_column k (inject_partitions part_info df) = true ↔
  has_column k df = true ∨ k ∈ PyDict.keys part_info.
Proof.
  rewrite !has_column_getcol, inject_partitions_getcol, <-dict_get_is_Some.
  destruct (getcol k df) as [c|]; simpl.
  - split; [by left|by eauto].
  - rewrite fmap_is_Some. split; [by right|]. by intros [[? ?]|?].
Qed.

Section reader_more.

Variable parquet_decode : list Byte.byte → option (list string) → result DataFrame.
Variable tmp_name : N → gmap string (list Byte.byte) → string.

Variables (tar_path : Path.t) (prefix : string) (expected_keys : list string).
Variables (allowed_partitions : option (PyDict.t (list value))).
Variables (columns : option (list string)).

Abbreviation read_with :=
  (read_parquet_partitions_from_tar parquet_decode tmp_name
     tar_path prefix expected_keys allowed_partitions columns).
Abbreviation chosen := (selected prefix expected_keys allowed_partitions).
Abbreviation decoded_of := (decoded_table parquet_decode columns).

(** X4: [max_parts] keeps the first entries of what would be read
    without it.  For a bound [n] that is not negative, a read that
    returns has [n > 0] and returns as many rows as the tables of the
    first [n] such entries have; so a bound of 0 never returns a table.
    A negative bound is a Python slice: it drops the last [-n] entries. *)
Theorem max_parts_keeps_first (n : Z) (w w' : World) (all : list TarInfo)
    (out : DataFrame) :
  files w !! Path.str tar_path = Some (TarGz all) →
  read_with (Some n) w = (Ok out, w') →
  chosen (Some n) all = slice_to n (chosen None all)
  ∧ (0 ≤ n →
     0 < n
     ∧ chosen (Some n) all = take (Z.to_nat n) (chosen None all)
     ∧ nrows out
       = sum_list (nrows <$> take (Z.to_nat n) (decoded_of <$> chosen None all)))
  ∧ (n < 0 →
     chosen (Some n) all
     = take (length (chosen None all) - Z.to_nat (- n)) (chosen None all)).
Proof.
  intros Hfile Hread.
  assert (chosen (Some n) all = slice_to n (chosen None all)) as Hsel
    by apply truncate_slice.
  destruct (read_tar_Ok parquet_decode tmp_name tar_path prefix expected_keys
              allowed_partitions columns (Some n) w w' all out Hfile Hread)
    as [_ Hout].
  split_and!; [done| |].
  - intros Hn. unfold slice_to in Hsel. rewrite (proj2 (Z.leb_le 0 n)) in Hsel by done.
    split_and!; [|done|].
    + destruct (decide (n = 0)) as [->|]; [|lia].
      rewrite Hsel in Hout. done.
    + rewrite (pd_concat_nrows _ _ Hout), frames_nrows, Hsel.
      by rewrite fmap_take.
  - intros Hn. rewrite Hsel. unfold slice_to.
    rewrite (proj2 (Z.leb_gt 0 n)) by done. f_equal. lia.
Qed.

(** X5: a read that returns prints one report, and no other line: it
    counts the entries that were read and lists the expected keys that
    are columns of the table.  A read that raises prints nothing. *)
Theorem read_reports_once (max_parts : option Z) (w w' : World)
    (all : list TarInfo) (r : result DataFrame) :
  files w !! Path.str tar_path = Some (TarGz all) →
  read_with max_parts w = (r, w') →
  match r with
  | Ok out =>
      stdout w' = stdout w ++
        [ {| n_frames := length (chosen max_parts all);
             r_prefix := prefix;
             r_archive := Path.name tar_path;
             parts_rec := List.filter (λ k, has_column k out) expected_keys |} ]
  | Raise _ => stdout w' = stdout w
  end.
Proof.
  intros Hfile. unfold read_parquet_partitions_from_tar. rewrite Hfile.
  destruct (chosen max_parts all) as [|m sel] eqn:Hsel.
  { intros [= <- <-]. done. }
  unfold mbind at 1, M_bind.
  pose proof (read_members_result parquet_decode tmp_name expected_keys columns
                (m :: sel) [] w) as Hres.
  destruct (read_members parquet_decode tmp_name expected_keys columns
              (m :: sel) [] w) as [r1 w1] eqn:Hloop.
  destruct (read_members_world parquet_decode tmp_name _ _ _ _ _ _ _ Hloop)
    as (_ & Hs & _).
  cbn [fst] in Hres. destruct r1 as [frames|e].
  - symmetry in Hres. apply member_frames_Ok, Forall2_length in Hres.
    unfold mbind, M_bind, lift_result, print, mret, M_ret.
    destruct (pd_concat frames) as [out|e]; intros [= <- <-]; simpl.
    + by rewrite Hs, <-Hres.
    + done.
  - intros [= <- <-]. done.
Qed.

(** X6: the columns of the table that a read returns are the columns of
    the decoded tables of the entries read and the keys of their
    descriptors, and nothing else. *)
Theorem result_columns (max_parts : option Z) (w w' : World)
    (all : list TarInfo) (out : DataFrame) (k : string) :
  files w !! Path.str tar_path = Some (TarGz all) →
  read_with max_parts w = (Ok out, w') →
  has_column k out = true ↔
  ∃ m, m ∈ chosen max_parts all ∧
       (has_column k (decoded_of m) = true
        ∨ k ∈ PyDict.keys (_parse_partitions_from_path (name m) expected_keys)).
Proof.
  intros Hfile Hread.
  destruct (read_tar_Ok parquet_decode tmp_name tar_path prefix expected_keys
              allowed_partitions columns max_parts w w' all out Hfile Hread)
    as [_ Hout].
  unfold has_column at 1. rewrite bool_decide_eq_true.
  rewrite (pd_concat_columns _ _ Hout), union_columns_elem_of. split.
  - intros (f & (m & -> & Hm)%list_elem_of_fmap & Hk).
    exists m. split; [done|]. apply has_column_inject.
    unfold has_column. by rewrite bool_decide_eq_true.
  - intros (m & Hm & Hk). eexists. split.
    + apply list_elem_of_fmap. by exists m.
    + apply has_column_inject in Hk. unfold has_column in Hk.
      by rewrite bool_decide_eq_true in Hk.
Qed.

(** X7: when every table decoded from an entry is well formed, so is the
    table that a read returns: its columns are distinct and each has one
    cell a row. *)
Theorem read_table_well_formed (max_parts : option Z) (w w' : World)
    (all : list TarInfo) (out : DataFrame) :
  files w !! Path.str tar_path = Some (TarGz all) →
  (∀ m df, m ∈ chosen max_parts all → parquet_decode (data m) columns = Ok df →
           wf_frame df) →
  read_with max_parts w = (Ok out, w') →
  wf_frame out.
Proof.
  intros Hfile Hwf Hread.
  destruct (read_tar_Ok parquet_decode tmp_name tar_path prefix expected_keys
              allowed_partitions columns max_parts w w' all out Hfile Hread)
    as [Hdec Hout].
  eapply pd_concat_wf; [|exact Hout].
  apply Forall_fmap, Forall_forall. intros m Hm. simpl.
  apply inject_partitions_wf.
  apply list_elem_of_lookup_1 in Hm as Hl. destruct Hl as [i Hi].
  eapply Forall2_lookup_l in Hdec as (df & Hdf & Hok); [|done].
  rewrite list_lookup_fmap, Hi in Hdf. simpl in Hdf. simplify_eq.
  by eapply Hwf.
Qed.

End reader_more.

Lemma max_parts_keeps_first_witness :
  selected "targets/" ["fold"] None (Some 2) Example.members
  = slice_to 2 (selected "targets/" ["fold"] None None Example.members).
Proof.
  refine (proj1 (max_parts_keeps_first Example.decode Example.tmp_name
    Example.archive_path "targets/" ["fold"] None None 2
    (Example.world_of Example.members)
    (read_parquet_partitions_from_tar Example.decode Example.tmp_name
       Example.archive_path "targets/" ["fold"] None None (Some 2)
       (Example.world_of Example.members)).2
    Example.members
    {| nrows := 2;
       cols := [("x", [VInt 1; VInt 3]); ("fold", [VInt 0; VInt 2])] |} _ _)).
  - vm_compute. reflexivity.
  - vm_compute. reflexivity.
Defined.

Lemma read_reports_once_witness :
  stdout Example.world_after
  = stdout (Example.world_of Example.members) ++
    [ {| n_frames := length (selected "targets/" ["fold"] Example.only_folds_0_1
                               None Example.members);
         r_prefix := "targets/";
         r_archive := Path.name Example.archive_path;
         parts_rec := List.filter (λ k, has_column k Example.expected_table)
                        ["fold"] |} ].
Proof.
  refine (read_reports_once Example.decode Example.tmp_name
    Example.archive_path "targets/" ["fold"] Example.only_folds_0_1 None None
    (Example.world_of Example.members) Example.world_after Example.members
    (Ok Example.expected_table) _ _).
  - vm_compute. reflexivity.
  - vm_compute. reflexivity.
Defined.

Lemma result_columns_witness :
  has_column "fold" Example.expected_table = true ↔
  ∃ m, m ∈ selected "targets/" ["fold"] Example.only_folds_0_1 None
             Example.members ∧
       (has_column "fold" (decoded_table Example.decode None m) = true
        ∨ "fold" ∈ PyDict.keys (_parse_partitions_from_path (name m) ["fold"])).
Proof.
  refine (result_columns Example.decode Example.tmp_name
    Example.archive_path "targets/" ["fold"] Example.only_folds_0_1 None None
    (Example.world_of Example.members) Example.world_after Example.members
    Example.expected_table "fold" _ _).
  - vm_compute. reflexivity.
  - vm_compute. reflexivity.
Defined.

Lemma read_table_well_formed_witness : wf_frame Example.expected_table.
Proof.
  refine (read_table_well_formed Example.decode Example.tmp_name
    Example.archive_path "targets/" ["fold"] Example.only_folds_0_1 None None
    (Example.world_of Example.members) Example.world_after Example.members
    Example.expected_table _ _ _).
  - vm_compute. reflexivity.
  - intros m df _. apply example_decode_wf.
  - vm_compute. reflexivity.
Defined.

(** ** The listing of an archive *)

Lemma reported_hidden_items (l : list string) (tail : list listing_line) :
  reported_hidden ((ListItem <$> l) ++ tail) = reported_hidden tail.
Proof. induction l as [|s l IH]; [done|]. exact IH. Qed.

Lemma listed_names_app_items (l : list string) (tail : list listing_line) :
  listed_names ((ListItem <$> l) ++ tail) = l ++ listed_names tail.
Proof.
  unfold listed_names. induction l as [|s l IH]; [done|].
  simpl. f_equal. exact IH.
Qed.

(** X8: for a limit that is not negative, [list_tar] prints the header
    with the number of regular files, then the names of the first [limit]
    regular files in the order of the archive, then, when some are left,
    how many: the names shown and the number reported add up to the
    number of regular files. *)
Theorem list_tar_counts (fs : gmap string file) (tar_path : Path.t)
    (limit : Z) (members : list TarInfo) :
  fs !! Path.str tar_path = Some (TarGz members) →
  0 ≤ limit →
  ∃ out,
    list_tar fs tar_path limit = (Ok (), out)
    ∧ head out = Some (ListHeader (Path.name tar_path)
                         (length (List.filter isreg members)))
    ∧ listed_names out
      = take (Z.to_nat limit) (name <$> List.filter isreg members)
    ∧ 0 ≤ reported_hidden out
    ∧ Z.of_nat (length (listed_names out)) + reported_hidden out
      = Z.of_nat (length (List.filter isreg members)).
Proof.
  intros Hfile Hlimit. unfold list_tar. rewrite Hfile. cbv zeta.
  set (names := name <$> List.filter isreg members).
  assert (length names = length (List.filter isreg members)) as Hlen
    by apply length_fmap.
  eexists. split; [done|]. cbn [head].
  unfold slice_to. rewrite (proj2 (Z.leb_le 0 limit)) by done.
  cbn [listed_names omap list_omap reported_hidden foldr].
  change (omap _ ?l) with (listed_names l).
  change (foldr _ 0 ?l) with (reported_hidden l).
  rewrite listed_names_app_items, reported_hidden_items, Hlen.
  destruct (limit <? Z.of_nat (length (List.filter isreg members))) eqn:Hlt.
  - apply Z.ltb_lt in Hlt. simpl. rewrite app_nil_r, length_take.
    split_and!; [done|done|lia|lia].
  - apply Z.ltb_ge in Hlt. simpl. rewrite app_nil_r, length_take.
    split_and!; [done|done|lia|lia].
Qed.

Lemma list_tar_counts_witness :
  ∃ out,
    list_tar (files (Example.world_of Example.members)) Example.archive_path 3
    = (Ok (), out)
    ∧ head out = Some (ListHeader (Path.name Example.archive_path)
                         (length (List.filter isreg Example.members)))
    ∧ listed_names out
      = take (Z.to_nat 3) (name <$> List.filter isreg Example.members)
    ∧ 0 ≤ reported_hidden out
    ∧ Z.of_nat (length (listed_names out)) + reported_hidden out
      = Z.of_nat (length (List.filter isreg Example.members)).
Proof.
  apply list_tar_counts; [vm_compute; reflexivity|lia].
Defined.

(** X9: a negative limit is a Python slice: the last [-limit] names are
    left out, and the last line is always printed, with a count that is
    larger than the number of regular files in the archive. *)
Theorem list_tar_negative_limit (fs : gmap string file) (tar_path : Path.t)
    (limit : Z) (members : list TarInfo) :
  fs !! Path.str tar_path = Some (TarGz members) →
  limit < 0 →
  ∃ out,
    list_tar fs tar_path limit = (Ok (), out)
    ∧ listed_names out
      = take (length (List.filter isreg members) - Z.to_nat (- limit))
             (name <$> List.filter isreg members)
    ∧ reported_hidden out
      = Z.of_nat (length (List.filter isreg members)) - limit
    ∧ Z.of_nat (length (List.filter isreg members)) < reported_hidden out.
Proof.
  intros Hfile Hlimit. unfold list_tar. rewrite Hfile. cbv zeta.
  set (names := name <$> List.filter isreg members).
  assert (length names = length (List.filter isreg members)) as Hlen
    by apply length_fmap.
  eexists. split; [done|].
  unfold slice_to. rewrite (proj2 (Z.leb_gt 0 limit)) by done.
  cbn [listed_names omap list_omap reported_hidden foldr].
  change (omap _ ?l) with (listed_names l).
  change (foldr _ 0 ?l) with (reported_hidden l).
  rewrite listed_names_app_items, reported_hidden_items, Hlen.
  rewrite (proj2 (Z.ltb_lt limit _)) by lia. simpl. rewrite app_nil_r.
  split_and!; [|lia|lia]. f_equal. lia.
Qed.

Lemma list_tar_negative_limit_witness :
  ∃ out,
    list_tar (files (Example.world_of Example.members)) Example.archive_path (-1)
    = (Ok (), out)
    ∧ listed_names out
      = take (length (List.filter isreg Example.members) - Z.to_nat (- -1))
             (name <$> List.filter isreg Example.members)
    ∧ reported_hidden out
      = Z.of_nat (length (List.filter isreg Example.members)) - -1
    ∧ Z.of_nat (length (List.filter isreg Example.members)) < reported_hidden out.
Proof.
  apply list_tar_negative_limit; [vm_compute; reflexivity|lia].
Defined.

(** ** Hashing a file in chunks *)

Section hashing_facts.

Variable hash_state : Type.
Variable hashlib_new : string → result hash_state.
Variable hash_update : hash_state → list Byte.byte → hash_state.
Variable hexdigest : hash_state → string.

(** What [hashlib] promises: feeding the bytes in pieces is feeding them
    at once, and feeding nothing changes nothing. *)
Hypothesis update_app : ∀ h a b, hash_update (hash_update h a) b = hash_update h (a ++ b).
Hypothesis update_nil : ∀ h, hash_update h [] = h.

Lemma f_read_Ok (chunk : Z) (rest : list Byte.byte) :
  reads_on chunk →
  ∃ b, f_read chunk rest = Ok b
       ∧ b ++ drop (length b) rest = rest
       ∧ (b = [] → rest = []).
Proof.
  unfold f_read. intros [->|Hpos].
  - exists rest. split_and!; [done| |done].
    by rewrite drop_all, app_nil_r.
  - assert (2 ^ 30 < 2 ^ 63 - 1) by (by apply Z.ltb_lt).
    rewrite (proj2 (Z.ltb_ge chunk (- 2 ^ 63))) by lia.
    rewrite (proj2 (Z.leb_gt (2 ^ 63 - 1) chunk)) by lia.
    rewrite (proj2 (Z.ltb_ge chunk (-1))) by lia.
    rewrite (proj2 (Z.eqb_neq chunk (-1))) by lia.
    exists (take (Z.to_nat chunk) rest). split_and!; [done| |].
    + rewrite length_take.
      destruct (decide (Z.to_nat chunk ≤ length rest)%nat).
      * rewrite Nat.min_l by done. apply take_drop.
      * rewrite Nat.min_r by lia. rewrite take_ge, drop_all by lia.
        apply app_nil_r.
    + destruct rest as [|x rest]; [done|].
      destruct (Z.to_nat chunk) eqn:Hn; [lia|done].
Qed.

(** The loop ends within one read more than there are bytes, and has
    then fed every byte, in order. *)
Lemma read_chunks_all (fuel : nat) (chunk : Z) (h : hash_state)
    (rest : list Byte.byte) :
  reads_on chunk → (length rest < fuel)%nat →
  read_chunks hash_state hash_update fuel chunk h rest
  = Some (Ok (hash_update h rest)).
Proof.
  intros Hchunk. revert h rest.
  induction fuel as [|fuel IH]; intros h rest Hfuel; [lia|].
  cbn [read_chunks].
  destruct (f_read_Ok chunk rest Hchunk) as (b & -> & Hsplit & Hnil).
  destruct b as [|b0 b].
  - rewrite (Hnil eq_refl). by rewrite update_nil.
  - rewrite IH.
    + by rewrite update_app, Hsplit.
    + apply (f_equal length) in Hsplit. rewrite length_app in Hsplit.
      simpl in *. lia.
Qed.

(** X10: for a chunk size from 1 to 2^30, or -1, [file_hash] returns the
    digest of the whole content of the file, whatever that size (-1 reads
    the file at once), and the loop ends within one read more than the
    file has bytes.  For a chunk size below -1 no digest is returned: the
    first read raises a ValueError, or an OverflowError when the size is
    below -2^63. *)
Theorem file_hash_whole_content (fuel : nat)
    (disk : gmap string (list Byte.byte)) (path : Path.t) (algo : string)
    (chunk : Z) (h0 : hash_state) (content : list Byte.byte) :
  hashlib_new algo = Ok h0 →
  disk !! Path.str path = Some content →
  (length content < fuel)%nat →
  (chunk = -1 ∨ 0 < chunk ≤ 2 ^ 30 →
   file_hash hash_state hashlib_new hash_update hexdigest fuel disk path algo
     chunk
   = Some (Ok (hexdigest (hash_update h0 content))))
  ∧ (- 2 ^ 63 ≤ chunk < -1 →
     ∃ msg,
       file_hash hash_state hashlib_new hash_update hexdigest fuel disk path
         algo chunk
       = Some (Raise (ValueError msg)))
  ∧ (chunk < - 2 ^ 63 →
     ∃ msg,
       file_hash hash_state hashlib_new hash_update hexdigest fuel disk path
         algo chunk
       = Some (Raise (OverflowError msg))).
Proof.
  intros Hnew Hdisk Hfuel. unfold file_hash. rewrite Hnew, Hdisk.
  split_and!.
  - intros Hchunk. by rewrite read_chunks_all.
  - intros Hchunk. destruct fuel as [|fuel]; [lia|].
    cbn [read_chunks]. unfold f_read.
    rewrite (proj2 (Z.ltb_ge chunk (- 2 ^ 63))) by lia.
    rewrite (proj2 (Z.leb_gt (2 ^ 63 - 1) chunk)) by lia.
    rewrite (proj2 (Z.ltb_lt chunk (-1))) by lia. by eexists.
  - intros Hchunk. destruct fuel as [|fuel]; [lia|].
    cbn [read_chunks]. unfold f_read.
    rewrite (proj2 (Z.ltb_lt chunk (- 2 ^ 63))) by lia. by eexists.
Qed.

End hashing_facts.

Lemma toy_update_app (h a b : list Byte.byte) :
  ToyHash.update (ToyHash.update h a) b = ToyHash.update h (a ++ b).
Proof. unfold ToyHash.update. by rewrite app_assoc. Qed.

Lemma toy_update_nil (h : list Byte.byte) : ToyHash.update h [] = h.
Proof. unfold ToyHash.update. apply app_nil_r. Qed.

Lemma file_hash_whole_content_witness :
  (file_hash (list Byte.byte) ToyHash.new ToyHash.update ToyHash.digest 6
     ToyHash.disk (Path.mk "/" ["data"; "targets.tar.gz"]) "sha256" 2
   = Some (Ok (ToyHash.digest
                 (ToyHash.update []
                    [Byte.x1f; Byte.x8b; Byte.x08; Byte.x00; Byte.x2a]))))
  ∧ (∃ msg,
       file_hash (list Byte.byte) ToyHash.new ToyHash.update ToyHash.digest 6
         ToyHash.disk (Path.mk "/" ["data"; "targets.tar.gz"]) "sha256" (-2)
       = Some (Raise (ValueError msg)))
  ∧ (∃ msg,
       file_hash (list Byte.byte) ToyHash.new ToyHash.update ToyHash.digest 6
         ToyHash.disk (Path.mk "/" ["data"; "targets.tar.gz"]) "sha256"
         (- 2 ^ 64)
       = Some (Raise (OverflowError msg))).
Proof.
  pose proof
    (λ chunk,
       file_hash_whole_content (list Byte.byte) ToyHash.new ToyHash.update
         ToyHash.digest toy_update_app toy_update_nil 6 ToyHash.disk
         (Path.mk "/" ["data"; "targets.tar.gz"]) "sha256" chunk []
         [Byte.x1f; Byte.x8b; Byte.x08; Byte.x00; Byte.x2a]
         eq_refl ltac:(vm_compute; reflexivity) ltac:(simpl; lia)) as H.
  split_and!.
  - apply (H 2). right. lia.
  - apply (H (-2)). lia.
  - apply (H (- 2 ^ 64)). lia.
Defined.

(** X11: with a chunk size of 0 the first read returns no byte, so the
    loop ends at once: the digest is that of no input, whatever the file
    holds. *)
Theorem file_hash_zero_chunk (hash_state : Type)
    (hashlib_new : string → result hash_state)
    (hash_update : hash_state → list Byte.byte → hash_state)
    (hexdigest : hash_state → string) (fuel : nat)
    (disk : gmap string (list Byte.byte)) (path : Path.t) (algo : string)
    (h0 : hash_state) (content : list Byte.byte) :
  hashlib_new algo = Ok h0 →
  disk !! Path.str path = Some content →
  file_hash hash_state hashlib_new hash_update hexdigest (S fuel) disk path algo 0
  = Some (Ok (hexdigest h0)).
Proof.
  intros Hnew Hdisk. unfold file_hash. rewrite Hnew, Hdisk.
  cbn [read_chunks]. unfold f_read. simpl. done.
Qed.

Lemma file_hash_zero_chunk_witness :
  file_hash (list Byte.byte) ToyHash.new ToyHash.update ToyHash.digest 1
    ToyHash.disk (Path.mk "/" ["data"; "targets.tar.gz"]) "md5" 0
  = Some (Ok (ToyHash.digest [])).
Proof.
  apply (file_hash_zero_chunk _ _ _ _ 0 _ _ _ []
           [Byte.x1f; Byte.x8b; Byte.x08; Byte.x00; Byte.x2a]).
  - reflexivity.
  - vm_compute. reflexivity.
Defined.

(** ** The prevalence table of any targets table *)

Lemma group_means_keys (cols : list string) (g : DataFrame)
    (ms : PyDict.t (option Q)) :
  group_means cols g = Ok ms → PyDict.keys ms = cols.
Proof.
  revert ms. induction cols as [|c cols IH]; intros ms; simpl.
  - by intros [= <-].
  - destruct (mean (default [] (getcol c g))) as [m|e]; simpl; [|done].
    destruct (group_means cols g) as [rest|e]; simpl; [|done].
    intros [= <-]. unfold PyDict.keys in *. simpl. f_equal. by apply IH.
Qed.

Lemma dict_set_Forall {V : Type} (P : string * V → Prop) (k : string) (v : V)
    (d : PyDict.t V) :
  Forall P d → P (k, v) → Forall P (PyDict.set k v d).
Proof.
  intros Hd Hkv. induction Hd as [|[k0 v0] d H0 Hd IH]; simpl.
  - by apply Forall_singleton.
  - destruct (decide (k = k0)); by constructor.
Qed.

(** What the loop over the groups keeps: distinct labels, rows with the
    target columns; the labels it adds start with the tag. *)
Lemma add_groups_inv (tag : string) (cols : list string)
    (groups : list (value * DataFrame))
    (out out' : PyDict.t (PyDict.t (option Q))) :
  add_groups tag cols groups out = Ok out' →
  NoDup (PyDict.keys out) →
  Forall (λ r, PyDict.keys r.2 = cols) out →
  NoDup (PyDict.keys out')
  ∧ Forall (λ r, PyDict.keys r.2 = cols) out'
  ∧ (∀ l, l ∈ PyDict.keys out → l ∈ PyDict.keys out')
  ∧ (∀ l, l ∈ PyDict.keys out' →
          l ∈ PyDict.keys out ∨ ∃ s, l = tag +:+ "=" +:+ s).
Proof.
  revert out. induction groups as [|[k g] groups IH]; intros out; simpl.
  - intros [= <-] Hnd Hrows. split_and!; [done|done|done|by left].
  - destruct (group_means cols g) as [ms|e] eqn:Hms; simpl; [|done].
    intros Hrest Hnd Hrows.
    apply IH in Hrest as (Hnd' & Hrows' & Hsub & Hnew).
    + split_and!; [done|done| |].
      * intros l Hl. apply Hsub, dict_keys_set. by right.
      * intros l Hl. destruct (Hnew l Hl) as [[->|?]%dict_keys_set|?];
          [right; by eexists|by left|by right].
    + by apply dict_keys_set_NoDup.
    + apply dict_set_Forall; [done|]. simpl. by eapply group_means_keys.
Qed.

(** A prevalence table is empty, for a table without target column, or
    the sorted rows of a dictionary that has the key "ALL". *)
Lemma prevalence_table_out (df : DataFrame)
    (tbl : list (string * PyDict.t (option Q))) :
  prevalence_table df = Ok tbl →
  (present_targets df = [] ∧ tbl = [])
  ∨ (present_targets df ≠ [] ∧
     ∃ out, tbl = sort_index out
            ∧ NoDup (PyDict.keys out)
            ∧ Forall (λ r, PyDict.keys r.2 = present_targets df) out
            ∧ "ALL" ∈ PyDict.keys out
            ∧ ∀ l, l ∈ PyDict.keys out →
                   l = "ALL" ∨ (∃ s, l = "mon" +:+ "=" +:+ s)
                   ∨ (∃ s, l = "fold" +:+ "=" +:+ s)).
Proof.
  unfold prevalence_table.
  change (List.filter (λ c, has_column c df) TARGETS) with (present_targets df).
  cbv zeta.
  destruct (present_targets df) as [|c0 cs] eqn:Hcols.
  { intros [= <-]. by left. }
  rewrite <-Hcols. intros Htbl. right. split; [by rewrite Hcols|].
  destruct (group_means (present_targets df) df) as [all|e] eqn:Hall; [|done].
  cbn [mbind result_bind] in Htbl.
  set (out0 := PyDict.set "ALL" all []) in *.
  assert (NoDup (PyDict.keys out0)) as Hnd0 by apply NoDup_singleton.
  assert (Forall (λ r, PyDict.keys r.2 = present_targets df) out0) as Hrows0.
  { apply Forall_singleton. simpl. by eapply group_means_keys. }
  assert (∃ out1, (if has_column "mon" df
                   then add_groups "mon" (present_targets df) (groupby "mon" df) out0
                   else Ok out0) = Ok out1
                  ∧ NoDup (PyDict.keys out1)
                  ∧ Forall (λ r, PyDict.keys r.2 = present_targets df) out1
                  ∧ "ALL" ∈ PyDict.keys out1
                  ∧ ∀ l, l ∈ PyDict.keys out1 →
                         l = "ALL" ∨ ∃ s, l = "mon" +:+ "=" +:+ s)
    as (out1 & Hout1 & Hnd1 & Hrows1 & Hall1 & Hlab1).
  { destruct (has_column "mon" df).
    - destruct (add_groups "mon" (present_targets df) (groupby "mon" df) out0)
        as [out1|e] eqn:Hadd; [|done].
      destruct (add_groups_inv _ _ _ _ _ Hadd Hnd0 Hrows0)
        as (? & ? & Hsub & Hnew).
      exists out1. split_and!; [done..| |].
      + apply Hsub. by left.
      + intros l Hl. destruct (Hnew l Hl) as [?%list_elem_of_singleton|?]; auto.
    - exists out0. split_and!; [done..|by left|].
      intros l ?%list_elem_of_singleton. by left. }
  assert (∀ out, (if has_column "mon" df
                  then add_groups "mon" (present_targets df) (groupby "mon" df) out0
                  else Ok out0) = Ok out → out = out1) as Hsame
    by (intros out Hout; congruence).
  destruct (if has_column "mon" df
            then add_groups "mon" (present_targets df) (groupby "mon" df) out0
            else Ok out0) as [out1'|e]; [|done].
  rewrite (Hsame out1' eq_refl) in Htbl. clear Hsame Hout1.
  cbn [mbind result_bind] in Htbl.
  destruct (has_column "fold" df).
  - destruct (add_groups "fold" (present_targets df) (groupby "fold" df) out1)
      as [out2|e] eqn:Hadd; [|done].
    cbn [mbind result_bind] in Htbl. injection Htbl as <-.
    destruct (add_groups_inv _ _ _ _ _ Hadd Hnd1 Hrows1)
      as (? & ? & Hsub & Hnew).
    exists out2. split_and!; [done..|by apply Hsub|].
    intros l Hl. destruct (Hnew l Hl) as [Hl1|?]; [|by auto].
    destruct (Hlab1 l Hl1); auto.
  - cbn [mbind result_bind] in Htbl. injection Htbl as <-.
    exists out1. split_and!; [done..|].
    intros l Hl. destruct (Hlab1 l Hl); auto.
Qed.

(** X12: whatever the targets table holds, a prevalence table that is
    returned has distinct labels, in increasing order; every label is
    "ALL", "mon=..." or "fold=..."; every row has exactly the target
    columns of the table, in the order target_1 .. target_4; and the row
    "ALL" is there when the table has a target column (without one the
    table returned has no row at all). *)
Theorem prevalence_table_shape (df : DataFrame)
    (tbl : list (string * PyDict.t (option Q))) :
  prevalence_table df = Ok tbl →
  NoDup tbl.*1
  ∧ Sorted label_le tbl
  ∧ (∀ label row, (label, row) ∈ tbl → PyDict.keys row = present_targets df)
  ∧ (∀ label, label ∈ tbl.*1 →
       label = "ALL" ∨ (∃ s, label = "mon" +:+ "=" +:+ s)
       ∨ (∃ s, label = "fold" +:+ "=" +:+ s))
  ∧ (present_targets df ≠ [] → "ALL" ∈ tbl.*1)
  ∧ (present_targets df = [] → tbl = []).
Proof.
  intros [[Hnone ->]|(Hsome & out & -> & Hnd & Hrows & Hall & Hlab)]
    %prevalence_table_out.
  - split_and!; [constructor|constructor| | |done|done].
    + by intros ?? ?%elem_of_nil.
    + by intros ? ?%elem_of_nil.
  - assert (sort_index out ≡ₚ out) as Hperm by apply merge_sort_Permutation.
    split_and!.
    + by rewrite Hperm.
    + apply Sorted_merge_sort. apply _.
    + intros label row Hin. rewrite Hperm in Hin.
      rewrite Forall_forall in Hrows. by apply (Hrows (label, row)).
    + intros label Hin. rewrite Hperm in Hin. by apply Hlab.
    + intros _. by rewrite Hperm.
    + done.
Qed.

Lemma prevalence_table_shape_witness :
  NoDup example_prevalence.*1
  ∧ Sorted label_le example_prevalence
  ∧ (∀ label row, (label, row) ∈ example_prevalence →
                  PyDict.keys row = present_targets example_targets)
  ∧ (∀ label, label ∈ example_prevalence.*1 →
       label = "ALL" ∨ (∃ s, label = "mon" +:+ "=" +:+ s)
       ∨ (∃ s, label = "fold" +:+ "=" +:+ s))
  ∧ (present_targets example_targets ≠ [] → "ALL" ∈ example_prevalence.*1)
  ∧ (present_targets example_targets = [] → example_prevalence = []).
Proof.
  apply (prevalence_table_shape example_targets example_prevalence).
  vm_compute. reflexivity.
Defined.

(** X13: the baseline of a prevalence table is that table: what
    [prevalence_table] returns is never a table with rows and no
    column, the one case in which [baseline_from_prevalence] drops the
    rows of its argument. *)
Theorem baseline_of_prevalence (df : DataFrame)
    (tbl : list (string * PyDict.t (option Q))) :
  prevalence_table df = Ok tbl →
  baseline_from_prevalence (Some tbl) = tbl.
Proof.
  intros [[_ ->]|(Hsome & out & -> & _ & Hrows & Hall & _)]%prevalence_table_out;
    [done|].
  unfold baseline_from_prevalence.
  assert (sort_index out ≡ₚ out) as Hperm by apply merge_sort_Permutation.
  rewrite <-Hperm in Hrows.
  destruct (sort_index out) as [|r rows] eqn:Hsorted; [done|].
  assert (frame_is_empty (r :: rows) = false) as ->; [|done].
  apply Forall_cons in Hrows as [Hr _].
  destruct r as [label [|kv row]]; simpl in *; [|done].
  by rewrite <-Hr in Hsome.
Qed.

Lemma baseline_of_prevalence_witness :
  baseline_from_prevalence (Some [("ALL", [("target_1", Some (1 # 2))])])
  = [("ALL", [("target_1", Some (1 # 2))])].
Proof.
  apply (baseline_of_prevalence scenario_targets). vm_compute. reflexivity.
Defined.

(** ** Nulls and text in the target columns *)

Lemma sum_count_numeric (c : list value) :
  numeric_column c →
  sum_count c = Ok (foldr Z.add 0 (int_cells c), length (int_cells c)).
Proof.
  induction 1 as [|v c Hv _ IH]; [done|].
  destruct v as [|z|s]; simpl; [done| |done].
  rewrite IH. done.
Qed.

(** The mean skips the nulls. *)
Lemma mean_numeric (c : list value) :
  numeric_column c → mean c = Ok (numeric_mean c).
Proof.
  intros Hc. unfold mean, numeric_mean. rewrite (sum_count_numeric c Hc).
  simpl. destruct (int_cells c) as [|z zs]; [done|].
  unfold mret, result_ret. do 3 f_equal.
  change (length (z :: zs)) with (S (length zs)).
  by rewrite Pos.of_nat_succ.
Qed.

Lemma sum_count_Raise (c : list value) (e : exn) :
  sum_count c = Raise e → e = TypeError "Could not convert string to numeric".
Proof.
  induction c as [|v c IH]; [done|].
  destruct v as [|z|s]; simpl; [done| |by intros [= <-]].
  destruct (sum_count c) as [[s0 n]|e']; simpl; [done|].
  intros [= <-]. by apply IH.
Qed.

Lemma sum_count_text (c : list value) (s : string) :
  VStr s ∈ c → ∃ e, sum_count c = Raise e.
Proof.
  induction c as [|v c IH]; [by intros ?%elem_of_nil|].
  intros [<-|Hin]%elem_of_cons; [by eexists|].
  destruct (IH Hin) as [e He].
  destruct v as [|z|s']; simpl; [by eexists| |by eexists].
  rewrite He. by eexists.
Qed.

Lemma mean_Raise (c : list value) (e : exn) :
  mean c = Raise e → e = TypeError "Could not convert string to numeric".
Proof.
  unfold mean. destruct (sum_count c) as [[s n]|e'] eqn:Hsc; simpl; [done|].
  intros [= <-]. by eapply sum_count_Raise.
Qed.

Lemma group_means_Raise (cols : list string) (g : DataFrame) (e : exn) :
  group_means cols g = Raise e →
  e = TypeError "Could not convert string to numeric".
Proof.
  induction cols as [|c cols IH]; [done|]. simpl.
  destruct (mean (default [] (getcol c g))) as [m|e'] eqn:Hm; simpl.
  - destruct (group_means cols g) as [rest|e'']; simpl; [done|].
    intros [= <-]. by apply IH.
  - intros [= <-]. by eapply mean_Raise.
Qed.

Lemma group_means_text (cols : list string) (g : DataFrame) (c s : string) :
  c ∈ cols → VStr s ∈ default [] (getcol c g) → ∃ e, group_means cols g = Raise e.
Proof.
  intros Hc Hs. induction cols as [|c0 cols IH]; [by apply elem_of_nil in Hc|].
  simpl. destruct (mean (default [] (getcol c0 g))) as [m|e'] eqn:Hm; simpl;
    [|by eexists].
  apply elem_of_cons in Hc as [->|Hc].
  - unfold mean in Hm. destruct (sum_count_text _ _ Hs) as [e He].
    by rewrite He in Hm.
  - destruct (IH Hc) as [e ->]. by eexists.
Qed.

(** X14: when a target column of the table holds a text cell, no
    prevalence table is returned: the call raises a TypeError. *)
Theorem prevalence_table_text_cell (df : DataFrame) (c : string)
    (col : list value) (s : string) :
  c ∈ present_targets df → getcol c df = Some col → VStr s ∈ col →
  ∃ msg, prevalence_table df = Raise (TypeError msg).
Proof.
  intros Hc Hcol Hs. unfold prevalence_table.
  change (List.filter (λ c, has_column c df) TARGETS) with (present_targets df).
  cbv zeta.
  destruct (present_targets df) as [|c0 cs] eqn:Hcols;
    [by apply elem_of_nil in Hc|].
  destruct (group_means_text (c0 :: cs) df c s) as [e He];
    [done|by rewrite Hcol|].
  rewrite He. apply group_means_Raise in He as ->. by eexists.
Qed.

Lemma prevalence_table_text_cell_witness :
  ∃ msg, prevalence_table example_targets_text = Raise (TypeError msg).
Proof.
  apply (prevalence_table_text_cell example_targets_text "target_2"
           [VInt 1; VStr "yes"] "yes").
  - apply (bool_decide_unpack _). reflexivity.
  - reflexivity.
  - apply (bool_decide_unpack _). reflexivity.
Defined.

Lemma group_means_numeric (cols : list string) (g : DataFrame) :
  (∀ c, c ∈ cols → numeric_column (default [] (getcol c g))) →
  group_means cols g
  = Ok ((λ c, (c, numeric_mean (default [] (getcol c g)))) <$> cols).
Proof.
  induction cols as [|c cols IH]; intros Hnum; [done|].
  cbn [group_means]. rewrite mean_numeric by (apply Hnum; by left).
  cbn [mbind result_bind]. rewrite IH by (intros; apply Hnum; by right).
  done.
Qed.

Lemma add_groups_total (tag : string) (cols : list string)
    (groups : list (value * DataFrame))
    (out : PyDict.t (PyDict.t (option Q))) :
  Forall (λ kg, ∃ ms, group_means cols kg.2 = Ok ms) groups →
  ∃ out', add_groups tag cols groups out = Ok out'.
Proof.
  intros Hall. revert out.
  induction Hall as [|[k g] groups [ms Hms] _ IH]; intros out; simpl.
  - by eexists.
  - simpl in Hms. rewrite Hms. simpl. apply IH.
Qed.

Lemma add_groups_get (tag : string) (cols : list string)
    (groups : list (value * DataFrame))
    (out out' : PyDict.t (PyDict.t (option Q))) (l : string) :
  add_groups tag cols groups out = Ok out' →
  (∀ s, l ≠ tag +:+ "=" +:+ s) →
  PyDict.get l out' = PyDict.get l out.
Proof.
  intros Hadd Hl. revert out Hadd.
  induction groups as [|[k g] groups IH]; intros out; simpl.
  - by intros [= <-].
  - destruct (group_means cols g) as [ms|e]; simpl; [|done].
    intros Hadd. rewrite (IH _ Hadd). apply dict_get_set_ne.
    intros Heq. by apply (Hl (str_value k)).
Qed.

Lemma groupby_numeric (tag : string) (df : DataFrame) :
  (∀ c col, c ∈ present_targets df → getcol c df = Some col →
            numeric_column col) →
  Forall (λ kg, ∃ ms, group_means (present_targets df) kg.2 = Ok ms)
         (groupby tag df).
Proof.
  intros Hnum. unfold groupby. destruct (getcol tag df) as [keycol|]; [|done].
  apply Forall_fmap, Forall_forall. intros k _. simpl.
  eexists. apply group_means_numeric. intros c Hc.
  rewrite getcol_take_rows.
  destruct (getcol c df) as [col|] eqn:Hcol; simpl; [|constructor].
  apply select_Forall. by eapply Hnum.
Qed.

(** X15: when the target columns of the table hold integers and nulls
    only, and float64 sums them exactly (the number of the cells of a
    column and the absolute values of its integers add up to 2^53 at
    most), the prevalence table is returned, and its row "ALL" holds, for
    every target column, the mean of the cells that are not null (the
    exact quotient, where Python holds its nearest double): rows with a
    null target are left out of the quotient, and a column of nulls gives
    no value. *)
Theorem prevalence_table_skips_nulls (df : DataFrame) :
  (∀ c col, c ∈ present_targets df → getcol c df = Some col →
            numeric_column col) →
  (∀ c col, c ∈ present_targets df → getcol c df = Some col →
            float_exact col) →
  ∃ tbl,
    prevalence_table df = Ok tbl
    ∧ (present_targets df ≠ [] →
       ("ALL", (λ c, (c, numeric_mean (default [] (getcol c df))))
               <$> present_targets df) ∈ tbl).
Proof.
  intros Hnum _. unfold prevalence_table.
  change (List.filter (λ c, has_column c df) TARGETS) with (present_targets df).
  cbv zeta.
  destruct (present_targets df) as [|c0 cs] eqn:Hcols.
  { by exists []. }
  rewrite <-Hcols in Hnum |- *.
  rewrite group_means_numeric; last first.
  { intros c Hc. destruct (getcol c df) as [col|] eqn:Hcol; [|constructor].
    simpl. by apply (Hnum c). }
  cbn [mbind result_bind].
  match goal with
  | |- context [PyDict.set "ALL" ?a []] =>
      set (all := a); set (out0 := PyDict.set "ALL" all [])
  end.
  assert (∃ out1, (if has_column "mon" df
                   then add_groups "mon" (present_targets df) (groupby "mon" df) out0
                   else Ok out0) = Ok out1
                  ∧ PyDict.get "ALL" out1 = Some all) as (out1 & Hout1 & Hall1).
  { destruct (has_column "mon" df); [|by exists out0].
    destruct (add_groups_total "mon" (present_targets df) (groupby "mon" df) out0)
      as [out1 Hadd]; [by apply groupby_numeric|].
    exists out1. split; [done|].
    rewrite (add_groups_get _ _ _ _ _ "ALL" Hadd); [done|].
    intros s Hs. by vm_compute in Hs. }
  assert (∃ out2, (if has_column "fold" df
                   then add_groups "fold" (present_targets df) (groupby "fold" df) out1
                   else Ok out1) = Ok out2
                  ∧ PyDict.get "ALL" out2 = Some all) as (out2 & Hout2 & Hall2).
  { destruct (has_column "fold" df); [|by exists out1].
    destruct (add_groups_total "fold" (present_targets df) (groupby "fold" df) out1)
      as [out2 Hadd]; [by apply groupby_numeric|].
    exists out2. split; [done|].
    rewrite (add_groups_get _ _ _ _ _ "ALL" Hadd); [done|].
    intros s Hs. by vm_compute in Hs. }
  exists (sort_index out2). split.
  - eapply result_bind_Ok; [exact Hout1|].
    eapply result_bind_Ok; [exact Hout2|done].
  - intros _. unfold sort_index. rewrite merge_sort_Permutation.
    by apply dict_get_elem_of.
Qed.

Lemma prevalence_table_skips_nulls_witness :
  ∃ tbl,
    prevalence_table example_targets_nulls = Ok tbl
    ∧ (present_targets example_targets_nulls ≠ [] →
       ("ALL", (λ c, (c, numeric_mean
                           (default [] (getcol c example_targets_nulls))))
               <$> present_targets example_targets_nulls) ∈ tbl).
Proof.
  apply prevalence_table_skips_nulls.
  - intros c col Hc Hcol. vm_compute in Hc.
    repeat (apply elem_of_cons in Hc as [->|Hc]);
      [vm_compute in Hcol; injection Hcol as <-;
       repeat (apply Forall_cons_2; [done|]); apply Forall_nil_2..|].
    by apply elem_of_nil in Hc.
  - intros c col Hc Hcol. vm_compute in Hc.
    repeat (apply elem_of_cons in Hc as [->|Hc]);
      [vm_compute in Hcol; injection Hcol as <-;
       apply (bool_decide_unpack _); reflexivity..|].
    by apply elem_of_nil in Hc.
Defined.

Example prevalence_nulls_example :
  prevalence_table example_targets_nulls
  = Ok [("ALL", [("target_1", Some (2 # 3))]);
        ("fold=0", [("target_1", Some (1 # 1))]);
        ("fold=1", [("target_1", Some (1 # 2))])].
Proof. vm_compute. reflexivity. Qed.

(** ** Clients in more than one fold *)

Lemma cells_where_elem_of (keycol : list value) (k : value) (c : list value)
    (f : value) :
  f ∈ cells_where keycol k c ↔
  ∃ i, keycol !! i = Some k ∧ c !! i = Some f.
Proof.
  unfold cells_where, select. revert c.
  induction keycol as [|v keycol IH]; intros c.
  - simpl. split; [by intros ?%elem_of_nil|by intros (i & ? & _)].
  - destruct c as [|f0 c].
    + simpl. split; [by intros ?%elem_of_nil|by intros (i & _ & ?)].
    + rewrite fmap_cons. cbn [zip_with List.filter fst].
      destruct (bool_decide (v = k)) eqn:Hv.
      * apply bool_decide_eq_true in Hv as ->.
        rewrite fmap_cons, elem_of_cons, IH. cbn [snd]. split.
        -- intros [->|(i & ? & ?)]; [by exists 0%nat|by exists (S i)].
        -- intros ([|i] & Hk & Hf); simpl in *; [left; congruence|right; eauto].
      * apply bool_decide_eq_false in Hv. rewrite IH. split.
        -- intros (i & ? & ?). by exists (S i).
        -- intros ([|i] & Hk & Hf); simpl in *; [congruence|eauto].
Qed.

Lemma NoDup_two {A : Type} (l : list A) :
  NoDup l → (1 < length l)%nat ↔ ∃ x y, x ∈ l ∧ y ∈ l ∧ x ≠ y.
Proof.
  intros Hnd. split.
  - destruct l as [|x [|y l]]; simpl; [lia|lia|]. intros _.
    exists x, y. split_and!; [by left|right; by left|].
    apply NoDup_cons in Hnd as [Hx _]. intros ->. apply Hx. by left.
  - intros (x & y & Hx & Hy & Hne).
    destruct l as [|a [|b l]]; simpl; [by apply elem_of_nil in Hx| |lia].
    apply list_elem_of_singleton in Hx, Hy. congruence.
Qed.

(** A group has more than one distinct fold when two of its cells are
    different folds. *)
Lemma nunique_two (c : list value) :
  (1 < nunique c)%nat ↔
  ∃ f1 f2, f1 ∈ c ∧ f2 ∈ c ∧ f1 ≠ VNull ∧ f2 ≠ VNull ∧ f1 ≠ f2.
Proof.
  unfold nunique.
  rewrite NoDup_two by (unfold distinct_values; apply NoDup_remove_dups).
  split.
  - intros (x & y & [? ?]%distinct_values_elem_of
              & [? ?]%distinct_values_elem_of & ?). by exists x, y.
  - intros (x & y & ? & ? & ? & ? & ?).
    exists x, y. by rewrite !distinct_values_elem_of.
Qed.

Lemma group_keys_elem_of (keycol : list value) (k : value) :
  k ∈ group_keys keycol ↔ k ∈ keycol ∧ k ≠ VNull.
Proof. by rewrite group_keys_Permutation, distinct_values_elem_of. Qed.

(** The rows of the report: the clients of the table with more than one
    distinct fold, with the number of their folds. *)
Lemma leak_rows_elem_of (cid fold : list value) (k : value) (n : nat) :
  (k, n) ∈ List.filter (λ kn, (1 <? kn.2)%nat) (folds_per_client cid fold) ↔
  k ∈ cid ∧ k ≠ VNull ∧ n = nunique (cells_where cid k fold) ∧ (1 < n)%nat.
Proof.
  rewrite list_elem_of_In, List.filter_In, <-list_elem_of_In.
  unfold folds_per_client. rewrite list_elem_of_fmap. cbn [snd].
  rewrite Nat.ltb_lt. split.
  - intros [(k' & [= -> ->] & [? ?]%group_keys_elem_of) ?]. done.
  - intros (? & ? & -> & ?). split; [|done].
    exists k. split; [done|]. by apply group_keys_elem_of.
Qed.

Section leakage.

Variable client_split : DataFrame.
Variables cid fold : list value.
Hypothesis client_id_column : getcol "client_id" client_split = Some cid.
Hypothesis fold_column : getcol "fold" client_split = Some fold.

Lemma leakage_report_unfold :
  leakage_report client_split
  = let leak := List.filter (λ kn, (1 <? kn.2)%nat) (folds_per_client cid fold) in
    {| nrows := length leak;
       cols := [("client_id", leak.*1);
                ("n_folds_distintos", (λ kn, VInt (Z.of_nat kn.2)) <$> leak)] |}.
Proof.
  unfold leakage_report.
  rewrite (proj2 (has_column_getcol "client_id" client_split))
    by (rewrite client_id_column; eauto).
  rewrite (proj2 (has_column_getcol "fold" client_split))
    by (rewrite fold_column; eauto).
  by rewrite client_id_column, fold_column.
Qed.

(** X16: a client is in the report exactly when the table has two rows
    of that client whose folds are different and not null. *)
Theorem leakage_report_clients (ids : list value) (k : value) :
  getcol "client_id" (leakage_report client_split) = Some ids →
  k ∈ ids ↔
  k ≠ VNull ∧
  ∃ i j f1 f2,
    cid !! i = Some k ∧ fold !! i = Some f1 ∧
    cid !! j = Some k ∧ fold !! j = Some f2 ∧
    f1 ≠ VNull ∧ f2 ≠ VNull ∧ f1 ≠ f2.
Proof.
  rewrite leakage_report_unfold. cbv zeta. unfold getcol. simpl.
  intros [= <-]. rewrite list_elem_of_fmap. split.
  - intros ([k' n] & -> & (Hk & Hnull & -> & Hn)%leak_rows_elem_of).
    split; [done|]. simpl.
    apply nunique_two in Hn as (f1 & f2 & Hf1 & Hf2 & ? & ? & ?).
    apply cells_where_elem_of in Hf1 as (i & ? & ?).
    apply cells_where_elem_of in Hf2 as (j & ? & ?).
    by exists i, j, f1, f2.
  - intros (Hnull & i & j & f1 & f2 & Hi & Hf1 & Hj & Hf2 & ? & ? & ?).
    exists (k, nunique (cells_where cid k fold)). split; [done|].
    apply leak_rows_elem_of. split_and!; [|done|done|].
    + by eapply list_elem_of_lookup_2.
    + apply nunique_two. exists f1, f2.
      split_and!; [apply cells_where_elem_of; eauto..|done|done|done].
Qed.

(** X17: the report is a well-formed table with the columns client_id
    and n_folds_distintos; no client is listed twice; the number on the
    row of a client is the number of the distinct folds of its rows, and
    it is 2 at least. *)
Theorem leakage_report_shape :
  wf_frame (leakage_report client_split)
  ∧ df_columns (leakage_report client_split) = ["client_id"; "n_folds_distintos"]
  ∧ ∃ ids counts,
      getcol "client_id" (leakage_report client_split) = Some ids
      ∧ getcol "n_folds_distintos" (leakage_report client_split) = Some counts
      ∧ NoDup ids
      ∧ ∀ i k, ids !! i = Some k →
               counts !! i = Some (VInt (Z.of_nat (nunique (cells_where cid k fold))))
               ∧ (2 ≤ nunique (cells_where cid k fold))%nat.
Proof.
  rewrite leakage_report_unfold. cbv zeta.
  set (leak := List.filter (λ kn, (1 <? kn.2)%nat) (folds_per_client cid fold)).
  split_and!.
  - split.
    + apply (bool_decide_unpack _). reflexivity.
    + repeat constructor; simpl; by rewrite length_fmap.
  - done.
  - exists (leak.*1), ((λ kn, VInt (Z.of_nat kn.2)) <$> leak).
    split_and!; [done|done| |].
    + apply (sublist_NoDup _ ((folds_per_client cid fold).*1)).
      * unfold folds_per_client. rewrite <-list_fmap_compose.
        rewrite (list_fmap_ext _ id (group_keys cid)) by done.
        rewrite list_fmap_id, group_keys_Permutation.
        apply NoDup_remove_dups.
      * apply fmap_sublist, List_filter_sublist.
    + intros i k Hi. rewrite list_lookup_fmap in Hi |- *.
      destruct (leak !! i) as [[k' n]|] eqn:Hleak; [|done].
      simpl in Hi. injection Hi as ->.
      apply list_elem_of_lookup_2, leak_rows_elem_of in Hleak
        as (_ & _ & -> & ?).
      split; [done|lia].
Qed.

(** X18: when no client of the table has two rows with different folds,
    the report has no row. *)
Theorem leakage_report_clean_split :
  (∀ i j k f1 f2,
     cid !! i = Some k → cid !! j = Some k →
     fold !! i = Some f1 → fold !! j = Some f2 →
     f1 ≠ VNull → f2 ≠ VNull → f1 = f2) →
  nrows (leakage_report client_split) = 0%nat.
Proof.
  intros Hone. rewrite leakage_report_unfold. cbv zeta. simpl.
  destruct (List.filter _ (folds_per_client cid fold)) as [|[k n] leak] eqn:Hleak;
    [done|].
  assert ((k, n) ∈ List.filter (λ kn, (1 <? kn.2)%nat)
                     (folds_per_client cid fold)) as Hin
    by (rewrite Hleak; by left).
  apply leak_rows_elem_of in Hin as (_ & _ & -> & Hn).
  apply nunique_two in Hn as (f1 & f2 & Hf1 & Hf2 & ? & ? & Hne).
  apply cells_where_elem_of in Hf1 as (i & ? & ?).
  apply cells_where_elem_of in Hf2 as (j & ? & ?).
  destruct Hne. by eapply (Hone i j).
Qed.

End leakage.

Example leakage_scenario :
  leakage_report example_split
  = {| nrows := 1;
       cols := [("client_id", [VInt 1]); ("n_folds_distintos", [VInt 2])] |}.
Proof. vm_compute. reflexivity. Qed.

Lemma leakage_report_clients_witness :
  VInt 1 ∈ [VInt 1] ↔
  VInt 1 ≠ VNull ∧
  ∃ i j f1 f2,
    [VInt 1; VInt 1; VInt 2] !! i = Some (VInt 1) ∧
    [VInt 0; VInt 1; VInt 0] !! i = Some f1 ∧
    [VInt 1; VInt 1; VInt 2] !! j = Some (VInt 1) ∧
    [VInt 0; VInt 1; VInt 0] !! j = Some f2 ∧
    f1 ≠ VNull ∧ f2 ≠ VNull ∧ f1 ≠ f2.
Proof.
  apply (leakage_report_clients example_split); reflexivity.
Defined.

Lemma leakage_report_shape_witness :
  wf_frame (leakage_report example_split)
  ∧ df_columns (leakage_report example_split) = ["client_id"; "n_folds_distintos"]
  ∧ ∃ ids counts,
      getcol "client_id" (leakage_report example_split) = Some ids
      ∧ getcol "n_folds_distintos" (leakage_report example_split) = Some counts
      ∧ NoDup ids
      ∧ ∀ i k, ids !! i = Some k →
               counts !! i
               = Some (VInt (Z.of_nat (nunique
                   (cells_where [VInt 1; VInt 1; VInt 2] k
                      [VInt 0; VInt 1; VInt 0]))))
               ∧ (2 ≤ nunique (cells_where [VInt 1; VInt 1; VInt 2] k
                                 [VInt 0; VInt 1; VInt 0]))%nat.
Proof.
  apply (leakage_report_shape example_split); reflexivity.
Defined.

Lemma leakage_report_clean_split_witness :
  nrows (leakage_report example_clean_split) = 0%nat.
Proof.
  apply (leakage_report_clean_split example_clean_split
           [VInt 1; VInt 1; VInt 2] [VInt 0; VInt 0; VInt 1]);
    [reflexivity|reflexivity|].
  intros i j k f1 f2 Hi Hj Hf1 Hf2 _ _.
  destruct i as [|[|[|i]]], j as [|[|[|j]]]; by simplify_eq/=.
Defined.

(** ** [volumetria_report] *)

Lemma group_keys_NoDup (c : list value) : NoDup (group_keys c).
Proof. rewrite group_keys_Permutation. apply NoDup_remove_dups. Qed.

(** The rows of the groups of distinct keys are the rows whose key is
    one of them. *)
Lemma count_by_keys {A : Type} `{EqDecision A} (l ks : list A) :
  NoDup ks →
  sum_list ((λ k, length (List.filter (λ v, bool_decide (v = k)) l)) <$> ks)
  = length (List.filter (λ v, bool_decide (v ∈ ks)) l).
Proof.
  induction 1 as [|k ks Hk _ IH].
  - induction l as [|v l IHl]; [done|].
    cbn [List.filter]. rewrite bool_decide_eq_false_2; [done|apply not_elem_of_nil].
  - rewrite fmap_cons. cbn [sum_list_with id]. rewrite IH. clear IH.
    induction l as [|v l IHl]; [done|]. cbn [List.filter].
    destruct (decide (v = k)) as [->|Hne].
    + rewrite (bool_decide_eq_true_2 (k = k)) by done.
      rewrite (bool_decide_eq_true_2 (k ∈ k :: ks)) by (by left).
      rewrite (bool_decide_eq_false_2 (k ∈ ks)) by done.
      cbn [length]. lia.
    + rewrite (bool_decide_eq_false_2 (v = k)) by done.
      destruct (decide (v ∈ ks)) as [Hin|Hnin].
      * rewrite (bool_decide_eq_true_2 (v ∈ ks)) by done.
        rewrite (bool_decide_eq_true_2 (v ∈ k :: ks)) by (by right).
        cbn [length]. lia.
      * rewrite (bool_decide_eq_false_2 (v ∈ ks)) by done.
        rewrite (bool_decide_eq_false_2 (v ∈ k :: ks)); [done|].
        rewrite elem_of_cons. tauto.
Qed.

Lemma group_size_total (l : list value) :
  sum_list (group_size l <$> group_keys l)
  = length (List.filter (λ v, bool_decide (v ≠ VNull)) l).
Proof.
  unfold group_size. rewrite count_by_keys by apply group_keys_NoDup.
  f_equal. apply List.filter_ext_in. intros v Hv%list_elem_of_In.
  apply bool_decide_ext. rewrite group_keys_elem_of. tauto.
Qed.

Lemma dict_set_all_fresh {V : Type} (kvs : list (string * V)) (out : PyDict.t V) :
  NoDup (PyDict.keys out ++ kvs.*1) →
  fold_left (λ d kv, PyDict.set kv.1 kv.2 d) kvs out = out ++ kvs.
Proof.
  revert out. induction kvs as [|[k v] kvs IH]; intros out Hnd; simpl.
  - by rewrite app_nil_r.
  - rewrite dict_set_fresh.
    + rewrite IH; [by rewrite <-app_assoc|].
      unfold PyDict.keys in *. rewrite fmap_app, <-app_assoc. exact Hnd.
    + apply NoDup_app in Hnd as (_ & Hdisj & _). intros Hin.
      apply (Hdisj _ Hin). by left.
Qed.

Lemma rows_per_month_typed (mon : list value) :
  typed_column mon →
  rows_per_month mon
  = (λ k, (str_value k, group_size mon k)) <$> group_keys mon.
Proof.
  intros Htyped. unfold rows_per_month.
  rewrite <-(app_nil_l (_ <$> group_keys mon)).
  rewrite <-dict_set_all_fresh.
  - generalize (@nil (string * nat)). 
    induction (group_keys mon) as [|k ks IH]; intros out; simpl; [done|].
    apply IH.
  - simpl. rewrite <-list_fmap_compose.
    apply NoDup_fmap_2_strong; [|apply group_keys_NoDup].
    intros k1 k2 Hk1 Hk2. simpl.
    rewrite group_keys_Permutation in Hk1, Hk2.
    by apply (str_value_inj_typed mon).
Qed.

Lemma assoc_set_fresh {K V : Type} `{EqDecision K} (k : K) (v : V)
    (d : list (K * V)) :
  k ∉ d.*1 → assoc_set k v d = d ++ [(k, v)].
Proof.
  induction d as [|[k0 v0] d IH]; [done|].
  rewrite fmap_cons, not_elem_of_cons. cbn [fst]. intros [Hne Hk].
  cbn [assoc_set]. rewrite decide_False by done. by rewrite IH.
Qed.

Lemma filter_complement_length {A : Type} (P : A → Prop) `{∀ x, Decision (P x)}
    (l : list A) :
  (length (List.filter (λ v, bool_decide (¬ P v)) l)
   + length (List.filter (λ v, bool_decide (P v)) l) = length l)%nat.
Proof.
  induction l as [|v l IH]; [done|]. cbn [List.filter].
  destruct (decide (P v)).
  - rewrite (bool_decide_eq_true_2 (P v)), (bool_decide_eq_false_2 (¬ P v)) by tauto.
    cbn [length]. lia.
  - rewrite (bool_decide_eq_false_2 (P v)), (bool_decide_eq_true_2 (¬ P v)) by tauto.
    cbn [length]. lia.
Qed.

Lemma getcol_length (df : DataFrame) (k : string) (c : list value) :
  wf_frame df → getcol k df = Some c → length c = nrows df.
Proof.
  intros [_ Hlen] Hc. apply dict_get_elem_of in Hc.
  rewrite Forall_forall in Hlen. exact (Hlen _ Hc).
Qed.

Section volumetria_facts.

Variable py_int : value → result Z.

(** What a returned report holds of the metrics that no conversion
    can stop. *)
Lemma volumetria_report_Ok (targets client_split : DataFrame) (vol : volumetria) :
  volumetria_report py_int targets client_split = Ok vol →
  rows_targets_total vol = nrows targets
  ∧ rows_por_mes vol
    = (if has_column "mon" targets
       then Some (rows_per_month (default [] (getcol "mon" targets)))
       else None)
  ∧ n_clients_total vol
    = (if has_column "client_id" client_split
       then Some (nunique (default [] (getcol "client_id" client_split)))
       else None)
  ∧ (if has_column "mon" targets && has_column "fold" targets then
       let mon := default [] (getcol "mon" targets) in
       let fold := default [] (getcol "fold" targets) in
       d ← rows_per_month_fold py_int
             ((λ p, (p, pair_size mon fold p)) <$> pair_keys mon fold) [];
       mret (Some d)
     else mret None) = Ok (rows_por_mes_fold vol).
Proof.
  unfold volumetria_report. intros H.
  match type of H with mbind _ ?x = _ => destruct x as [clients|e] eqn:Hx end;
    [|done].
  cbn [mbind result_bind] in H. cbv zeta in H.
  match type of H with
  | mbind _ ?y = _ => destruct y as [bmf|e] eqn:Hy
  end; [|done].
  cbn [mret result_ret] in H. injection H as <-. cbn.
  split_and!; [done..| |done].
  destruct (has_column "client_id" client_split);
    [|by injection Hx as <-].
  match type of Hx with mbind _ ?x = _ => destruct x as [pf|e] end;
    [|done].
  cbn [mbind result_bind mret result_ret] in Hx. by injection Hx as <-.
Qed.

(** X20: when the months of a well-formed targets table are a key
    column (integers and no null, or strings, with nulls maybe), a volume
    report that is returned counts the rows by month without losing one:
    the labels are distinct, every month of the table is found under its
    text (the digits of an integer, a string as it is) with the number of
    its rows, every label is such a month, and the counts and the rows
    without a month add up to [rows_targets_total]. *)
Theorem volumetria_rows_per_month (targets client_split : DataFrame)
    (vol : volumetria) (mon : list value) :
  wf_frame targets →
  getcol "mon" targets = Some mon →
  key_column mon →
  volumetria_report py_int targets client_split = Ok vol →
  ∃ d, rows_por_mes vol = Some d
     ∧ NoDup (PyDict.keys d)
     ∧ (∀ k, k ∈ mon → k ≠ VNull →
            PyDict.get (key_text k) d
            = Some (length (List.filter (λ v, bool_decide (v = k)) mon)))
     ∧ (∀ label, label ∈ PyDict.keys d →
            ∃ k, k ∈ mon ∧ k ≠ VNull ∧ label = key_text k)
     ∧ (sum_list d.*2
        + length (List.filter (λ v, bool_decide (v = VNull)) mon)
        = rows_targets_total vol)%nat.
Proof.
  intros Hwf Hmon Htyped%key_column_typed
    (Hrows & Hmes & _ & _)%volumetria_report_Ok.
  assert (has_column "mon" targets = true) as Hhas
    by (apply has_column_getcol; by rewrite Hmon).
  rewrite Hhas, Hmon in Hmes. change (default [] (Some mon)) with mon in Hmes.
  rewrite rows_per_month_typed in Hmes by done.
  eexists. split; [exact Hmes|].
  assert (NoDup (PyDict.keys ((λ k, (str_value k, group_size mon k))
                              <$> group_keys mon))) as Hnd.
  { unfold PyDict.keys. rewrite <-list_fmap_compose.
    apply NoDup_fmap_2_strong; [|apply group_keys_NoDup].
    intros k1 k2 Hk1 Hk2. cbn.
    rewrite group_keys_Permutation in Hk1, Hk2.
    by apply (str_value_inj_typed mon). }
  split_and!.
  - exact Hnd.
  - intros k Hk Hnn. apply dict_elem_of_get; [exact Hnd|].
    apply list_elem_of_fmap. exists k. split; [|by apply group_keys_elem_of].
    by rewrite str_value_key_text.
  - intros label Hl. unfold PyDict.keys in Hl.
    rewrite <-list_fmap_compose in Hl.
    apply list_elem_of_fmap in Hl as (k & -> & [? ?]%group_keys_elem_of).
    exists k. split_and!; [done..|]. by apply str_value_key_text.
  - rewrite <-list_fmap_compose.
    rewrite (list_fmap_ext _ (group_size mon) (group_keys mon)) by done.
    rewrite group_size_total, Hrows, <-(getcol_length _ _ _ Hwf Hmon).
    unfold group_size.
    apply (filter_complement_length (λ v, v = VNull)).
Qed.


(** X21: the two reports on a split agree: when the volume report is
    returned for a split with the column client_id, it holds the number
    of clients, and the leakage report of that split has no more rows than
    that. *)
Theorem leakage_within_clients (targets client_split : DataFrame)
    (vol : volumetria) :
  volumetria_report py_int targets client_split = Ok vol →
  has_column "client_id" client_split = true →
  ∃ n, n_clients_total vol = Some n
     ∧ (nrows (leakage_report client_split) ≤ n)%nat.
Proof.
  intros (_ & _ & Hn & _)%volumetria_report_Ok Hcid. rewrite Hcid in Hn.
  eexists. split; [exact Hn|].
  unfold leakage_report. rewrite Hcid. cbn [andb].
  destruct (has_column "fold" client_split); [|unfold empty_frame];
    cbn [nrows]; [|lia].
  etransitivity; [apply List.filter_length_le|].
  unfold folds_per_client, nunique.
  by rewrite length_fmap, group_keys_Permutation.
Qed.


(** *** Integer folds *)

Hypothesis py_int_int : ∀ z, py_int (VInt z) = Ok z.

Lemma clients_per_fold_ints (items : list (value * nat)) (acc : list (Z * nat)) :
  Forall (λ kv, ∃ z, kv.1 = VInt z) items →
  clients_per_fold py_int items acc
  = Ok (fold_left (λ d kv, assoc_set kv.1 kv.2 d)
                  ((λ kv, (int_of_value kv.1, kv.2)) <$> items) acc).
Proof.
  intros Hall. revert acc.
  induction Hall as [|[k v] items [z Hz] _ IH]; intros acc; [done|].
  cbn [fst] in Hz. subst k. cbn [clients_per_fold]. rewrite py_int_int.
  cbn [mbind result_bind]. by rewrite IH.
Qed.

Lemma rows_per_month_fold_ints (items : list (value * value * nat))
    (acc : PyDict.t nat) :
  Forall (λ it, ∃ z, it.1.2 = VInt z) items →
  rows_per_month_fold py_int items acc
  = Ok (fold_left (λ d kv, PyDict.set kv.1 kv.2 d)
          ((λ it, (str_value it.1.1 +:+ "|" +:+ pretty (int_of_value it.1.2),
                   it.2)) <$> items) acc).
Proof.
  intros Hall. revert acc.
  induction Hall as [|[[m f] v] items [z Hz] _ IH]; intros acc; [done|].
  cbn [fst snd] in Hz. subst f. cbn [rows_per_month_fold]. rewrite py_int_int.
  cbn [mbind result_bind]. by rewrite IH.
Qed.

End volumetria_facts.

Lemma assoc_set_all_fresh {K V : Type} `{EqDecision K} (kvs acc : list (K * V)) :
  NoDup (acc.*1 ++ kvs.*1) →
  fold_left (λ d kv, assoc_set kv.1 kv.2 d) kvs acc = acc ++ kvs.
Proof.
  revert acc. induction kvs as [|[k v] kvs IH]; intros acc Hnd; simpl.
  - by rewrite app_nil_r.
  - rewrite assoc_set_fresh.
    + rewrite IH; [by rewrite <-app_assoc|].
      rewrite fmap_app, <-app_assoc. exact Hnd.
    + apply NoDup_app in Hnd as (_ & Hdisj & _). intros Hin.
      apply (Hdisj _ Hin). by left.
Qed.

Lemma numeric_group_key (c : list value) (k : value) :
  numeric_column c → k ∈ group_keys c → ∃ z, k = VInt z.
Proof.
  intros Hnum [Hk Hnn]%group_keys_elem_of.
  unfold numeric_column in Hnum. rewrite Forall_forall in Hnum.
  specialize (Hnum _ Hk). destruct k as [|z|s]; [done|by exists z|done].
Qed.

Lemma pair_keys_elem_of (col1 col2 : list value) (p : value * value) :
  p ∈ pair_keys col1 col2 ↔ p ∈ zip col1 col2 ∧ p.1 ≠ VNull ∧ p.2 ≠ VNull.
Proof.
  unfold pair_keys. rewrite merge_sort_Permutation, elem_of_remove_dups.
  rewrite list_elem_of_In, List.filter_In, <-list_elem_of_In.
  by rewrite andb_true_iff, !bool_decide_eq_true.
Qed.

Lemma pair_keys_NoDup (col1 col2 : list value) : NoDup (pair_keys col1 col2).
Proof. unfold pair_keys. rewrite merge_sort_Permutation. apply NoDup_remove_dups. Qed.

Lemma numeric_pair_key (col1 col2 : list value) (p : value * value) :
  numeric_column col2 → p ∈ pair_keys col1 col2 → ∃ z, p.2 = VInt z.
Proof.
  intros Hnum (Hp & _ & Hnn)%pair_keys_elem_of.
  destruct p as [m f]. apply elem_of_zip_r in Hp. cbn [snd] in *.
  unfold numeric_column in Hnum. rewrite Forall_forall in Hnum.
  specialize (Hnum _ Hp). destruct f as [|z|s]; [done|by exists z|done].
Qed.

Lemma contains_app_sep (c : ascii) (a b : string) :
  PyStr.contains c (a +:+ String c b) = true.
Proof.
  induction a as [|x a IH].
  - simpl. by rewrite bool_decide_eq_true_2.
  - rewrite string_app_cons. simpl. rewrite IH. apply orb_true_r.
Qed.

(** A text is split in one way at its last separator. *)
Lemma app_sep_inj (c : ascii) (s1 s2 p1 p2 : string) :
  PyStr.contains c p1 = false → PyStr.contains c p2 = false →
  s1 +:+ String c p1 = s2 +:+ String c p2 → s1 = s2 ∧ p1 = p2.
Proof.
  intros H1 H2. revert s2.
  induction s1 as [|x s1 IH]; intros [|y s2] Heq.
  - by injection Heq.
  - rewrite string_app_cons in Heq. injection Heq as <- ->.
    by rewrite contains_app_sep in H1.
  - rewrite string_app_cons in Heq. injection Heq as -> <-.
    by rewrite contains_app_sep in H2.
  - rewrite !string_app_cons in Heq. injection Heq as -> Heq.
    destruct (IH _ Heq) as [-> ->]. done.
Qed.

Lemma pretty_Z_no_bar (z : Z) : PyStr.contains "|" (pretty z) = false.
Proof.
  assert (∀ n : N, PyStr.contains "|" (pretty n) = false) as HN.
  { intros n. destruct (int_pretty n) as [Hd _].
    apply all_digits_contains; [|done].
    unfold PyStr.fullmatch_digits in Hd. by destruct (pretty n). }
  destruct z as [|p|p]; [done|apply (HN (Npos p))|].
  change (pretty (Z.neg p)) with ("-" +:+ pretty (Npos p)).
  rewrite string_app_cons. simpl. apply (HN (Npos p)).
Qed.

Section volumetria_integer_folds.

Variable py_int : value → result Z.
Hypothesis py_int_int : ∀ z, py_int (VInt z) = Ok z.

Lemma clients_per_fold_numeric (cid fold : list value) :
  numeric_column fold →
  clients_per_fold py_int
    ((λ k, (k, nunique (cells_where fold k cid))) <$> group_keys fold) []
  = Ok ((λ k, (int_of_value k, nunique (cells_where fold k cid)))
        <$> group_keys fold).
Proof.
  intros Hnum. rewrite clients_per_fold_ints by first
    [ exact py_int_int
    | apply Forall_fmap, Forall_forall; intros k Hk; by eapply numeric_group_key ].
  rewrite <-list_fmap_compose. f_equal.
  rewrite assoc_set_all_fresh; [done|].
  cbn [fmap list_fmap app]. rewrite <-list_fmap_compose.
  apply NoDup_fmap_2_strong; [|apply group_keys_NoDup].
  intros k1 k2 [z1 ->]%(numeric_group_key _ _ Hnum)
    [z2 ->]%(numeric_group_key _ _ Hnum). cbn. by intros ->.
Qed.

Lemma rows_per_month_fold_numeric (mon fold : list value) :
  numeric_column fold →
  rows_per_month_fold py_int
    ((λ p, (p, pair_size mon fold p)) <$> pair_keys mon fold) []
  = Ok (fold_left (λ d kv, PyDict.set kv.1 kv.2 d)
          ((λ p, (pair_label p, pair_size mon fold p)) <$> pair_keys mon fold)
          []).
Proof.
  intros Hnum. rewrite rows_per_month_fold_ints by first
    [ exact py_int_int
    | apply Forall_fmap, Forall_forall; intros k Hk; by eapply numeric_pair_key ].
  by rewrite <-list_fmap_compose.
Qed.

Lemma pair_label_inj (mon fold : list value) (p1 p2 : value * value) :
  typed_column mon → numeric_column fold →
  p1 ∈ pair_keys mon fold → p2 ∈ pair_keys mon fold →
  pair_label p1 = pair_label p2 → p1 = p2.
Proof.
  intros Htyped Hnum Hp1 Hp2 Heq.
  destruct (numeric_pair_key _ _ _ Hnum Hp1) as [z1 Hz1].
  destruct (numeric_pair_key _ _ _ Hnum Hp2) as [z2 Hz2].
  apply pair_keys_elem_of in Hp1 as (Hin1 & Hn1 & _).
  apply pair_keys_elem_of in Hp2 as (Hin2 & Hn2 & _).
  destruct p1 as [m1 f1], p2 as [m2 f2]. cbn [fst snd] in *. subst f1 f2.
  unfold pair_label in Heq. cbn [fst snd int_of_value] in Heq.
  apply app_sep_inj in Heq as [Hm Hz]; [|apply pretty_Z_no_bar..].
  apply (inj pretty) in Hz as ->. f_equal.
  apply (str_value_inj_typed mon); [done| | |done];
    apply distinct_values_elem_of; split; [|done| |done].
  - by apply elem_of_zip_l in Hin1.
  - by apply elem_of_zip_l in Hin2.
Qed.


(** X22: when the folds of both tables are integers or null, and
    [int] returns an integer unchanged, the volume report is returned;
    for a split with clients and folds it has one entry a fold of the
    split, with the number of the distinct clients that have a row in
    that fold. *)
Theorem volumetria_report_integer_folds (targets client_split : DataFrame) :
  (∀ c, getcol "fold" client_split = Some c → numeric_column c) →
  (∀ c, getcol "fold" targets = Some c → numeric_column c) →
  ∃ vol, volumetria_report py_int targets client_split = Ok vol
    ∧ ∀ cid fold,
        getcol "client_id" client_split = Some cid →
        getcol "fold" client_split = Some fold →
        ∃ d, clientes_por_fold vol = Some d
           ∧ NoDup d.*1
           ∧ ∀ z n, (z, n) ∈ d ↔
                    VInt z ∈ fold ∧ n = nunique (cells_where fold (VInt z) cid).
Proof.
  intros Hcs Htg.
  assert (∃ bmf,
    (if has_column "mon" targets && has_column "fold" targets then
       let mon := default [] (getcol "mon" targets) in
       let fold := default [] (getcol "fold" targets) in
       d ← rows_per_month_fold py_int
             ((λ p, (p, pair_size mon fold p)) <$> pair_keys mon fold) [];
       mret (Some d)
     else mret None) = Ok bmf) as [bmf Hbmf].
  { destruct (has_column "mon" targets && has_column "fold" targets) eqn:Hboth;
      [|by eexists].
    apply andb_true_iff in Hboth as [_ [c Hc]%has_column_getcol].
    cbv zeta. rewrite Hc. change (default [] (Some c)) with c.
    rewrite rows_per_month_fold_numeric by eauto. by eexists. }
  destruct (getcol "client_id" client_split) as [cid|] eqn:Hcid.
  2: { eexists. split; [|by intros ? ? [=]].
       unfold volumetria_report. eapply result_bind_Ok.
       - apply has_column_getcol_None in Hcid. rewrite Hcid. reflexivity.
       - eapply result_bind_Ok; [exact Hbmf|reflexivity]. }
  destruct (getcol "fold" client_split) as [fold|] eqn:Hfold.
  2: { eexists. split; [|by intros ? ? _ [=]].
       unfold volumetria_report. eapply result_bind_Ok.
       - apply has_column_getcol_None in Hfold. rewrite Hfold.
         assert (has_column "client_id" client_split = true) as ->
           by (apply has_column_getcol; by rewrite Hcid).
         reflexivity.
       - eapply result_bind_Ok; [exact Hbmf|reflexivity]. }
  specialize (Hcs _ eq_refl).
  eexists. split.
  { unfold volumetria_report. eapply result_bind_Ok.
    - assert (has_column "client_id" client_split = true) as ->
        by (apply has_column_getcol; by rewrite Hcid).
      assert (has_column "fold" client_split = true) as ->
        by (apply has_column_getcol; by rewrite Hfold).
      rewrite Hcid, Hfold.
      change (default [] (Some cid)) with cid.
      change (default [] (Some fold)) with fold.
      rewrite clients_per_fold_numeric by done. reflexivity.
    - eapply result_bind_Ok; [exact Hbmf|reflexivity]. }
  intros ? ? [= <-] [= <-]. cbn. eexists. split; [reflexivity|].
  split.
  - rewrite <-list_fmap_compose.
    apply NoDup_fmap_2_strong; [|apply group_keys_NoDup].
    intros k1 k2 [z1 ->]%(numeric_group_key _ _ Hcs)
      [z2 ->]%(numeric_group_key _ _ Hcs). cbn. by intros ->.
  - intros z n. rewrite list_elem_of_fmap. split.
    + intros (k & [= -> ->] & Hk).
      destruct (numeric_group_key _ _ Hcs Hk) as [z ->].
      apply group_keys_elem_of in Hk as [? _]. done.
    + intros [Hz ->]. exists (VInt z). split; [done|].
      by apply group_keys_elem_of.
Qed.

(** X23: when the months are a key column (integers and no null, or
    strings, with nulls maybe) and the folds are integers or null, none
    beyond 2^53 in absolute value (a column with a null is float64), the
    labels [month|fold] of a returned volume report are distinct: every
    pair of a month and a fold on a row of the table is found under its
    label with the number of its rows, and the counts add up to the
    number of rows that have both a month and a fold. *)
Theorem volumetria_rows_per_month_fold (targets client_split : DataFrame)
    (vol : volumetria) (mon fold : list value) :
  getcol "mon" targets = Some mon →
  getcol "fold" targets = Some fold →
  key_column mon → numeric_column fold → float_held fold →
  volumetria_report py_int targets client_split = Ok vol →
  ∃ d, rows_por_mes_fold vol = Some d
     ∧ NoDup (PyDict.keys d)
     ∧ (∀ m z, (m, VInt z) ∈ zip mon fold → m ≠ VNull →
          PyDict.get (key_text m +:+ "|" +:+ pretty z) d
          = Some (length (List.filter (λ row, bool_decide (row = (m, VInt z)))
                            (zip mon fold))))
     ∧ sum_list d.*2
       = length (List.filter
                   (λ p, bool_decide (p.1 ≠ VNull) && bool_decide (p.2 ≠ VNull))
                   (zip mon fold)).
Proof.
  intros Hmon Hfold Htyped%key_column_typed Hnum _
    (_ & _ & _ & Hmf)%volumetria_report_Ok.
  assert (has_column "mon" targets = true) as Hhm
    by (apply has_column_getcol; by rewrite Hmon).
  assert (has_column "fold" targets = true) as Hhf
    by (apply has_column_getcol; by rewrite Hfold).
  rewrite Hhm, Hhf, Hmon, Hfold in Hmf. cbn [andb] in Hmf. cbv zeta in Hmf.
  change (default [] (Some mon)) with mon in Hmf.
  change (default [] (Some fold)) with fold in Hmf.
  rewrite rows_per_month_fold_numeric in Hmf by done.
  cbn [mbind result_bind mret result_ret] in Hmf. injection Hmf as Hmf.
  assert (NoDup (PyDict.keys ((λ p, (pair_label p, pair_size mon fold p))
                              <$> pair_keys mon fold))) as Hnd.
  { unfold PyDict.keys. rewrite <-list_fmap_compose.
    apply NoDup_fmap_2_strong; [|apply pair_keys_NoDup].
    intros p1 p2 Hp1 Hp2. cbn. by apply (pair_label_inj mon fold). }
  rewrite dict_set_all_fresh in Hmf by exact Hnd. cbn [app] in Hmf.
  eexists. split; [symmetry; exact Hmf|]. split_and!.
  - exact Hnd.
  - intros m z Hin Hnn. apply dict_elem_of_get; [exact Hnd|].
    apply list_elem_of_fmap. exists (m, VInt z). split;
      [|by apply pair_keys_elem_of].
    unfold pair_label, pair_size. cbn [fst snd int_of_value].
    by rewrite str_value_key_text.
  - rewrite <-list_fmap_compose.
    rewrite (list_fmap_ext _ (pair_size mon fold) (pair_keys mon fold)) by done.
    unfold pair_size. rewrite count_by_keys by apply pair_keys_NoDup.
    f_equal. apply List.filter_ext_in. intros p Hp%list_elem_of_In.
    apply Bool.eq_iff_eq_true.
    rewrite andb_true_iff, !bool_decide_eq_true, pair_keys_elem_of. tauto.
Qed.

End volumetria_integer_folds.

Example volumetria_scenario :
  volumetria_report example_int example_targets example_split
  = Ok example_volumetria.
Proof. vm_compute. reflexivity. Qed.

Lemma volumetria_rows_per_month_witness :
  ∃ d, rows_por_mes example_volumetria = Some d
     ∧ NoDup (PyDict.keys d)
     ∧ (∀ k, k ∈ [VStr "2022-01"; VStr "2022-02"; VStr "2022-01"; VNull;
                  VStr "2022-02"] →
            k ≠ VNull →
            PyDict.get (key_text k) d
            = Some (length (List.filter (λ v, bool_decide (v = k))
                              [VStr "2022-01"; VStr "2022-02"; VStr "2022-01";
                               VNull; VStr "2022-02"])))
     ∧ (∀ label, label ∈ PyDict.keys d →
            ∃ k, k ∈ [VStr "2022-01"; VStr "2022-02"; VStr "2022-01"; VNull;
                      VStr "2022-02"]
                 ∧ k ≠ VNull ∧ label = key_text k)
     ∧ (sum_list d.*2
        + length (List.filter (λ v, bool_decide (v = VNull))
                    [VStr "2022-01"; VStr "2022-02"; VStr "2022-01"; VNull;
                     VStr "2022-02"])
        = rows_targets_total example_volumetria)%nat.
Proof.
  apply (volumetria_rows_per_month example_int example_targets example_split).
  - split; apply (bool_decide_unpack _); reflexivity.
  - reflexivity.
  - right. repeat (apply Forall_cons_2; [exact I|]). apply Forall_nil_2.
  - vm_compute. reflexivity.
Defined.

Lemma leakage_within_clients_witness :
  ∃ n, n_clients_total example_volumetria = Some n
     ∧ (nrows (leakage_report example_split) ≤ n)%nat.
Proof.
  apply (leakage_within_clients example_int example_targets example_split);
    vm_compute; reflexivity.
Defined.

Lemma volumetria_report_integer_folds_witness :
  ∃ vol, volumetria_report example_int example_targets example_split = Ok vol
    ∧ ∀ cid fold,
        getcol "client_id" example_split = Some cid →
        getcol "fold" example_split = Some fold →
        ∃ d, clientes_por_fold vol = Some d
           ∧ NoDup d.*1
           ∧ ∀ z n, (z, n) ∈ d ↔
                    VInt z ∈ fold ∧ n = nunique (cells_where fold (VInt z) cid).
Proof.
  apply (volumetria_report_integer_folds example_int).
  - intros z. reflexivity.
  - intros c [= <-]. repeat (apply Forall_cons_2; [exact I|]). apply Forall_nil_2.
  - intros c [= <-]. repeat (apply Forall_cons_2; [exact I|]). apply Forall_nil_2.
Defined.

Lemma volumetria_rows_per_month_fold_witness :
  ∃ d, rows_por_mes_fold example_volumetria = Some d
     ∧ NoDup (PyDict.keys d)
     ∧ (∀ m z,
          (m, VInt z) ∈ zip [VStr "2022-01"; VStr "2022-02"; VStr "2022-01";
                             VNull; VStr "2022-02"]
                            [VInt 0; VInt 10; VInt 2; VInt 2; VInt 10] →
          m ≠ VNull →
          PyDict.get (key_text m +:+ "|" +:+ pretty z) d
          = Some (length (List.filter
                            (λ row, bool_decide (row = (m, VInt z)))
                            (zip [VStr "2022-01"; VStr "2022-02";
                                  VStr "2022-01"; VNull; VStr "2022-02"]
                                 [VInt 0; VInt 10; VInt 2; VInt 2; VInt 10]))))
     ∧ sum_list d.*2
       = length (List.filter
                   (λ p, bool_decide (p.1 ≠ VNull) && bool_decide (p.2 ≠ VNull))
                   (zip [VStr "2022-01"; VStr "2022-02"; VStr "2022-01";
                         VNull; VStr "2022-02"]
                        [VInt 0; VInt 10; VInt 2; VInt 2; VInt 10])).
Proof.
  apply (volumetria_rows_per_month_fold example_int (λ z, eq_refl)
           example_targets example_split).
  - reflexivity.
  - reflexivity.
  - right. repeat (apply Forall_cons_2; [exact I|]). apply Forall_nil_2.
  - repeat (apply Forall_cons_2; [exact I|]). apply Forall_nil_2.
  - repeat (apply Forall_cons_2; [by apply Z.leb_le|]). apply Forall_nil_2.
  - vm_compute. reflexivity.
Defined.
